(** * VintageFinance front end: charts.js and main.js

    A shallow embedding of the chart construction helpers
    ([static/js/charts.js]) and of the form, amount-field and notification
    handlers ([static/js/main.js]), with the properties the specification
    states about them.

    Layout:
    - [Js]     : the ECMAScript built-ins the two files call (binary64 numbers,
                 [Number.prototype.toFixed], [Number::toString], [parseFloat],
                 [String.prototype.trim], [Array.prototype.slice]);
    - [Charts] : charts.js over a small model of the charting library's objects;
    - [Main]   : main.js over a document tree, a timer queue and an exception
                 monad. *)

From Stdlib Require Import ZArith Lia Bool String Ascii List.
From Stdlib Require Import SpecFloat DecimalString.
From stdpp Require Import base option list strings gmap.

Local Open Scope Z_scope.

(* ===================================================================== *)
(** * ECMAScript built-ins *)
(* ===================================================================== *)

Module Js.

(** ** Numbers

    A JavaScript Number is an IEEE-754 binary64 value.  It is represented by
    [spec_float] at precision 53 and exponent bound 1024; arithmetic is the
    correctly rounded arithmetic of [SpecFloat]. *)

Definition number : Type := spec_float.

Definition prec : Z := 53.
Definition emax : Z := 1024.

Definition NaN : number := S754_nan.
Definition Infinity : number := S754_infinity false.

Definition of_Z (z : Z) : number := binary_normalize prec emax z 0 false.

Definition add (x y : number) : number := SFadd prec emax x y.
Definition mul (x y : number) : number := SFmul prec emax x y.
Definition div (x y : number) : number := SFdiv prec emax x y.

(** [x < y], [x <= y], [x > y]: false as soon as one side is NaN. *)
Definition lt (x y : number) : bool := SFltb x y.
Definition le (x y : number) : bool := SFleb x y.
Definition gt (x y : number) : bool := SFltb y x.

Definition isNaN (x : number) : bool :=
  match x with S754_nan => true | _ => false end.

(** ToBoolean on a Number: [+0], [-0] and [NaN] are falsy. *)
Definition truthy (x : number) : bool :=
  match x with S754_zero _ | S754_nan => false | _ => true end.

Definition number_eqb (x y : number) : bool :=
  match x, y with
  | S754_zero a, S754_zero b => Bool.eqb a b
  | S754_infinity a, S754_infinity b => Bool.eqb a b
  | S754_nan, S754_nan => true
  | S754_finite a m e, S754_finite b m' e' =>
      Bool.eqb a b && Pos.eqb m m' && Z.eqb e e'
  | _, _ => false
  end.

(** The Number nearest to [(-1)^neg * d * 10^k] (ties to even): the value of
    a decimal literal.  Exponents beyond the binary64 range are cut off
    before any power is computed; the result is the same. *)
Definition of_decimal (neg : bool) (d : Z) (k : Z) : number :=
  match d with
  | Zpos p =>
      if 400 <? k then S754_infinity neg
      else if k <? - (400 + Z.log2 d + 1) then S754_zero neg
      else if 0 <=? k then binary_round prec emax neg (p * Z.to_pos (10 ^ k)) 0
      else SFdiv prec emax (S754_finite neg p 0)
                           (S754_finite false (Z.to_pos (10 ^ (- k))) 0)
  | _ => S754_zero neg
  end.

(** ** Decimal digits *)

Definition digit_char (d : Z) : ascii := ascii_of_N (Z.to_N (48 + d)).

Definition is_digit (c : ascii) : bool :=
  let n := N_of_ascii c in (48 <=? n)%N && (n <=? 57)%N.

Definition digit_val (c : ascii) : Z := Z.of_N (N_of_ascii c) - 48.

(** The decimal representation of a non-negative integer, no leading zero. *)
Definition digits (z : Z) : string := NilZero.string_of_uint (N.to_uint (Z.to_N z)).

(** Exactly [f] decimal digits of [r], most significant first (zero padded). *)
Fixpoint frac_digits (f : nat) (r : Z) : string :=
  match f with
  | O => ""
  | S f' => String (digit_char ((r / 10 ^ Z.of_nat f') mod 10)) (frac_digits f' r)
  end.

Fixpoint zeros (n : nat) : string :=
  match n with O => "" | S n' => String "0" (zeros n') end.

(** The exact value [m * 2^e] of a positive finite number as a fraction. *)
Definition fraction (m : positive) (e : Z) : Z * Z :=
  if 0 <=? e then (Zpos m * 2 ^ e, 1) else (Zpos m, 2 ^ (- e)).

(** [floor (a/b * 10^j)]. *)
Definition scaled_floor (a b j : Z) : Z :=
  if 0 <=? j then (a * 10 ^ j) / b else a / (b * 10 ^ (- j)).

(** ** Number::toString (radix 10)

    ECMA-262, 6.1.6.1.20.  For a positive finite [x], [n], [k] and [s] are
    integers with [k >= 1], [10^(k-1) <= s < 10^k], [s * 10^(n-k)] reading
    back as [x], and [k] as small as possible; among several [s] the one
    nearest to [x] is taken (the even one on a tie). *)

(** The [n] with [10^(n-1) <= a/b < 10^n], for [a/b] positive. *)
Fixpoint first_nonzero (fuel : nat) (a b j : Z) : Z :=
  match fuel with
  | O => j
  | S fuel' => if 0 <? (a * 10 ^ j) / b then j else first_nonzero fuel' a b (j + 1)
  end.

Definition decimal_exponent (a b : Z) : Z :=
  let q := a / b in
  if 0 <? q then Z.of_nat (String.length (digits q))
  else 1 - first_nonzero 400 a b 1.

(** Search for the shortest digit string [s] of [k] digits, [k] growing:
    returns [(s, n)]. *)
Fixpoint shortest (fuel : nat) (x : number) (a b n k : Z) : Z * Z :=
  let lo := scaled_floor a b (k - n) in
  let hi := lo + 1 in
  let ok_lo := number_eqb (of_decimal false lo (n - k)) x in
  let ok_hi := number_eqb (of_decimal false hi (n - k)) x in
  let closer :=
    let '(a', b') := if 0 <=? k - n then (a * 10 ^ (k - n), b)
                     else (a, b * 10 ^ (n - k)) in
    match 2 * a' ?= (2 * lo + 1) * b' with
    | Lt => lo
    | Gt => hi
    | Eq => if Z.even lo then lo else hi
    end in
  let pick s := if s =? 10 ^ k then (10 ^ (k - 1), n + 1) else (s, n) in
  match fuel with
  | O => pick closer
  | S fuel' =>
      match ok_lo, ok_hi with
      | true, true => pick closer
      | true, false => pick lo
      | false, true => pick hi
      | false, false => shortest fuel' x a b n (k + 1)
      end
  end.

Definition string_head (s : string) : string :=
  match s with String c _ => String c "" | EmptyString => "" end.

Definition string_tail (s : string) : string :=
  match s with String _ r => r | EmptyString => "" end.

Definition exponent_text (e : Z) : string :=
  (if e <? 0 then "-" else "+") +:+ digits (Z.abs e).

Definition positive_to_string (x : number) (m : positive) (e : Z) : string :=
  let '(a, b) := fraction m e in
  let '(s, n) := shortest 17 x a b (decimal_exponent a b) 1 in
  let ds := digits s in
  let k := Z.of_nat (String.length ds) in
  if (k <=? n) && (n <=? 21) then ds +:+ zeros (Z.to_nat (n - k))
  else if (0 <? n) && (n <=? 21) then
    substring 0 (Z.to_nat n) ds +:+ "." +:+ substring (Z.to_nat n) (Z.to_nat (k - n)) ds
  else if (-6 <? n) && (n <=? 0) then "0." +:+ zeros (Z.to_nat (- n)) +:+ ds
  else if k =? 1 then ds +:+ "e" +:+ exponent_text (n - 1)
  else string_head ds +:+ "." +:+ string_tail ds +:+ "e" +:+ exponent_text (n - 1).

Definition toString (x : number) : string :=
  match x with
  | S754_nan => "NaN"
  | S754_zero _ => "0"
  | S754_infinity s => if s then "-Infinity" else "Infinity"
  | S754_finite s m e =>
      (if s then "-" else "") +:+ positive_to_string (S754_finite false m e) m e
  end.

(** ** Number.prototype.toFixed

    ECMA-262, 21.1.3.3: non-finite values print as [Number::toString] does;
    a value of magnitude at least 10^21 too; otherwise [n] is the integer
    nearest to [x * 10^f] (the larger one on a tie) and the last [f] digits
    of [n] follow the point. *)

Definition round_half_up (a b : Z) : Z := (2 * a + b) / (2 * b).

Definition fixed_digits (f : nat) (n : Z) : string :=
  let p := 10 ^ Z.of_nat f in
  match f with
  | O => digits n
  | S _ => digits (n / p) +:+ "." +:+ frac_digits f (n mod p)
  end.

(** [10^21 <= m * 2^e]. *)
Definition at_least_1e21 (m : positive) (e : Z) : bool :=
  10 ^ 21 <=? Z.shiftl (Zpos m) e.

Definition toFixed (f : nat) (x : number) : string :=
  match x with
  | S754_nan | S754_infinity _ => toString x
  | S754_zero _ => fixed_digits f 0
  | S754_finite s m e =>
      if at_least_1e21 m e then toString x
      else
        let '(a, b) := fraction m e in
        (if s then "-" else "") +:+
        fixed_digits f (round_half_up (a * 10 ^ Z.of_nat f) b)
  end.

(** ** Strings

    A string is kept as the bytes of its UTF-8 encoding.  The white space
    and line terminators of ECMA-262 are TAB, LF, VT, FF, CR, SP (one byte),
    U+00A0 (two bytes) and U+1680, U+2000..U+200A, U+2028, U+2029, U+202F,
    U+205F, U+3000, U+FEFF (three bytes). *)

Definition is_whitespace1 (c : ascii) : bool :=
  let n := N_of_ascii c in
  ((9 <=? n)%N && (n <=? 13)%N) || (n =? 32)%N.

Definition is_whitespace2 (c1 c2 : ascii) : bool :=
  (N_of_ascii c1 =? 194)%N && (N_of_ascii c2 =? 160)%N.

Definition is_whitespace3 (c1 c2 c3 : ascii) : bool :=
  let a := N_of_ascii c1 in
  let b := N_of_ascii c2 in
  let c := N_of_ascii c3 in
  ((a =? 225) && (b =? 154) && (c =? 128))%N
  || ((a =? 226) && (b =? 128) &&
      (((128 <=? c) && (c <=? 138)) || (c =? 168) || (c =? 169) || (c =? 175)))%N
  || ((a =? 226) && (b =? 129) && (c =? 159))%N
  || ((a =? 227) && (b =? 128) && (c =? 128))%N
  || ((a =? 239) && (b =? 187) && (c =? 191))%N.

(** Drops leading white space; with [backwards] the bytes of each character
    come in reverse order (the string is read from its end). *)
Fixpoint drop_whitespace (backwards : bool) (s : string) : string :=
  match s with
  | String c1 r1 =>
      if is_whitespace1 c1 then drop_whitespace backwards r1
      else
        match r1 with
        | String c2 r2 =>
            if (if backwards then is_whitespace2 c2 c1 else is_whitespace2 c1 c2)
            then drop_whitespace backwards r2
            else
              match r2 with
              | String c3 r3 =>
                  if (if backwards then is_whitespace3 c3 c2 c1
                      else is_whitespace3 c1 c2 c3)
                  then drop_whitespace backwards r3
                  else s
              | EmptyString => s
              end
        | EmptyString => s
        end
  | EmptyString => s
  end.

Definition trimStart (s : string) : string := drop_whitespace false s.

Definition string_rev (s : string) : string :=
  string_of_list_ascii (List.rev (list_ascii_of_string s)).

Definition trimEnd (s : string) : string :=
  string_rev (drop_whitespace true (string_rev s)).

(** [String.prototype.trim]. *)
Definition trim (s : string) : string := trimEnd (trimStart s).

(** ToBoolean on a String: only the empty string is falsy. *)
Definition string_truthy (s : string) : bool :=
  match s with EmptyString => false | _ => true end.

(** ** parseFloat

    ECMA-262, 19.2.4: leading white space is dropped, then the longest prefix
    that is a [StrDecimalLiteral] is read; there is none: NaN. *)

(** Reads a run of decimal digits, extending the value [acc] and the digit
    count [cnt]. *)
Fixpoint read_digits (s : string) (acc cnt : Z) : Z * Z * string :=
  match s with
  | String c r =>
      if is_digit c then read_digits r (10 * acc + digit_val c) (cnt + 1)
      else (acc, cnt, s)
  | EmptyString => (acc, cnt, s)
  end.

Definition read_sign (s : string) : bool * string :=
  match s with
  | String "-" r => (true, r)
  | String "+" r => (false, r)
  | _ => (false, s)
  end.

(** The [ExponentPart], when one is there: 0 otherwise. *)
Definition read_exponent (s : string) : Z :=
  match s with
  | String c r =>
      if Ascii.eqb c "e" || Ascii.eqb c "E" then
        let '(neg, r') := read_sign r in
        let '(v, cnt, _) := read_digits r' 0 0 in
        if 0 <? cnt then (if neg then - v else v) else 0
      else 0
  | EmptyString => 0
  end.

(** ** parseInt, Array.prototype.slice and String.prototype.slice *)

Definition hex_val (c : ascii) : option Z :=
  let n := Z.of_N (N_of_ascii c) in
  if (48 <=? n) && (n <=? 57) then Some (n - 48)
  else if (65 <=? n) && (n <=? 70) then Some (n - 55)
  else if (97 <=? n) && (n <=? 102) then Some (n - 87)
  else None.

Fixpoint read_hex (s : string) (acc cnt : Z) : Z * Z :=
  match s with
  | String c r =>
      match hex_val c with
      | Some v => read_hex r (16 * acc + v) (cnt + 1)
      | None => (acc, cnt)
      end
  | EmptyString => (acc, cnt)
  end.

(** [parseInt(s, 16)]: white space, a sign and a [0x] prefix are skipped,
    then the longest run of hexadecimal digits is read; none: NaN. *)
Definition parseInt16 (input : string) : number :=
  let '(neg, s) := read_sign (trimStart input) in
  let s' := if String.prefix "0x" s || String.prefix "0X" s
            then string_tail (string_tail s) else s in
  let '(v, cnt) := read_hex s' 0 0 in
  if cnt =? 0 then NaN
  else if v =? 0 then S754_zero neg
  else of_Z (if neg then - v else v).

(** [a.slice(start, end)] with its relative (negative) indices. *)
Definition slice {A} (start end_ : Z) (a : list A) : list A :=
  let len := Z.of_nat (length a) in
  let clamp i := if i <? 0 then Z.max (len + i) 0 else Z.min i len in
  let k := clamp start in
  let final := clamp end_ in
  take (Z.to_nat (final - k)) (drop (Z.to_nat k) a).

Definition string_slice (start end_ : Z) (s : string) : string :=
  string_of_list_ascii (slice start end_ (list_ascii_of_string s)).

(** A value that is a Number or a String. *)
Inductive value : Type :=
  | Num (n : number)
  | Str (s : string).

Definition parseFloat (input : string) : number :=
  let '(neg, s) := read_sign (trimStart input) in
  if String.prefix "Infinity" s then S754_infinity neg
  else
    let '(i, ci, r1) := read_digits s 0 0 in
    match r1 with
    | String "." r2 =>
        let '(d, cd, r3) := read_digits r2 i ci in
        if cd =? 0 then NaN
        else of_decimal neg d (ci - cd + read_exponent r3)
    | _ =>
        if ci =? 0 then NaN
        else of_decimal neg i (read_exponent r1)
    end.

(** ** Reading a printed amount *)

Fixpoint all_digits (s : string) : bool :=
  match s with
  | String c r => is_digit c && all_digits r
  | EmptyString => true
  end.

Definition nonempty (s : string) : bool := string_truthy s.

(** The text before the first point, and the text after it when there is
    one. *)
Fixpoint before_point (s : string) : string :=
  match s with
  | String c r => if Ascii.eqb c "." then "" else String c (before_point r)
  | EmptyString => ""
  end.

Fixpoint after_point (s : string) : option string :=
  match s with
  | String c r => if Ascii.eqb c "." then Some r else after_point r
  | EmptyString => None
  end.

(** [s] is a fixed-point numeral with exactly [f] decimal places: an
    optional minus sign, one or more digits and, for [f > 0], a point
    followed by exactly [f] digits; for [f = 0] there is no point. *)
Definition unsigned (s : string) : string :=
  match s with String "-" r => r | _ => s end.

Definition fixed_point (f : nat) (s : string) : bool :=
  let s := unsigned s in
  nonempty (before_point s) && all_digits (before_point s) &&
  match after_point s with
  | None => Nat.eqb f 0
  | Some d => negb (Nat.eqb f 0) && all_digits d && Nat.eqb (String.length d) f
  end.

(** A dollar sign followed by a fixed-point numeral with [f] decimal places. *)
Definition currency_text (f : nat) (s : string) : bool :=
  match s with
  | String "$" r => fixed_point f r
  | _ => false
  end.

(** The numbers [toFixed] prints in fixed-point notation: the finite ones of
    magnitude below 10^21. *)
Definition fixed_range (x : number) : bool :=
  match x with
  | S754_zero _ => true
  | S754_finite _ m e => negb (at_least_1e21 m e)
  | _ => false
  end.

End Js.

(* ===================================================================== *)
(** * Exceptions and state *)
(* ===================================================================== *)

(** A JavaScript function body runs over a mutable state and either returns
    or throws; the state reached is kept in both cases. *)

Inductive error : Type :=
  | TypeError (what : string)
  | ReferenceError (name : string).

Inductive outcome (St A : Type) : Type :=
  | Returned (a : A) (s : St)
  | Thrown (e : error) (s : St).
Arguments Returned {St A} a s.
Arguments Thrown {St A} e s.

Definition Exec (St A : Type) : Type := St -> outcome St A.

Global Instance exec_ret {St} : MRet (Exec St) := fun A a s => Returned a s.

Global Instance exec_bind {St} : MBind (Exec St) := fun A B f m s =>
  match m s with
  | Returned a s' => f a s'
  | Thrown e s' => Thrown e s'
  end.

Definition throw {St A} (e : error) : Exec St A := fun s => Thrown e s.
Definition get_state {St} : Exec St St := fun s => Returned s s.
Definition modify {St} (f : St -> St) : Exec St unit := fun s => Returned tt (f s).

(** [a.forEach((x, index) => body)]. *)
Fixpoint forEach_from {St A} (i : nat) (body : A -> nat -> Exec St unit)
    (a : list A) : Exec St unit :=
  match a with
  | [] => mret tt
  | x :: r => body x i ;; forEach_from (S i) body r
  end.

Definition forEach {St A} (body : A -> nat -> Exec St unit) (a : list A) : Exec St unit :=
  forEach_from 0 body a.

(** One step of a sequence: the first bind of the goal is run. *)
Ltac exec_step := unfold mbind at 1; unfold exec_bind at 1.

Definition final_state {St A} (o : outcome St A) : St :=
  match o with Returned _ s | Thrown _ s => s end.

Definition returns {St A} (o : outcome St A) : bool :=
  match o with Returned _ _ => true | Thrown _ _ => false end.

(* ===================================================================== *)
(** * static/js/charts.js *)
(* ===================================================================== *)

Module Charts.
Import Js.

(** ** Vintage color palette for charts *)

Module VintageColors.
Definition primary : string := "#6A7A5A".
Definition secondary : string := "#8DAF98".
Definition tertiary : string := "#BED2BA".
Definition accent : string := "#D7CBB2".
Definition complement : string := "#A8C7BA".

Definition palette : list string :=
  [ "#6A7A5A"; "#8DAF98"; "#BED2BA"; "#D7CBB2"; "#A8C7BA";
    "#7A8B6A"; "#9DBF88"; "#CEE2CA"; "#E2D6C2"; "#B8D7CA" ].

Definition income : list string :=
  [ "#6A7A5A"; "#8DAF98"; "#BED2BA"; "#A8C7BA"; "#7A8B6A"; "#9DBF88" ].

Definition expense : list string :=
  [ "#BF8A7D"; "#D7CBB2"; "#C7B299"; "#B8A485"; "#A99571"; "#9A875D" ].
End VintageColors.

(** ** The objects handed to the charting library *)

(** A colour option is one colour or an array of colours read by index. *)
Inductive paint : Type :=
  | Solid (c : string)
  | PerIndex (cs : list string).

(** A dataset object; [None] is a property that is not set. *)
Module Dataset.
Record t : Type := mk {
  label : option string;
  data : list number;
  backgroundColor : option paint;
  borderColor : option paint;
  borderWidth : option number;
  borderRadius : option number;
  borderSkipped : option bool;
  fill : option bool;
  tension : option number;
  pointBackgroundColor : option string;
  pointBorderColor : option string;
  pointBorderWidth : option number;
  pointRadius : option number;
  pointHoverRadius : option number;
  hoverBorderWidth : option number;
  hoverBorderColor : option string }.

Definition empty : t :=
  mk None [] None None None None None None None None None None None None None None.

(** [dataset.data = v]. *)
Definition set_data (v : list number) (d : t) : t :=
  mk (label d) v (backgroundColor d) (borderColor d) (borderWidth d)
     (borderRadius d) (borderSkipped d) (fill d) (tension d)
     (pointBackgroundColor d) (pointBorderColor d) (pointBorderWidth d)
     (pointRadius d) (pointHoverRadius d) (hoverBorderWidth d)
     (hoverBorderColor d).

(** The colour the library draws the element at position [i] with: it
    resolves an array option by the position modulo the length of the array,
    so that a short array of colours is gone through again from its start;
    an empty array gives no colour, and one colour is the colour of every
    element. *)
Definition color_at (i : nat) (d : t) : option string :=
  match backgroundColor d with
  | Some (PerIndex cs) => cs !! (i mod length cs)%nat
  | Some (Solid c) => Some c
  | None => None
  end.
End Dataset.

Module ChartData.
Record t : Type := mk {
  labels : list string;
  datasets : list Dataset.t }.
End ChartData.

(** The argument of a tooltip label callback: on a cartesian chart
    [context.parsed] is a point, on a doughnut or pie it is a Number. *)
Record CartesianItem : Type := {
  c_dataset : Dataset.t;
  c_parsed_y : number }.

Record ArcItem : Type := {
  a_label : string;
  a_parsed : number;
  a_dataset : Dataset.t }.

Inductive tooltip_callback : Type :=
  | CartesianLabel (f : CartesianItem -> string)
  | ArcLabel (f : ArcItem -> string).

Record Font : Type := {
  family : string;
  size : Z;
  weight : option string }.

Record Legend : Type := {
  legend_display : option bool;
  legend_position : option string;
  legend_padding : option Z;
  legend_usePointStyle : option bool;
  legend_font : option Font;
  legend_color : option string }.

Record Tooltip : Type := {
  tooltip_backgroundColor : string;
  tooltip_titleColor : string;
  tooltip_bodyColor : string;
  tooltip_borderColor : string;
  tooltip_borderWidth : Z;
  tooltip_cornerRadius : Z;
  tooltip_padding : Z;
  tooltip_titleFont : Font;
  tooltip_bodyFont : Font;
  tooltip_label : option tooltip_callback }.

Record Axis : Type := {
  beginAtZero : option bool;
  grid_display : option bool;
  grid_color : option string;
  grid_borderColor : option string;
  ticks_color : string;
  ticks_font : Font;
  ticks_callback : option (number -> string) }.

Record Options : Type := {
  responsive : bool;
  maintainAspectRatio : bool;
  plugins_legend : Legend;
  plugins_tooltip : Tooltip;
  animation_duration : Z;
  animation_easing : string;
  scales : option (Axis * Axis);
  cutout : option string }.

(** ** The charting library

    [Chart] is not part of the repository.  Its objects live in a heap
    indexed by handle; [canvas] is the drawing context the chart holds, gone
    once the chart is destroyed.  Every drawing pass is logged in [renders].
    [destroy] releases the canvas when the chart still holds one and does
    nothing otherwise, as the library does; [update] and [resize] draw, and
    on a chart that was destroyed they throw a TypeError at the drawing
    context that is gone. *)

Module Chart.
Record t : Type := mk {
  canvas : option nat;
  type : string;
  data : ChartData.t;
  options : Options }.

Definition set_data (d : ChartData.t) (c : t) : t :=
  mk (canvas c) (type c) d (options c).

Definition release (c : t) : t :=
  mk None (type c) (data c) (options c).
End Chart.

Record World : Type := {
  heap : gmap nat Chart.t;
  renders : list nat }.

(** A reference as a function receives it. *)
Inductive jsref : Type :=
  | null
  | undefined
  | ref (h : nat).

Definition set_chart (h : nat) (c : Chart.t) (w : World) : World :=
  {| heap := <[h := c]> (heap w); renders := renders w |}.

Definition log_render (h : nat) (w : World) : World :=
  {| heap := heap w; renders := renders w ++ [h] |}.

(** [new Chart(ctx, {type, data, options})]. *)
Definition new_Chart (ctx : nat) (type : string) (data : ChartData.t)
    (options : Options) : Exec World jsref := fun w =>
  let h := fresh (dom (heap w)) in
  Returned (ref h) (log_render h (set_chart h (Chart.mk (Some ctx) type data options) w)).

(** A drawing pass of the chart under [h]: it needs the canvas. *)
Definition draw (h : nat) : Exec World unit := fun w =>
  match heap w !! h with
  | Some c =>
      match Chart.canvas c with
      | Some _ => Returned tt (log_render h w)
      | None => Thrown (TypeError "Cannot read properties of null") w
      end
  | None => Thrown (TypeError "Cannot read properties of undefined") w
  end.

(** [chart.update()], [chart.resize()]. *)
Definition Chart_update (h : nat) : Exec World unit := draw h.
Definition Chart_resize (h : nat) : Exec World unit := draw h.

(** [chart.destroy()]. *)
Definition Chart_destroy (h : nat) : Exec World unit := modify (fun w =>
  match heap w !! h with
  | Some c =>
      match Chart.canvas c with
      | Some _ => set_chart h (Chart.release c) w
      | None => w
      end
  | None => w
  end).

(** [typeof chart.m === 'function'] for a method [m] of the library's chart
    objects. *)
Definition is_chart (w : World) (h : nat) : bool :=
  match heap w !! h with Some _ => true | None => false end.

(** The chart object behind a reference; reading a property of [null] or
    [undefined] throws. *)
Definition chart_of (chart : jsref) : Exec World (nat * Chart.t) := fun w =>
  match chart with
  | ref h =>
      match heap w !! h with
      | Some c => Returned (h, c) w
      | None => Thrown (TypeError "Cannot read properties of undefined") w
      end
  | null => Thrown (TypeError "Cannot read properties of null") w
  | undefined => Thrown (TypeError "Cannot read properties of undefined") w
  end.

(** ** Default chart options for vintage theme *)

Definition serif (sz : Z) (w : option string) : Font :=
  {| family := "Georgia, serif"; size := sz; weight := w |}.

Definition sans (sz : Z) : Font :=
  {| family := "Helvetica Neue, Arial, sans-serif"; size := sz; weight := None |}.

Definition defaultLegend : Legend :=
  {| legend_display := None;
     legend_position := Some "top";
     legend_padding := Some 20;
     legend_usePointStyle := Some true;
     legend_font := Some (serif 12 None);
     legend_color := Some VintageColors.primary |}.

Definition defaultTooltip (cb : option tooltip_callback) : Tooltip :=
  {| tooltip_backgroundColor := "rgba(245, 243, 239, 0.95)";
     tooltip_titleColor := VintageColors.primary;
     tooltip_bodyColor := VintageColors.primary;
     tooltip_borderColor := VintageColors.tertiary;
     tooltip_borderWidth := 1;
     tooltip_cornerRadius := 8;
     tooltip_padding := 12;
     tooltip_titleFont := serif 14 (Some "bold");
     tooltip_bodyFont := sans 12;
     tooltip_label := cb |}.

Definition defaultChartOptions : Options :=
  {| responsive := true;
     maintainAspectRatio := false;
     plugins_legend := defaultLegend;
     plugins_tooltip := defaultTooltip None;
     animation_duration := 1000;
     animation_easing := "easeOutCubic";
     scales := None;
     cutout := None |}.

(** ** Utility function to convert hex to rgba *)

Definition hexToRgba (hex : string) (alpha : number) : string :=
  let r := parseInt16 (string_slice 1 3 hex) in
  let g := parseInt16 (string_slice 3 5 hex) in
  let b := parseInt16 (string_slice 5 7 hex) in
  "rgba(" +:+ toString r +:+ ", " +:+ toString g +:+ ", " +:+ toString b
          +:+ ", " +:+ toString alpha +:+ ")".

(** ** Callbacks *)

(** [s + ...] on a string that may be [undefined]. *)
Definition text_of (s : option string) : string := default "undefined" s.

(** [function(value) { return '$' + value.toFixed(0); }] *)
Definition tickLabel (value : number) : string := "$" +:+ toFixed 0 value.

(** [context.dataset.label + ': $' + context.parsed.y.toFixed(2)] *)
Definition cartesianTooltipLabel (context : CartesianItem) : string :=
  text_of (Dataset.label (c_dataset context)) +:+ ": $"
    +:+ toFixed 2 (c_parsed_y context).

(** The tooltip label of the doughnut and of the pie. *)
Definition arcTooltipLabel (context : ArcItem) : string :=
  let label := if string_truthy (a_label context) then a_label context else "" in
  let value := if truthy (a_parsed context) then a_parsed context else of_Z 0 in
  let total := foldl add (of_Z 0) (Dataset.data (a_dataset context)) in
  let percentage := toFixed 1 (mul (div value total) (of_Z 100)) in
  label +:+ ": $" +:+ toFixed 0 value +:+ " (" +:+ percentage +:+ "%)".

Definition categoryAxis (grid_shown : bool) : Axis :=
  {| beginAtZero := None;
     grid_display := if grid_shown then None else Some false;
     grid_color := if grid_shown then Some (hexToRgba VintageColors.tertiary (of_decimal false 3 (-1))) else None;
     grid_borderColor := if grid_shown then Some VintageColors.tertiary else None;
     ticks_color := VintageColors.primary;
     ticks_font := sans 11;
     ticks_callback := None |}.

Definition valueAxis : Axis :=
  {| beginAtZero := Some true;
     grid_display := None;
     grid_color := Some (hexToRgba VintageColors.tertiary (of_decimal false 3 (-1)));
     grid_borderColor := Some VintageColors.tertiary;
     ticks_color := VintageColors.primary;
     ticks_font := sans 11;
     ticks_callback := Some tickLabel |}.

(** [{...defaultChartOptions, scales: {x, y}, plugins: {..., tooltip}}] *)
Definition cartesianOptions (x_grid : bool) : Options :=
  {| responsive := responsive defaultChartOptions;
     maintainAspectRatio := maintainAspectRatio defaultChartOptions;
     plugins_legend := plugins_legend defaultChartOptions;
     plugins_tooltip := defaultTooltip (Some (CartesianLabel cartesianTooltipLabel));
     animation_duration := animation_duration defaultChartOptions;
     animation_easing := animation_easing defaultChartOptions;
     scales := Some (categoryAxis x_grid, valueAxis);
     cutout := None |}.

Definition hiddenLegend : Legend :=
  {| legend_display := Some false;
     legend_position := None;
     legend_padding := None;
     legend_usePointStyle := None;
     legend_font := None;
     legend_color := None |}.

Definition arcOptions (legend : Legend) (cut : option string) : Options :=
  {| responsive := responsive defaultChartOptions;
     maintainAspectRatio := maintainAspectRatio defaultChartOptions;
     plugins_legend := legend;
     plugins_tooltip := defaultTooltip (Some (ArcLabel arcTooltipLabel));
     animation_duration := animation_duration defaultChartOptions;
     animation_easing := animation_easing defaultChartOptions;
     scales := None;
     cutout := cut |}.

(** ** Create a line chart for monthly trends *)

Record TimeSeriesPoint : Type := {
  month : string;
  income : number;
  expense : number;
  balance : number }.

Definition white : string := "#ffffff".

(** [VintageColors.expense[0]]. *)
Definition expense_0 : string := default "" (VintageColors.expense !! 0%nat).

Definition lineDataset (name : string) (values : list number) (color : string)
    (filled : bool) : Dataset.t :=
  Dataset.mk (Some name) values
    (Some (Solid (hexToRgba color (of_decimal false 1 (-1)))))
    (Some (Solid color))
    None None None
    (Some filled) (Some (of_decimal false 4 (-1)))
    (Some color) (Some white) (Some (of_Z 2)) (Some (of_Z 5)) (Some (of_Z 7))
    None None.

Definition createMonthlyTrendChart (ctx : nat) (data : list TimeSeriesPoint)
    : Exec World jsref :=
  let chartData :=
    ChartData.mk (month <$> data)
      [ lineDataset "Income" (income <$> data) VintageColors.primary false;
        lineDataset "Expenses" (expense <$> data) expense_0 false;
        lineDataset "Net Balance" (balance <$> data) VintageColors.secondary true ] in
  new_Chart ctx "line" chartData (cartesianOptions true).

(** ** Create a doughnut chart for category breakdown *)

Definition createCategoryDoughnutChart (ctx : nat) (labels : list string)
    (values : list number) (type : option string) : Exec World jsref :=
  let type := default "income" type in
  let colors := if String.eqb type "income" then VintageColors.income
                else VintageColors.expense in
  let chartData :=
    ChartData.mk labels
      [ Dataset.mk None values
          (Some (PerIndex (slice 0 (Z.of_nat (length labels)) colors)))
          None (Some (of_Z 0)) None None None None None None None None None
          (Some (of_Z 2)) (Some white) ] in
  new_Chart ctx "doughnut" chartData (arcOptions hiddenLegend (Some "60%")).

(** ** Create a bar chart for comparative data *)

(** [{...dataset, backgroundColor: ..., borderColor: ..., borderWidth: 1,
      borderRadius: 4, borderSkipped: false}] *)
Definition barDataset (dataset : Dataset.t) (index : nat) : Dataset.t :=
  let c := Solid <$>
    VintageColors.palette !! (index mod length VintageColors.palette)%nat in
  Dataset.mk (Dataset.label dataset) (Dataset.data dataset)
    c c (Some (of_Z 1)) (Some (of_Z 4)) (Some false)
    (Dataset.fill dataset) (Dataset.tension dataset)
    (Dataset.pointBackgroundColor dataset) (Dataset.pointBorderColor dataset)
    (Dataset.pointBorderWidth dataset) (Dataset.pointRadius dataset)
    (Dataset.pointHoverRadius dataset) (Dataset.hoverBorderWidth dataset)
    (Dataset.hoverBorderColor dataset).

Definition createBarChart (ctx : nat) (labels : list string)
    (datasets : list Dataset.t) : Exec World jsref :=
  let chartData :=
    ChartData.mk labels (imap (fun index dataset => barDataset dataset index) datasets) in
  new_Chart ctx "bar" chartData (cartesianOptions false).

(** ** Create a simple pie chart *)

Definition createPieChart (ctx : nat) (labels : list string)
    (values : list number) (colors : option (list string)) : Exec World jsref :=
  let chartColors :=
    match colors with
    | Some cs => cs
    | None => slice 0 (Z.of_nat (length labels)) VintageColors.palette
    end in
  let chartData :=
    ChartData.mk labels
      [ Dataset.mk None values (Some (PerIndex chartColors))
          (Some (Solid white)) (Some (of_Z 2)) None None None None None None
          None None None (Some (of_Z 3)) None ] in
  new_Chart ctx "pie" chartData (arcOptions defaultLegend None).

(** ** Update chart data dynamically *)

Definition update_chart (h : nat) (f : Chart.t -> Chart.t) (w : World) : World :=
  match heap w !! h with
  | Some c => set_chart h (f c) w
  | None => w
  end.

(** [chart.data.labels = newLabels] *)
Definition set_labels (newLabels : list string) (c : Chart.t) : Chart.t :=
  Chart.set_data (ChartData.mk newLabels (ChartData.datasets (Chart.data c))) c.

(** [dataset.data = v] on the dataset object at [index]. *)
Definition set_dataset_data (index : nat) (v : list number) (c : Chart.t) : Chart.t :=
  Chart.set_data
    (ChartData.mk (ChartData.labels (Chart.data c))
                  (alter (Dataset.set_data v) index (ChartData.datasets (Chart.data c))))
    c.

Definition updateChartData (chart : jsref) (newLabels : list string)
    (newData : list (list number)) : Exec World unit :=
  '(h, c) ← chart_of chart;
  modify (update_chart h (set_labels newLabels));;
  forEach (fun dataset index =>
             modify (update_chart h
                       (set_dataset_data index (default [] (newData !! index)))))
          (ChartData.datasets (Chart.data c));;
  Chart_update h.

(** ** Destroy chart safely *)

Definition destroyChart (chart : jsref) : Exec World unit :=
  match chart with
  | ref h =>
      w ← get_state;
      if is_chart w h then Chart_destroy h else mret tt
  | null | undefined => mret tt
  end.

(** ** Resize chart container *)

Definition resizeChart (chart : jsref) : Exec World unit :=
  match chart with
  | ref h =>
      w ← get_state;
      if is_chart w h then Chart_resize h else mret tt
  | null | undefined => mret tt
  end.

(** ** Calculate percentage for chart data *)

Definition calculatePercentage (value total : number) : Js.value :=
  if gt total (of_Z 0)
  then Str (toFixed 1 (mul (div value total) (of_Z 100)))
  else Num (of_Z 0).

(** ** Reading the result of a constructor *)

(** The chart object a constructor call returns. *)
Definition created (o : outcome World jsref) : option Chart.t :=
  match o with
  | Returned (ref h) w => heap w !! h
  | _ => None
  end.

(** [chart.options.scales.y.ticks.callback] and
    [chart.options.plugins.tooltip.callbacks.label]. *)
Definition y_tick_callback (c : Chart.t) : option (number -> string) :=
  match scales (Chart.options c) with
  | Some (_, y) => ticks_callback y
  | None => None
  end.

Definition tooltip_label_callback (c : Chart.t) : option tooltip_callback :=
  tooltip_label (plugins_tooltip (Chart.options c)).

Definition empty_world : World := {| heap := ∅; renders := [] |}.

(** A world holding one bar chart of two datasets, under handle 0. *)
Definition two_series_chart : Chart.t :=
  Chart.mk (Some 0%nat) "bar"
    (ChartData.mk ["Jan"; "Feb"]
       [ barDataset (Dataset.set_data [of_Z 10; of_Z 20] Dataset.empty) 0;
         barDataset (Dataset.set_data [of_Z 5; of_Z 7] Dataset.empty) 1 ])
    (cartesianOptions false).

Definition two_series_world : World := set_chart 0 two_series_chart empty_world.




End Charts.

(* ===================================================================== *)
(** * static/js/main.js *)
(* ===================================================================== *)

Module Main.
Import Js.

(** ** The document

    An element object carries its identity [uid] and the properties the
    handlers read or write.  [value] is [None] on an element that has no
    [value] property.  Markup assigned through [innerHTML] is kept as text:
    the field holds the string last assigned, and the element nodes that the
    browser builds from it are not put into the tree here; for the
    notification they are, in [MainDom]. *)

Module Element.
Record t : Type := mk {
  uid : nat;
  tag : string;
  classList : list string;
  type : option string;
  name : option string;
  required : bool;
  disabled : bool;
  value : option string;
  innerHTML : string;
  cssText : string;
  animation : string }.

Definition set_classList (v : list string) (e : t) : t :=
  mk (uid e) (tag e) v (type e) (name e) (required e) (disabled e) (value e)
     (innerHTML e) (cssText e) (animation e).
Definition set_disabled (v : bool) (e : t) : t :=
  mk (uid e) (tag e) (classList e) (type e) (name e) (required e) v (value e)
     (innerHTML e) (cssText e) (animation e).
Definition set_value (v : string) (e : t) : t :=
  mk (uid e) (tag e) (classList e) (type e) (name e) (required e) (disabled e)
     (Some v) (innerHTML e) (cssText e) (animation e).
Definition set_innerHTML (v : string) (e : t) : t :=
  mk (uid e) (tag e) (classList e) (type e) (name e) (required e) (disabled e)
     (value e) v (cssText e) (animation e).
Definition set_animation (v : string) (e : t) : t :=
  mk (uid e) (tag e) (classList e) (type e) (name e) (required e) (disabled e)
     (value e) (innerHTML e) (cssText e) v.

Definition has_class (c : string) (e : t) : bool :=
  existsb (String.eqb c) (classList e).

(** [classList.add(c)], [classList.remove(c)]. *)
Definition classList_add (c : string) (e : t) : t :=
  if has_class c e then e else set_classList (classList e ++ [c]) e.
Definition classList_remove (c : string) (e : t) : t :=
  set_classList (List.filter (fun x => negb (String.eqb c x)) (classList e)) e.
End Element.

Local Unset Elimination Schemes.
Inductive Node : Type :=
  | node (e : Element.t) (children : list Node).
Local Set Elimination Schemes.

Definition root (n : Node) : Element.t := match n with node e _ => e end.
Definition children (n : Node) : list Node := match n with node _ cs => cs end.

(** The elements of a subtree in document order. *)
Fixpoint elements (n : Node) : list Element.t :=
  match n with
  | node e cs => e :: List.flat_map elements cs
  end.

Definition all_elements (forest : list Node) : list Element.t :=
  List.flat_map elements forest.

(** The subtree below the element [u]: the first one in document order. *)
Fixpoint find_node (u : nat) (n : Node) : option Node :=
  match n with
  | node e cs =>
      if Nat.eqb (Element.uid e) u then Some n
      else (fix first (l : list Node) : option Node :=
              match l with
              | [] => None
              | c :: r => match find_node u c with
                          | Some x => Some x
                          | None => first r
                          end
              end) cs
  end.

Fixpoint find_in_forest (u : nat) (forest : list Node) : option Node :=
  match forest with
  | [] => None
  | n :: r => match find_node u n with
              | Some x => Some x
              | None => find_in_forest u r
              end
  end.

(** A write to a property of the element [u]. *)
Fixpoint update_node (u : nat) (f : Element.t -> Element.t) (n : Node) : Node :=
  match n with
  | node e cs =>
      node (if Nat.eqb (Element.uid e) u then f e else e)
           (List.map (update_node u f) cs)
  end.

(** Detaches every subtree whose root satisfies [p]. *)
Fixpoint prune (p : Element.t -> bool) (n : Node) : list Node :=
  match n with
  | node e cs => if p e then [] else [node e (List.flat_map (prune p) cs)]
  end.

(** [form.querySelectorAll(sel)]: the matching descendants of a node. *)
Definition querySelectorAll_in (sel : Element.t -> bool) (n : Node) : list Element.t :=
  List.filter sel (all_elements (children n)).

(** [form.querySelector(sel)]: the first matching descendant, or [null]. *)
Definition querySelector_in (sel : Element.t -> bool) (n : Node) : option Element.t :=
  head (querySelectorAll_in sel n).

(** The closures handed to [setTimeout]. *)
Inductive closure : Type :=
  | RestoreButton (submitButton : nat) (originalText : string)
  | DismissToast (notification : nat)
  | RemoveToast (notification : nat).

(** The page: the children of [document.body], the pending timers with
    their delay in milliseconds, the properties of the global object (a
    global's value as text), the [defaultPrevented] flag of the event being
    dispatched, and the number of icon replacement passes run by the icon
    library. *)
Record Page : Type := {
  body : list Node;
  next_uid : nat;
  timers : list (Z * closure);
  globals : gmap string string;
  defaultPrevented : bool;
  icon_passes : nat }.

Definition set_body (b : list Node) (p : Page) : Page :=
  {| body := b; next_uid := next_uid p; timers := timers p;
     globals := globals p; defaultPrevented := defaultPrevented p;
     icon_passes := icon_passes p |}.

(** [document.querySelectorAll(sel)]. *)
Definition querySelectorAll (sel : Element.t -> bool) (p : Page) : list Element.t :=
  List.filter sel (all_elements (body p)).

Definition update_element (u : nat) (f : Element.t -> Element.t) : Exec Page unit :=
  modify (fun p => set_body (List.map (update_node u f) (body p)) p).

(** [element.remove()]. *)
Definition remove_element (u : nat) : Exec Page unit :=
  modify (fun p =>
    set_body (List.flat_map (prune (fun e => Nat.eqb (Element.uid e) u)) (body p)) p).

(** [element.parentElement] is not [null]. *)
Definition is_attached (u : nat) (p : Page) : bool :=
  existsb (fun e => Nat.eqb (Element.uid e) u) (all_elements (body p)).

(** [setTimeout(callback, delay)]. *)
Definition setTimeout (callback : closure) (delay : Z) : Exec Page unit :=
  modify (fun p =>
    {| body := body p; next_uid := next_uid p;
       timers := timers p ++ [(delay, callback)];
       globals := globals p; defaultPrevented := defaultPrevented p;
       icon_passes := icon_passes p |}).

(** [event.preventDefault()]. *)
Definition preventDefault : Exec Page unit :=
  modify (fun p =>
    {| body := body p; next_uid := next_uid p; timers := timers p;
       globals := globals p; defaultPrevented := true;
       icon_passes := icon_passes p |}).

(** [if (typeof feather !== 'undefined') { feather.replace(); }] *)
Definition replace_icons : Exec Page unit :=
  modify (fun p =>
    match globals p !! "feather" with
    | Some _ =>
        {| body := body p; next_uid := next_uid p; timers := timers p;
           globals := globals p; defaultPrevented := defaultPrevented p;
           icon_passes := S (icon_passes p) |}
    | None => p
    end).

(** [document.createElement('div')] followed by the property writes that
    initialise it, and [document.body.appendChild]. *)
Definition blank_element (u : nat) (tag : string) : Element.t :=
  Element.mk u tag [] None None false false None "" "" "".

Definition createElement (tag : string) (init : Element.t -> Element.t)
    : Exec Page Element.t := fun p =>
  let e := init (blank_element (next_uid p) tag) in
  Returned e
    {| body := body p; next_uid := S (next_uid p); timers := timers p;
       globals := globals p; defaultPrevented := defaultPrevented p;
       icon_passes := icon_passes p |}.

Definition appendChild_body (e : Element.t) : Exec Page unit :=
  modify (fun p => set_body (body p ++ [node e []]) p).

(** An identifier that no enclosing block or function declares is looked
    up on the global object; it is not there: ReferenceError. *)
Definition resolve_global (name : string) : Exec Page string := fun p =>
  match globals p !! name with
  | Some v => Returned v p
  | None => Thrown (ReferenceError name) p
  end.

(** The double quote character. *)
Definition dq : string := String (ascii_of_nat 34) EmptyString.

(** The line feed character. *)
Definition lf : string := String (ascii_of_nat 10) EmptyString.

(** ** Show notification message *)

Definition is_toast (e : Element.t) : bool := Element.has_class "notification-toast" e.

Definition toast_markup (message : string) (is_error : bool) : string :=
  lf +:+ "        <i data-feather=" +:+ dq
     +:+ (if is_error then "alert-circle" else "check-circle") +:+ dq +:+ "></i>"
     +:+ lf +:+ "        " +:+ message
     +:+ lf +:+ "        <button type=" +:+ dq +:+ "button" +:+ dq
     +:+ " class=" +:+ dq +:+ "vintage-btn-close" +:+ dq
     +:+ " onclick=" +:+ dq +:+ "this.parentElement.remove()" +:+ dq
     +:+ ">Ã—</button>" +:+ lf +:+ "    ".

Definition toast_style : string :=
  lf +:+ "        position: fixed;"
     +:+ lf +:+ "        top: 100px;"
     +:+ lf +:+ "        right: 20px;"
     +:+ lf +:+ "        z-index: 1050;"
     +:+ lf +:+ "        min-width: 300px;"
     +:+ lf +:+ "        max-width: 500px;"
     +:+ lf +:+ "        animation: slideInRight 0.3s ease;"
     +:+ lf +:+ "    ".

(** The writes to [className], [innerHTML] and [style.cssText]. *)
Definition toast_element (message : string) (is_error : bool) (e : Element.t)
    : Element.t :=
  Element.mk (Element.uid e) (Element.tag e)
    [ "notification-toast"; "vintage-alert";
      "vintage-alert-" +:+ (if is_error then "error" else "success") ]
    (Element.type e) (Element.name e) (Element.required e) (Element.disabled e)
    (Element.value e)
    (toast_markup message is_error)
    toast_style
    (Element.animation e).

Definition showNotification (message : string) (type : option string) : Exec Page unit :=
  let type := default "info" type in
  let is_error := String.eqb type "error" in
  (* Remove existing notifications *)
  p ← get_state;
  let existingNotifications := querySelectorAll is_toast p in
  forEach (fun notification _ => remove_element (Element.uid notification))
          existingNotifications;;
  (* Create notification element *)
  notification ← createElement "div" (toast_element message is_error);
  (* Add to page *)
  appendChild_body notification;;
  (* Replace feather icons *)
  replace_icons;;
  (* Auto-remove after 5 seconds *)
  setTimeout (DismissToast (Element.uid notification)) 5000.

(** ** Handle form submission *)

Definition is_submit_button (e : Element.t) : bool :=
  String.eqb (Element.tag e) "button" &&
  match Element.type e with Some t => String.eqb t "submit" | None => false end.

Definition processing_markup : string :=
  "<i data-feather=" +:+ dq +:+ "loader" +:+ dq +:+ " class=" +:+ dq
    +:+ "spinning" +:+ dq +:+ "></i> Processing...".

(** [field.value.trim()]: a field without a [value] property has no [trim]. *)
Definition trimmed_value (field : Element.t) : Exec Page string :=
  match Element.value field with
  | Some v => mret (trim v)
  | None => throw (TypeError "Cannot read properties of undefined (reading 'trim')")
  end.

(** The body of [requiredFields.forEach], threading the local [isValid]. *)
Fixpoint validate_required (requiredFields : list Element.t) (isValid : bool)
    : Exec Page bool :=
  match requiredFields with
  | [] => mret isValid
  | field :: rest =>
      v ← trimmed_value field;
      if negb (string_truthy v) then
        update_element (Element.uid field) (Element.classList_add "is-invalid");;
        validate_required rest false
      else
        update_element (Element.uid field) (Element.classList_remove "is-invalid");;
        validate_required rest isValid
  end.

(** [event.target]. *)
Definition event_target (target : nat) : Exec Page Node := fun p =>
  match find_in_forest target (body p) with
  | Some n => Returned n p
  | None => Thrown (TypeError "Cannot read properties of null") p
  end.

Definition handleFormSubmit (target : nat) : Exec Page unit :=
  form ← event_target target;
  let submitButton := querySelector_in is_submit_button form in
  (* Disable submit button to prevent double submission *)
  match submitButton with
  | Some button =>
      update_element (Element.uid button) (Element.set_disabled true);;
      let originalText := Element.innerHTML button in
      update_element (Element.uid button) (Element.set_innerHTML processing_markup);;
      (* Re-enable button after 3 seconds as fallback *)
      setTimeout (RestoreButton (Element.uid button) originalText) 3000
  | None => mret tt
  end;;
  (* Validate required fields *)
  let requiredFields := querySelectorAll_in Element.required form in
  isValid ← validate_required requiredFields true;
  if negb isValid then
    preventDefault;;
    match submitButton with
    | Some button =>
        update_element (Element.uid button) (Element.set_disabled false);;
        (* [originalText] is declared in the block above, not here *)
        originalText ← resolve_global "originalText";
        update_element (Element.uid button) (Element.set_innerHTML originalText)
    | None => mret tt
    end;;
    showNotification "Please fill in all required fields." (Some "error")
  else mret tt.

(** ** The timer callbacks *)

Definition run_closure (t : closure) : Exec Page unit :=
  match t with
  | RestoreButton submitButton originalText =>
      update_element submitButton (Element.set_disabled false);;
      update_element submitButton (Element.set_innerHTML originalText);;
      replace_icons
  | DismissToast notification =>
      p ← get_state;
      if is_attached notification p then
        update_element notification (Element.set_animation "slideOutRight 0.3s ease");;
        setTimeout (RemoveToast notification) 300
      else mret tt
  | RemoveToast notification => remove_element notification
  end.

(** ** Format amount input on blur, validate amount input on change

    Both handlers touch [event.target] only: they are given as the change
    they make to that element. *)

(** [parseFloat(input.value)]; [undefined] reads as the text "undefined". *)
Definition parsed_amount (input : Element.t) : number :=
  parseFloat (default "undefined" (Element.value input)).

Definition formatAmountInput (input : Element.t) : Element.t :=
  let value := parsed_amount input in
  if negb (isNaN value) && gt value (of_Z 0)
  then Element.set_value (toFixed 2 value) input
  else input.

Definition validateAmountInput (input : Element.t) : Element.t :=
  let value := parsed_amount input in
  if isNaN value || le value (of_Z 0)
  then Element.classList_add "is-invalid" input
  else Element.classList_remove "is-invalid" input.

(** ** A page with a transaction form

    A form (uid 1) with a blank required description (uid 2), a filled
    required amount (uid 3) and a submit button labelled "Save" (uid 4); no
    global named [originalText]. *)

Definition text_input (u : nat) (field_name value : string) : Node :=
  node (Element.mk u "input" ["vintage-form-control"] (Some "text")
          (Some field_name) true false (Some value) "" "" "") [].

Definition save_button (u : nat) : Node :=
  node (Element.mk u "button" ["vintage-btn"] (Some "submit") None false false
          None "Save" "" "") [].

Definition transaction_form (description : string) (with_button : bool) : Node :=
  node (Element.mk 1 "form" ["vintage-form"] None None false false None "" "" "")
    ([ text_input 2 "description" description;
       text_input 3 "amount" "12" ]
     ++ (if with_button then [save_button 4] else [])).

Definition page_of (form : Node) : Page :=
  {| body := [form];
     next_uid := 5;
     timers := [];
     globals := ∅;
     defaultPrevented := false;
     icon_passes := 0 |}.

Definition transaction_page (description : string) : Page :=
  page_of (transaction_form description true).

(** A required field whose trimmed value is not empty. *)
Definition filled (field : Element.t) : bool :=
  string_truthy (trim (default "" (Element.value field))).

(** The element [u] as the page holds it. *)
Definition element_of (u : nat) (p : Page) : option Element.t :=
  root <$> find_in_forest u (body p).

(** ** Reading an amount *)

(** The text parses as a positive number. *)
Definition parses_positive (text : string) : bool :=
  let v := parseFloat text in negb (isNaN v) && gt v (of_Z 0).

Definition is_invalid (input : Element.t) : bool :=
  Element.has_class "is-invalid" input.

End Main.

(* ===================================================================== *)
(** * Timers *)
(* ===================================================================== *)

(** The timer queue of the window, for the code that debounces: a clock in
    milliseconds, the next handle to give out (handles are positive) and the
    pending timers with their handle, due time and closure. *)

Module Timers.

Record queue (C : Type) : Type := mk {
  now : Z;
  next_id : nat;
  pending : list (nat * Z * C) }.
Arguments mk {C} now next_id pending.
Arguments now {C} q.
Arguments next_id {C} q.
Arguments pending {C} q.

Definition empty {C} : queue C := mk 0 1 [].

Definition handle {C} (x : nat * Z * C) : nat := fst (fst x).
Definition due {C} (x : nat * Z * C) : Z := snd (fst x).
Definition closure {C} (x : nat * Z * C) : C := snd x.

(** [setTimeout(callback, delay)]: a negative delay counts as zero. *)
Definition setTimeout {C} (callback : C) (delay : Z) (q : queue C) : nat * queue C :=
  (next_id q,
   mk (now q) (S (next_id q))
      (pending q ++ [(next_id q, now q + Z.max delay 0, callback)])).

(** [clearTimeout(id)]: [None] is [undefined] or [null]; a handle that is
    not pending is ignored. *)
Definition clearTimeout {C} (id : option nat) (q : queue C) : queue C :=
  match id with
  | Some i =>
      mk (now q) (next_id q)
         (List.filter (fun x => negb (Nat.eqb (handle x) i)) (pending q))
  | None => q
  end.

(** Timers fire by due time, and among equal due times in the order they
    were set. *)
Fixpoint insert_due {C} (x : nat * Z * C) (l : list (nat * Z * C)) : list (nat * Z * C) :=
  match l with
  | [] => [x]
  | y :: r => if due x <? due y then x :: l else y :: insert_due x r
  end.

Definition firing_order {C} (l : list (nat * Z * C)) : list (nat * Z * C) :=
  foldl (fun acc x => insert_due x acc) [] l.

(** [d] milliseconds pass: every timer due by then fires, its closure run
    by [run] at its due time on the state [s].  The closures of this model
    set no timer and clear none. *)
Definition elapse {C S} (run : C -> Z -> S -> S) (d : Z) (st : queue C * S)
    : queue C * S :=
  let '(q, s) := st in
  let limit := now q + d in
  (mk limit (next_id q) (List.filter (fun x => limit <? due x) (pending q)),
   foldl (fun s x => run (closure x) (due x) s) s
         (firing_order (List.filter (fun x => due x <=? limit) (pending q)))).

End Timers.

(* ===================================================================== *)
(** * static/js/charts.js, continued *)
(* ===================================================================== *)

Module ChartsMore.
Import Js Charts.

(** ** Animate chart on creation

    [chart.update('active')], with no test of the handle. *)
Definition animateChart (chart : jsref) : Exec World unit :=
  '(h, _) ← chart_of chart;
  Chart_update h.

(** ** Initialize responsive chart behavior *)

(** [Chart.instances]: the handles of the charts that hold a canvas (the
    library takes a chart out of the registry when it is destroyed). *)
Definition instances (w : World) : list nat :=
  (map_to_list (filter (fun kc => is_Some (Chart.canvas kc.2)) (heap w))).*1.

(** [Chart.helpers.each(Chart.instances, instance => instance.resize())] *)
Definition resize_instances : Exec World unit :=
  w ← get_state;
  forEach (fun instance _ => Chart_resize instance) (instances w).

(** The variable [resizeTimeout] of [initializeResponsiveCharts] and the
    charts. *)
Record Responsive : Type := {
  resizeTimeout : option nat;
  world : World }.

(** The closure handed to [setTimeout]. *)
Definition resize_pass (_ : unit) (_ : Z) (s : Responsive) : Responsive :=
  {| resizeTimeout := resizeTimeout s;
     world := final_state (resize_instances (world s)) |}.

(** The listener of the window's [resize] event. *)
Definition on_resize (st : Timers.queue unit * Responsive)
    : Timers.queue unit * Responsive :=
  let '(q, s) := st in
  let q1 := Timers.clearTimeout (resizeTimeout s) q in
  let '(id, q2) := Timers.setTimeout tt 300 q1 in
  (q2, {| resizeTimeout := Some id; world := world s |}).

(** Resize events arriving after the given gaps (milliseconds since the
    event before). *)
Fixpoint resize_events (gaps : list Z) (st : Timers.queue unit * Responsive)
    : Timers.queue unit * Responsive :=
  match gaps with
  | [] => st
  | gap :: rest => resize_events rest (on_resize (Timers.elapse resize_pass gap st))
  end.

(** ** Writing a colour *)




End ChartsMore.

(* ===================================================================== *)
(** * static/js/main.js, continued *)
(* ===================================================================== *)

Module MainMore.
Import Js Main.

(** ** Debounce function for performance optimization

    One debounced function: its variable [timeout] and the calls of [func]
    made so far, each with its time and arguments.  The closure [later] of a
    call is kept in the timer queue as the arguments it captured. *)

Record Debounced (A : Type) : Type := {
  timeout : option nat;
  invoked : list (Z * A) }.
Arguments Build_Debounced {A} timeout invoked.
Arguments timeout {A} d.
Arguments invoked {A} d.

(** [!timeout]: [undefined], [null] and the number 0 are falsy. *)
Definition no_timeout (t : option nat) : bool :=
  match t with
  | None => true
  | Some i => Nat.eqb i 0
  end.

(** [later]: [timeout = null; if (!immediate) func.apply(context, args);] *)
Definition later {A} (immediate : bool) (args : A) (time : Z) (d : Debounced A)
    : Debounced A :=
  {| timeout := None;
     invoked := if immediate then invoked d else invoked d ++ [(time, args)] |}.

(** [executedFunction], the function [debounce(func, wait, immediate)]
    returns, called with [args]. *)
Definition debounce {A} (wait : Z) (immediate : bool) (args : A)
    (st : Timers.queue A * Debounced A) : Timers.queue A * Debounced A :=
  let '(q, d) := st in
  let callNow := immediate && no_timeout (timeout d) in
  let q1 := Timers.clearTimeout (timeout d) q in
  let '(id, q2) := Timers.setTimeout args wait q1 in
  (q2, {| timeout := Some id;
          invoked := if callNow then invoked d ++ [(Timers.now q, args)]
                     else invoked d |}).

(** Calls arriving after the given gaps, each with its arguments. *)
Fixpoint debounced_calls {A} (wait : Z) (immediate : bool) (calls : list (Z * A))
    (st : Timers.queue A * Debounced A) : Timers.queue A * Debounced A :=
  match calls with
  | [] => st
  | (gap, args) :: rest =>
      debounced_calls wait immediate rest
        (debounce wait immediate args (Timers.elapse (later immediate) gap st))
  end.

(** The time and the arguments of the last call of a burst that starts at
    [t] with [args]. *)
Fixpoint last_call {A} (t : Z) (args : A) (rest : list (Z * A)) : Z * A :=
  match rest with
  | [] => (t, args)
  | (gap, args') :: rest' => last_call (t + gap) args' rest'
  end.

(** ** Utility function to handle async operations with loading states

    The awaited operation is a computation over the page that returns its
    result or throws its rejection. *)

Definition try_catch {St A} (body : Exec St A) (handler : error -> Exec St A)
    : Exec St A := fun s =>
  match body s with
  | Returned a s' => Returned a s'
  | Thrown e s' => handler e s'
  end.

Definition try_finally {St A} (body : Exec St A) (cleanup : Exec St unit)
    : Exec St A := fun s =>
  match body s with
  | Returned a s' =>
      match cleanup s' with
      | Returned _ s'' => Returned a s''
      | Thrown e s'' => Thrown e s''
      end
  | Thrown e s' =>
      match cleanup s' with
      | Returned _ s'' => Thrown e s''
      | Thrown e' s'' => Thrown e' s''
      end
  end.

Definition withLoading {A} (asyncFunction : Exec Page A) (loadingElement : option nat)
    : Exec Page A :=
  match loadingElement with
  | Some u => update_element u (Element.classList_add "loading")
  | None => mret tt
  end;;
  try_finally
    (try_catch
       (result ← asyncFunction; mret result)
       (fun error =>
          showNotification "An error occurred. Please try again." (Some "error");;
          throw error))
    (match loadingElement with
     | Some u => update_element u (Element.classList_remove "loading")
     | None => mret tt
     end).

(** ** Initialize date inputs with proper formatting

    A date input with the properties the function reads and writes; [today]
    is [new Date().toISOString().split('T')[0]]. *)

Record DateInput : Type := {
  date_name : string;
  date_value : string;
  date_max : option string }.

Definition initializeDateInput (today : string) (input : DateInput) : DateInput :=
  (* Set max date to today *)
  let input :=
    match date_max input with
    | None => {| date_name := date_name input; date_value := date_value input;
                 date_max := Some today |}
    | Some _ => input
    end in
  (* Set default value to today if empty *)
  if negb (string_truthy (date_value input))
     && String.eqb (date_name input) "transaction_date"
  then {| date_name := date_name input; date_value := today;
          date_max := date_max input |}
  else input.

Definition initializeDateInputs (today : string) (dateInputs : list DateInput)
    : list DateInput :=
  List.map (initializeDateInput today) dateInputs.

(** ** Reading the page *)

(** What a write [f] to the element [u] does to an element [e]. *)
Definition written (u : nat) (f : Element.t -> Element.t) (e : Element.t) : Element.t :=
  if Nat.eqb (Element.uid e) u then f e else e.

(** [e'] is [e] up to its class list, and up to the class [is-invalid]
    within it. *)
Definition same_but_invalid (e e' : Element.t) : Prop :=
  Element.uid e' = Element.uid e /\
  Element.disabled e' = Element.disabled e /\
  Element.innerHTML e' = Element.innerHTML e /\
  Element.value e' = Element.value e /\
  Element.animation e' = Element.animation e /\
  forall c, c <> "is-invalid" -> Element.has_class c e' = Element.has_class c e.

(** The elements of the page with the identity [u]. *)
Definition elements_with_uid (u : nat) (p : Page) : list Element.t :=
  List.filter (fun e => Nat.eqb (Element.uid e) u) (all_elements (body p)).

End MainMore.

(* ===================================================================== *)
(** * static/js/main.js: the notification with its parsed content *)
(* ===================================================================== *)

(** [notification.innerHTML = markup] hands the markup to the HTML parser of
    the browser, and the element nodes the parser builds become the children
    of the notification: a message that holds tags puts elements of its own
    into the document.  The parser is not part of the repository; it is the
    parameter [parseFragment]: [parseFragment u markup] is the forest of
    element nodes built from [markup], their identities taken from [u] on.
    [Main.showNotification] is the function below with the children of the
    notification left out.  The [innerHTML] field of the notification keeps
    the markup that was assigned; what the getter would answer, a
    serialisation of the children, is not modelled. *)

Module MainDom.
Import Js Main.

Section Parser.

Variable parseFragment : nat -> string -> list Node.

(** The children the assignment [innerHTML = markup] gives an element. *)
Definition parse_children (markup : string) : Exec Page (list Node) := fun p =>
  let content := parseFragment (next_uid p) markup in
  Returned content
    {| body := body p;
       next_uid := length (all_elements content) + next_uid p;
       timers := timers p; globals := globals p;
       defaultPrevented := defaultPrevented p; icon_passes := icon_passes p |}.

(** [document.body.appendChild(n)]. *)
Definition appendChild_body (n : Node) : Exec Page unit :=
  modify (fun p => set_body (body p ++ [n]) p).

Definition showNotification (message : string) (type : option string) : Exec Page unit :=
  let type := default "info" type in
  let is_error := String.eqb type "error" in
  (* Remove existing notifications *)
  p ← get_state;
  let existingNotifications := querySelectorAll is_toast p in
  forEach (fun notification _ => remove_element (Element.uid notification))
          existingNotifications;;
  (* Create notification element *)
  notification ← createElement "div" (toast_element message is_error);
  content ← parse_children (toast_markup message is_error);
  (* Add to page *)
  appendChild_body (node notification content);;
  (* Replace feather icons *)
  replace_icons;;
  (* Auto-remove after 5 seconds *)
  setTimeout (DismissToast (Element.uid notification)) 5000.

(** The markup of a notification of this message gives no element of
    class [notification-toast]. *)
Definition no_toast_in_message (message : string) (type : option string) : Prop :=
  forall u e,
    In e (all_elements
            (parseFragment u
               (toast_markup message (String.eqb (default "info" type) "error")))) ->
    is_toast e = false.

End Parser.

(** ** What the parser builds for three notifications

    For the messages "Saved" and "Deleted", which hold no tag, the markup of
    the notification gives the icon and the close button.  For the message
    [<div class="notification-toast"></div>] it gives the icon, the [div] of
    the message and the close button. *)

Definition nested_toast_message : string :=
  "<div class=" +:+ dq +:+ "notification-toast" +:+ dq +:+ "></div>".

Definition icon_element (u : nat) : Node :=
  node (Element.mk u "i" [] None None false false None "" "" "") [].

Definition close_button (u : nat) : Node :=
  node (Element.mk u "button" ["vintage-btn-close"] (Some "button") None false false
          None "Ã—" "" "") [].

Definition message_div (u : nat) : Node :=
  node (Element.mk u "div" ["notification-toast"] None None false false None
          "" "" "") [].

(** The parser, tabulated on the markup of these notifications; no other
    markup is in the table. *)
Definition parse_samples (u : nat) (markup : string) : list Node :=
  if String.eqb markup (toast_markup nested_toast_message false)
  then [icon_element u; message_div (S u); close_button (S (S u))]
  else if String.eqb markup (toast_markup "Saved" false)
          || String.eqb markup (toast_markup "Deleted" true)
  then [icon_element u; close_button (S u)]
  else [].

End MainDom.


(* ===================================================================== *)
(** * Properties of the built-ins *)
(* ===================================================================== *)

Module JsFacts.
Import Js.

(** ** The built-ins on sample inputs *)

Example parseFloat_samples :
  toString (parseFloat "12") = "12" /\
  toString (parseFloat "  3.14abc") = "3.14" /\
  toString (parseFloat "-5") = "-5" /\
  toString (parseFloat ".5e1") = "5" /\
  toString (parseFloat "0.1") = "0.1" /\
  parseFloat "abc" = NaN /\
  parseFloat "" = NaN /\
  parseFloat "-." = NaN /\
  parseFloat "-0" = S754_zero true /\
  parseFloat "Infinity" = Infinity /\
  parseFloat "1e400" = Infinity.
Proof. repeat split. Qed.

Example toFixed_samples :
  toFixed 2 (of_Z 12) = "12.00" /\
  toFixed 2 (of_decimal false 1005 (-3)) = "1.00" /\
  toFixed 0 (of_decimal false 125 (-1)) = "13" /\
  toFixed 1 (of_decimal true 1 (-3)) = "-0.0" /\
  toFixed 2 (S754_zero true) = "0.00" /\
  toFixed 2 NaN = "NaN" /\
  toFixed 2 Infinity = "Infinity" /\
  toFixed 2 (of_decimal false 1 21) = "1e+21".
Proof. repeat split. Qed.

Example toString_samples :
  toString (add (of_decimal false 1 (-1)) (of_decimal false 2 (-1)))
    = "0.30000000000000004" /\
  toString (of_decimal false 123456789012345678901234 0) = "1.2345678901234569e+23" /\
  toString (of_decimal false 15 (-8)) = "1.5e-7" /\
  toString (of_decimal false 1 (-6)) = "0.000001" /\
  toString (div (of_Z 1) (of_Z 3)) = "0.3333333333333333".
Proof. repeat split. Qed.

Example trim_samples :
  trim "  a b  " = "a b" /\ trim "   " = "" /\ trim "" = "" /\ trim " à " = "à".
Proof. repeat split. Qed.

Lemma digit_char_is_digit (d : Z) :
  0 <= d < 10 -> is_digit (digit_char d) = true.
Proof.
  intros Hd.
  assert (Hcases : d = 0 \/ d = 1 \/ d = 2 \/ d = 3 \/ d = 4 \/ d = 5 \/
                   d = 6 \/ d = 7 \/ d = 8 \/ d = 9) by lia.
  repeat (destruct Hcases as [-> | Hcases]; [reflexivity |]).
  subst d. reflexivity.
Qed.

Lemma all_digits_uint (u : Decimal.uint) :
  all_digits (NilEmpty.string_of_uint u) = true.
Proof. induction u; simpl; auto. Qed.

Lemma digits_all_digits (z : Z) : all_digits (digits z) = true.
Proof.
  unfold digits, NilZero.string_of_uint.
  destruct (N.to_uint (Z.to_N z)); try reflexivity; apply all_digits_uint.
Qed.

Lemma digits_nonempty (z : Z) : nonempty (digits z) = true.
Proof.
  unfold digits, NilZero.string_of_uint.
  destruct (N.to_uint (Z.to_N z)); reflexivity.
Qed.

Lemma frac_digits_all_digits (f : nat) (r : Z) : all_digits (frac_digits f r) = true.
Proof.
  induction f as [| f IH]; simpl; [reflexivity |].
  rewrite IH, digit_char_is_digit; [reflexivity |].
  apply Z.mod_pos_bound. lia.
Qed.

Lemma frac_digits_length (f : nat) (r : Z) : String.length (frac_digits f r) = f.
Proof. induction f as [| f IH]; simpl; congruence. Qed.

Lemma digit_not_point (c : ascii) : is_digit c = true -> Ascii.eqb c "." = false.
Proof.
  intros Hc. destruct (Ascii.eqb_spec c ".") as [-> | _]; [discriminate | reflexivity].
Qed.

Lemma append_cons (c : ascii) (a b : string) : String c a +:+ b = String c (a +:+ b).
Proof. reflexivity. Qed.

Lemma append_empty (a : string) : a +:+ "" = a.
Proof.
  induction a as [| c a IH]; [reflexivity |]. rewrite append_cons, IH. reflexivity.
Qed.

Lemma before_point_append (a b : string) :
  all_digits a = true -> before_point (a +:+ "." +:+ b) = a.
Proof.
  induction a as [| c a IH]; [reflexivity |]. rewrite append_cons. simpl.
  intros [Hc Ha]%andb_prop. rewrite (digit_not_point c Hc), IH; auto.
Qed.

Lemma after_point_append (a b : string) :
  all_digits a = true -> after_point (a +:+ "." +:+ b) = Some b.
Proof.
  induction a as [| c a IH]; [reflexivity |]. rewrite append_cons. simpl.
  intros [Hc Ha]%andb_prop. rewrite (digit_not_point c Hc). auto.
Qed.

Lemma before_point_digits (a : string) : all_digits a = true -> before_point a = a.
Proof.
  induction a as [| c a IH]; simpl; [reflexivity |].
  intros [Hc Ha]%andb_prop. rewrite (digit_not_point c Hc), IH; auto.
Qed.

Lemma after_point_digits (a : string) : all_digits a = true -> after_point a = None.
Proof.
  induction a as [| c a IH]; simpl; [reflexivity |].
  intros [Hc Ha]%andb_prop. rewrite (digit_not_point c Hc). auto.
Qed.

Create HintDb js_digits discriminated.
#[local] Hint Resolve digits_all_digits digits_nonempty frac_digits_all_digits
  frac_digits_length : js_digits.

(** The shape of [fixed_digits]: digits, then [f] digits after a point. *)
Lemma fixed_digits_shape (f : nat) (n : Z) :
  exists a d,
    fixed_digits f n = (match f with O => a | S _ => a +:+ "." +:+ d end) /\
    all_digits a = true /\ nonempty a = true /\
    all_digits d = true /\ String.length d = f.
Proof.
  destruct f as [| f].
  - exists (digits n), "". simpl. auto 6 with js_digits.
  - exists (digits (n / 10 ^ Z.of_nat (S f))), (frac_digits (S f) (n mod 10 ^ Z.of_nat (S f))).
    unfold fixed_digits. auto 6 with js_digits.
Qed.

Lemma unsigned_digit_head (a : string) :
  all_digits a = true -> nonempty a = true -> forall r, unsigned (a +:+ r) = a +:+ r.
Proof.
  destruct a as [| c a]; [discriminate |]. simpl.
  intros [Hc _]%andb_prop _ r. rewrite append_cons.
  destruct c as [[] [] [] [] [] [] [] []]; try reflexivity; discriminate.
Qed.

Lemma fixed_point_unsigned (f : nat) (n : Z) : fixed_point f (fixed_digits f n) = true.
Proof.
  destruct (fixed_digits_shape f n) as (a & d & -> & Ha & Hne & Hd & Hlen).
  unfold fixed_point. destruct f as [| f].
  - rewrite <- (append_empty a) at 1 2 3.
    rewrite unsigned_digit_head, append_empty by assumption.
    rewrite before_point_digits, after_point_digits, Hne, Ha by assumption.
    reflexivity.
  - rewrite unsigned_digit_head by assumption.
    rewrite before_point_append, after_point_append, Hne, Ha, Hd, Hlen
      by assumption.
    simpl. rewrite Nat.eqb_refl. reflexivity.
Qed.

Lemma fixed_point_signed (f : nat) (n : Z) (s : bool) :
  fixed_point f ((if s then "-" else "") +:+ fixed_digits f n) = true.
Proof.
  destruct s; [| apply fixed_point_unsigned].
  pose proof (fixed_point_unsigned f n) as H.
  destruct (fixed_digits_shape f n) as (a & d & Heq & Ha & Hne & _).
  assert (Hu : unsigned (fixed_digits f n) = fixed_digits f n).
  { rewrite Heq. destruct f.
    - rewrite <- (append_empty a). apply unsigned_digit_head; assumption.
    - apply unsigned_digit_head; assumption. }
  unfold fixed_point in *. rewrite Hu in H. exact H.
Qed.

(** [toFixed(f)] prints a number of the fixed range with exactly [f]
    decimal places. *)
Lemma toFixed_fixed_point (f : nat) (x : number) :
  fixed_range x = true -> fixed_point f (toFixed f x) = true.
Proof.
  destruct x as [s | s | | s m e]; simpl; try discriminate.
  - intros _. apply fixed_point_unsigned.
  - intros Hr. apply negb_true_iff in Hr. rewrite Hr.
    destruct (fraction m e) as [a b]. apply fixed_point_signed.
Qed.

End JsFacts.

(* ===================================================================== *)
(** * Properties of charts.js *)
(* ===================================================================== *)

Module ChartsSpec.
Import Js Charts.
Local Open Scope nat_scope.

(** ** The chart a constructor returns *)

Lemma created_new_Chart ctx type data options w :
  created (new_Chart ctx type data options w)
  = Some (Chart.mk (Some ctx) type data options).
Proof. unfold created, new_Chart. simpl. apply lookup_insert_eq. Qed.

Lemma new_Chart_returns ctx type data options w :
  returns (new_Chart ctx type data options w) = true.
Proof. reflexivity. Qed.

Example hexToRgba_primary :
  hexToRgba VintageColors.primary (of_decimal false 1 (-1)) = "rgba(106, 122, 90, 0.1)".
Proof. reflexivity. Qed.

Example expense_0_value : expense_0 = "#BF8A7D".
Proof. reflexivity. Qed.

(** ** [slice(0, n)] keeps the first [n] entries *)

Lemma slice_0 {A} (n : nat) (a : list A) : slice 0 (Z.of_nat n) a = take n a.
Proof.
  unfold slice.
  replace (0 <? 0)%Z with false by reflexivity.
  replace (Z.of_nat n <? 0)%Z with false by (symmetry; apply Z.ltb_ge; lia).
  rewrite (Z.min_l 0%Z) by lia. simpl. rewrite drop_0.
  destruct (Nat.le_gt_cases n (length a)) as [Hle | Hgt].
  - rewrite Z.min_l by lia. f_equal. lia.
  - rewrite Z.min_r by lia.
    replace (Z.to_nat (Z.of_nat (length a) - 0)) with (length a) by lia.
    rewrite !take_ge by lia. reflexivity.
Qed.

(** C4. For every points sequence, the empty one included, the trend chart
    constructor returns (it does not throw) a line chart with exactly the
    three series Income, Expenses and Net Balance; the labels and every
    series have as many entries as there are points, so an empty sequence
    gives a chart with no label and three empty series. *)
Theorem trend_chart_three_series (ctx : nat) (points : list TimeSeriesPoint) (w : World) :
  (returns (createMonthlyTrendChart ctx points w) = true /\
   exists c,
     created (createMonthlyTrendChart ctx points w) = Some c /\
     Chart.type c = "line" /\
     Dataset.label <$> ChartData.datasets (Chart.data c)
       = [Some "Income"; Some "Expenses"; Some "Net Balance"] /\
     Dataset.data <$> ChartData.datasets (Chart.data c)
       = [income <$> points; expense <$> points; balance <$> points] /\
     length (ChartData.labels (Chart.data c)) = length points /\
     Forall (fun d => length (Dataset.data d) = length points)
            (ChartData.datasets (Chart.data c))) /\
  (returns (createMonthlyTrendChart ctx [] w) = true /\
   exists c,
     created (createMonthlyTrendChart ctx [] w) = Some c /\
     ChartData.labels (Chart.data c) = [] /\
     Dataset.data <$> ChartData.datasets (Chart.data c) = [[]; []; []]).
Proof.
  split; (split; [apply new_Chart_returns |]);
    unfold createMonthlyTrendChart; rewrite created_new_Chart;
    (eexists; split; [reflexivity |]); simpl.
  - repeat split.
    + apply length_fmap.
    + repeat constructor; simpl; apply length_fmap.
  - split; reflexivity.
Qed.

(** ** Colours *)

(** The colours handed to the library for a doughnut are the palette cut to
    [labels.length] entries; read modulo its own length, the cut palette
    gives at every position below [labels.length] what the whole palette
    gives modulo its length. *)
Lemma cut_palette_cycles (pal : list string) (n i : nat) :
  i < n ->
  take n pal !! (i mod length (take n pal)) = pal !! (i mod length pal).
Proof.
  intros Hi. destruct (Nat.le_gt_cases (length pal) n) as [Hge | Hlt].
  - rewrite take_ge by assumption. reflexivity.
  - rewrite length_take, Nat.min_l by lia.
    rewrite !Nat.mod_small by lia. apply lookup_take_lt. assumption.
Qed.



(** ** Destroy *)

Lemma set_chart_lookup h c w : heap (set_chart h c w) !! h = Some c.
Proof. apply lookup_insert_eq. Qed.

Lemma set_chart_set_chart h c c' w :
  set_chart h c' (set_chart h c w) = set_chart h c' w.
Proof. unfold set_chart. simpl. rewrite insert_insert_eq. reflexivity. Qed.

Lemma release_released (c : Chart.t) :
  Chart.canvas c = None -> Chart.release c = c.
Proof. destruct c; simpl; intros ->; reflexivity. Qed.

(** C9. [destroyChart] on an absent handle ([null] or [undefined]) returns
    with the state unchanged; on a handle to a chart it returns with the
    chart's canvas released, and a second call on the same handle returns
    again and leaves the state as the first call left it. *)
Theorem destroyChart_absent_or_twice (h : nat) (w : World) :
  destroyChart null w = Returned tt w /\
  destroyChart undefined w = Returned tt w /\
  exists w1,
    destroyChart (ref h) w = Returned tt w1 /\
    heap w1 !! h = Chart.release <$> heap w !! h /\
    destroyChart (ref h) w1 = Returned tt w1.
Proof.
  split; [reflexivity |]. split; [reflexivity |].
  assert (Hfirst : forall w',
            destroyChart (ref h) w' =
            Returned tt match heap w' !! h with
                        | Some c => match Chart.canvas c with
                                    | Some _ => set_chart h (Chart.release c) w'
                                    | None => w'
                                    end
                        | None => w'
                        end).
  { intros w'. unfold destroyChart, Chart_destroy, is_chart.
    unfold mbind, exec_bind, get_state, modify, mret, exec_ret.
    destruct (heap w' !! h) eqn:E; simpl; rewrite ?E; reflexivity. }
  rewrite Hfirst.
  destruct (heap w !! h) as [c |] eqn:Hc.
  - destruct (Chart.canvas c) as [cv |] eqn:Hcv.
    + eexists. split; [reflexivity |]. rewrite Hfirst, set_chart_lookup.
      split; reflexivity.
    + exists w. rewrite Hfirst, Hc, Hcv. simpl.
      rewrite release_released by assumption. repeat split.
  - exists w. rewrite Hfirst, Hc. repeat split.
Qed.

(** [resizeChart] skips an absent handle as [destroyChart] does. *)
Lemma resizeChart_absent (w : World) :
  resizeChart null w = Returned tt w /\ resizeChart undefined w = Returned tt w.
Proof. split; reflexivity. Qed.

(** ** Update *)

Lemma set_chart_id h c w : heap w !! h = Some c -> set_chart h c w = w.
Proof.
  intros Hc. destruct w as [hp rs]. unfold set_chart. simpl in *.
  rewrite insert_id by assumption. reflexivity.
Qed.

Lemma update_chart_some h f c w :
  heap w !! h = Some c -> update_chart h f w = set_chart h (f c) w.
Proof. intros Hc. unfold update_chart. rewrite Hc. reflexivity. Qed.

Section UpdateLoop.

Variable h : nat.
Variable newData : list (list number).

(** The loop of [updateChartData]: started at index [i] over [l], it
    rewrites the [data] of the datasets at the indices [i .. i + length l - 1]
    of the chart and nothing else. *)
Lemma update_loop (l : list Dataset.t) :
  forall (i : nat) (w : World) (c : Chart.t),
    heap w !! h = Some c ->
    exists c',
      forEach_from i
        (fun (dataset : Dataset.t) index =>
           modify (update_chart h
                     (set_dataset_data index (default [] (newData !! index)))))
        l w = Returned tt (set_chart h c' w) /\
      Chart.canvas c' = Chart.canvas c /\
      Chart.type c' = Chart.type c /\
      Chart.options c' = Chart.options c /\
      ChartData.labels (Chart.data c') = ChartData.labels (Chart.data c) /\
      forall j,
        ChartData.datasets (Chart.data c') !! j =
        if decide (i <= j < i + length l)
        then Dataset.set_data (default [] (newData !! j))
               <$> ChartData.datasets (Chart.data c) !! j
        else ChartData.datasets (Chart.data c) !! j.
Proof.
  induction l as [| x l IH]; intros i w c Hc.
  - exists c. simpl. rewrite set_chart_id by assumption.
    repeat split. intros j. case_decide; [lia | reflexivity].
  - cbn [forEach_from]. unfold mbind, exec_bind, modify.
    rewrite (update_chart_some h _ c w Hc).
    set (c1 := set_dataset_data i (default [] (newData !! i)) c).
    destruct (IH (S i) (set_chart h c1 w) c1 (set_chart_lookup h c1 w))
      as (c' & Hrun & Hcv & Hty & Hop & Hlb & Hds).
    exists c'. fold (@modify World) in *.
    unfold mbind, exec_bind, modify in Hrun.
    rewrite Hrun, set_chart_set_chart.
    split; [reflexivity |]. repeat split; try assumption.
    intros j. rewrite Hds. subst c1. cbn [set_dataset_data Chart.set_data Chart.data
      ChartData.datasets length].
    destruct (decide (j = i)) as [-> | Hne].
    + rewrite list_lookup_alter_eq.
      case_decide; [lia |]. case_decide; [reflexivity | lia].
    + rewrite list_lookup_alter_ne by congruence.
      repeat case_decide; try reflexivity; lia.
Qed.

End UpdateLoop.

(** What [updateChartData] does on a handle to a chart: the writes are made
    first, and the drawing pass that follows them throws when the chart was
    destroyed. *)
Lemma updateChartData_spec (h : nat) (c : Chart.t) (newLabels : list string)
    (newData : list (list number)) (w : World) :
  heap w !! h = Some c ->
  exists c',
    updateChartData (ref h) newLabels newData w
      = match Chart.canvas c with
        | Some _ => Returned tt (log_render h (set_chart h c' w))
        | None => Thrown (TypeError "Cannot read properties of null")
                         (set_chart h c' w)
        end /\
    Chart.canvas c' = Chart.canvas c /\
    Chart.type c' = Chart.type c /\
    Chart.options c' = Chart.options c /\
    ChartData.labels (Chart.data c') = newLabels /\
    ChartData.datasets (Chart.data c') =
      imap (fun index dataset => Dataset.set_data (default [] (newData !! index)) dataset)
           (ChartData.datasets (Chart.data c)).
Proof.
  intros Hc. unfold updateChartData, chart_of.
  exec_step. rewrite Hc. exec_step. unfold modify at 1.
  rewrite (update_chart_some h _ c w Hc).
  set (c1 := set_labels newLabels c).
  destruct (update_loop h newData (ChartData.datasets (Chart.data c)) 0
              (set_chart h c1 w) c1 (set_chart_lookup h c1 w))
    as (c' & Hrun & Hcv & Hty & Hop & Hlb & Hds).
  exists c'. unfold forEach, mbind, exec_bind.
  rewrite Hrun, set_chart_set_chart. split.
  { unfold Chart_update, draw. rewrite set_chart_lookup, Hcv. reflexivity. }
  repeat split; try assumption.
  apply list_eq. intros j. rewrite Hds, list_lookup_imap. subst c1.
  cbn [set_labels Chart.set_data Chart.data ChartData.datasets].
  case_decide as Hj; [reflexivity |].
  rewrite lookup_ge_None_2 by lia. reflexivity.
Qed.

(** On a chart that holds its canvas the update returns. *)
Lemma updateChartData_live (h : nat) (c : Chart.t) (newLabels : list string)
    (newData : list (list number)) (w : World) :
  heap w !! h = Some c ->
  is_Some (Chart.canvas c) ->
  exists c',
    updateChartData (ref h) newLabels newData w
      = Returned tt (log_render h (set_chart h c' w)) /\
    Chart.canvas c' = Chart.canvas c /\
    Chart.type c' = Chart.type c /\
    Chart.options c' = Chart.options c /\
    ChartData.labels (Chart.data c') = newLabels /\
    ChartData.datasets (Chart.data c') =
      imap (fun index dataset => Dataset.set_data (default [] (newData !! index)) dataset)
           (ChartData.datasets (Chart.data c)).
Proof.
  intros Hc [cv Hcv].
  destruct (updateChartData_spec h c newLabels newData w Hc)
    as (c' & Hrun & Hrest).
  rewrite Hcv in Hrun. exists c'. split; assumption.
Qed.

(** C8. On a handle to a chart that holds its canvas [updateChartData]
    returns; the object under the handle is still the only object there (no
    object is added to the heap, every other object is untouched), its
    labels are [newLabels], the values of dataset [i] are [newData[i]] (or
    the empty array), all other properties of the datasets and the chart's
    canvas, type and options are as before, and one drawing pass on the
    handle is recorded. *)
Theorem updateChartData_in_place (h : nat) (c : Chart.t) (newLabels : list string)
    (newData : list (list number)) (w : World) :
  heap w !! h = Some c ->
  is_Some (Chart.canvas c) ->
  exists w' c',
    updateChartData (ref h) newLabels newData w = Returned tt w' /\
    heap w' !! h = Some c' /\
    dom (heap w') = dom (heap w) /\
    (forall h', h' <> h -> heap w' !! h' = heap w !! h') /\
    ChartData.labels (Chart.data c') = newLabels /\
    ChartData.datasets (Chart.data c') =
      imap (fun index dataset => Dataset.set_data (default [] (newData !! index)) dataset)
           (ChartData.datasets (Chart.data c)) /\
    Chart.canvas c' = Chart.canvas c /\
    Chart.type c' = Chart.type c /\
    Chart.options c' = Chart.options c /\
    renders w' = renders w ++ [h].
Proof.
  intros Hc Hlive.
  destruct (updateChartData_live h c newLabels newData w Hc Hlive)
    as (c' & Hrun & Hcv & Hty & Hop & Hlb & Hds).
  exists (log_render h (set_chart h c' w)), c'.
  split; [exact Hrun |]. split; [apply lookup_insert_eq |].
  split; [apply dom_insert_lookup_L; eauto |].
  split; [intros h' Hne; apply lookup_insert_ne; congruence |].
  repeat split; assumption.
Qed.

Lemma updateChartData_in_place_witness :
  heap two_series_world !! 0 = Some two_series_chart /\
  is_Some (Chart.canvas two_series_chart) /\
  exists w' c',
    updateChartData (ref 0) ["Mar"] [[of_Z 1]; [of_Z 2]] two_series_world
      = Returned tt w' /\
    heap w' !! 0 = Some c' /\
    ChartData.labels (Chart.data c') = ["Mar"] /\
    Chart.options c' = Chart.options two_series_chart.
Proof.
  split; [reflexivity |]. split; [eexists; reflexivity |].
  destruct (updateChartData_in_place 0 two_series_chart ["Mar"] [[of_Z 1]; [of_Z 2]]
              two_series_world eq_refl (ex_intro _ 0 eq_refl))
    as (w' & c' & Hrun & Hh & _ & _ & Hlb & _ & _ & _ & Hop & _).
  exists w', c'. repeat split; assumption.
Defined.

(** C10. When [newData] has no entry at the index of a dataset of a chart
    that holds its canvas, that dataset's values become the empty array:
    they are not left as they were. *)
Theorem updateChartData_clears_uncovered (h : nat) (c : Chart.t)
    (newLabels : list string) (newData : list (list number)) (w : World)
    (i : nat) (d : Dataset.t) :
  heap w !! h = Some c ->
  is_Some (Chart.canvas c) ->
  ChartData.datasets (Chart.data c) !! i = Some d ->
  length newData <= i ->
  exists w' c',
    updateChartData (ref h) newLabels newData w = Returned tt w' /\
    heap w' !! h = Some c' /\
    ChartData.datasets (Chart.data c') !! i = Some (Dataset.set_data [] d) /\
    Dataset.data <$> ChartData.datasets (Chart.data c') !! i = Some [].
Proof.
  intros Hc Hlive Hd Hlen.
  destruct (updateChartData_live h c newLabels newData w Hc Hlive)
    as (c' & Hrun & _ & _ & _ & _ & Hds).
  exists (log_render h (set_chart h c' w)), c'.
  split; [exact Hrun |]. split; [apply lookup_insert_eq |].
  rewrite Hds, list_lookup_imap, Hd, (lookup_ge_None_2 newData i Hlen).
  split; reflexivity.
Qed.

Lemma updateChartData_clears_uncovered_witness :
  heap two_series_world !! 0 = Some two_series_chart /\
  is_Some (Chart.canvas two_series_chart) /\
  length [[of_Z 1; of_Z 2; of_Z 3]] <= 1 /\
  exists w' c',
    updateChartData (ref 0) ["Mar"; "Apr"; "May"] [[of_Z 1; of_Z 2; of_Z 3]]
      two_series_world = Returned tt w' /\
    heap w' !! 0 = Some c' /\
    Dataset.data <$> ChartData.datasets (Chart.data c') !! 1 = Some [].
Proof.
  split; [reflexivity |]. split; [eexists; reflexivity |]. split; [apply le_n |].
  destruct (updateChartData_clears_uncovered 0 two_series_chart
              ["Mar"; "Apr"; "May"] [[of_Z 1; of_Z 2; of_Z 3]] two_series_world 1
              (barDataset (Dataset.set_data [of_Z 5; of_Z 7] Dataset.empty) 1)
              eq_refl (ex_intro _ 0 eq_refl) eq_refl (le_n 1))
    as (w' & c' & Hrun & Hh & _ & Hdata).
  exists w', c'. repeat split; assumption.
Defined.

(** ** Percentages *)

(** [calculatePercentage] answers the number 0 whenever the total is not
    above zero: on [+0] and [-0] in particular, whatever the value. *)
Lemma calculatePercentage_zero_total (v : number) (s : bool) :
  calculatePercentage v (S754_zero s) = Num (of_Z 0).
Proof. destruct s; reflexivity. Qed.

Lemma calculatePercentage_quarter :
  calculatePercentage (of_Z 25) (of_Z 100) = Str "25.0".
Proof. reflexivity. Qed.

(** The tooltip of the doughnut and of the pie divides by the sum of the
    values without a test: on a zero sum the percentage printed is never a
    number. *)
Lemma arcTooltipLabel_zero_total (name : string) (parsed : number) (ds : Dataset.t)
    (s : bool) :
  foldl add (of_Z 0) (Dataset.data ds) = S754_zero s ->
  exists amount pct,
    arcTooltipLabel {| a_label := name; a_parsed := parsed; a_dataset := ds |}
      = (if string_truthy name then name else "") +:+ ": $" +:+ amount
          +:+ " (" +:+ pct +:+ "%)" /\
    (pct = "NaN" \/ pct = "Infinity" \/ pct = "-Infinity").
Proof.
  intros Hsum. unfold arcTooltipLabel. cbn [a_label a_parsed a_dataset].
  rewrite Hsum. eexists _, _. split; [reflexivity |].
  destruct parsed as [z | i | | sg m e], s; cbn; auto.
  all: destruct i || destruct sg; cbn; auto.
Qed.

(** C2. The zero-total guard is in [calculatePercentage] only.  The
    doughnut built for two categories whose values are both zero carries the
    tooltip callback that prints "NaN%" for its first slice, where
    [calculatePercentage] on the same value and total answers 0. *)
Theorem doughnut_tooltip_zero_total_prints_NaN :
  exists c d f,
    created (createCategoryDoughnutChart 0 ["Food"; "Rent"] [of_Z 0; of_Z 0]
               (Some "expense") empty_world) = Some c /\
    ChartData.datasets (Chart.data c) = [d] /\
    tooltip_label_callback c = Some (ArcLabel f) /\
    f {| a_label := "Food"; a_parsed := of_Z 0; a_dataset := d |}
      = "Food: $0 (NaN%)" /\
    calculatePercentage (of_Z 0) (foldl add (of_Z 0) (Dataset.data d)) = Num (of_Z 0).
Proof.
  unfold createCategoryDoughnutChart. rewrite created_new_Chart.
  eexists _, _, _. repeat split.
Qed.

(** ** Currency labels *)

(** "Two decimal places in tooltips, for every value" fails twice: the
    tooltip of the doughnut prints the amount 12.5 of a category as "$13", with no decimal
    place, and the tooltip of the trend chart prints the amount 10^21 as
    "$1e+21". *)
Lemma tooltip_amount_not_two_decimals :
  (exists c d f,
     created (createCategoryDoughnutChart 0 ["Food"] [of_decimal false 125 (-1)]
                (Some "expense") empty_world) = Some c /\
     ChartData.datasets (Chart.data c) = [d] /\
     tooltip_label_callback c = Some (ArcLabel f) /\
     f {| a_label := "Food"; a_parsed := of_decimal false 125 (-1); a_dataset := d |}
       = "Food: $13 (100.0%)" /\
     currency_text 2 "$13" = false) /\
  (exists c d f,
     created (createMonthlyTrendChart 0 [] empty_world) = Some c /\
     ChartData.datasets (Chart.data c) !! 0 = Some d /\
     tooltip_label_callback c = Some (CartesianLabel f) /\
     f {| c_dataset := d; c_parsed_y := of_decimal false 1 21 |} = "Income: $1e+21" /\
     currency_text 2 "$1e+21" = false).
Proof.
  split.
  - unfold createCategoryDoughnutChart. rewrite created_new_Chart.
    eexists _, _, _. repeat split.
  - unfold createMonthlyTrendChart. rewrite created_new_Chart.
    eexists _, _, _. repeat split.
Qed.

Lemma truthy_or_zero_fixed_range (v : number) :
  fixed_range v = true -> fixed_range (if truthy v then v else of_Z 0) = true.
Proof. destruct v; simpl; auto. Qed.

(** C5 (amended). Chart amounts are a dollar sign followed by the output of
    [toFixed]: for every finite value of magnitude below 10^21, the axis
    ticks of the trend and bar charts print it with no decimal place, the
    tooltips of the trend and bar charts with exactly two decimal places, and
    the tooltips of the doughnut and pie charts with no decimal place. *)
Theorem chart_amounts_fixed_point (v : number) (ds : Dataset.t) (name : string)
    (ctx : nat) (points : list TimeSeriesPoint) (labels : list string)
    (datasets : list Dataset.t) (values : list number) (type : option string)
    (colors : option (list string)) (w : World) :
  fixed_range v = true ->
  (* which callback each chart carries *)
  (exists c, created (createMonthlyTrendChart ctx points w) = Some c /\
             y_tick_callback c = Some tickLabel /\
             tooltip_label_callback c = Some (CartesianLabel cartesianTooltipLabel)) /\
  (exists c, created (createBarChart ctx labels datasets w) = Some c /\
             y_tick_callback c = Some tickLabel /\
             tooltip_label_callback c = Some (CartesianLabel cartesianTooltipLabel)) /\
  (exists c, created (createCategoryDoughnutChart ctx labels values type w) = Some c /\
             tooltip_label_callback c = Some (ArcLabel arcTooltipLabel)) /\
  (exists c, created (createPieChart ctx labels values colors w) = Some c /\
             tooltip_label_callback c = Some (ArcLabel arcTooltipLabel)) /\
  (* what the callbacks print *)
  currency_text 0 (tickLabel v) = true /\
  (exists amount,
     cartesianTooltipLabel {| c_dataset := ds; c_parsed_y := v |}
       = text_of (Dataset.label ds) +:+ ": " +:+ amount /\
     currency_text 2 amount = true) /\
  (exists amount pct,
     arcTooltipLabel {| a_label := name; a_parsed := v; a_dataset := ds |}
       = (if string_truthy name then name else "") +:+ ": " +:+ amount
           +:+ " (" +:+ pct +:+ "%)" /\
     currency_text 0 amount = true).
Proof.
  intros Hv.
  split; [unfold createMonthlyTrendChart; rewrite created_new_Chart;
          eexists; repeat split |].
  split; [unfold createBarChart; rewrite created_new_Chart;
          eexists; repeat split |].
  split; [unfold createCategoryDoughnutChart; rewrite created_new_Chart;
          eexists; repeat split |].
  split; [unfold createPieChart; rewrite created_new_Chart;
          eexists; repeat split |].
  split; [| split].
  - unfold tickLabel. cbn [currency_text String.append].
    apply JsFacts.toFixed_fixed_point, Hv.
  - exists ("$" +:+ toFixed 2 v). split; [reflexivity |].
    cbn [currency_text String.append].
    apply JsFacts.toFixed_fixed_point, Hv.
  - unfold arcTooltipLabel. cbn [a_label a_parsed a_dataset].
    eexists ("$" +:+ _), _. split; [reflexivity |].
    cbn [currency_text String.append].
    apply JsFacts.toFixed_fixed_point, truthy_or_zero_fixed_range, Hv.
Qed.

Lemma chart_amounts_fixed_point_witness :
  fixed_range (of_decimal false 12345678 (-1)) = true /\
  currency_text 0 (tickLabel (of_decimal false 12345678 (-1))) = true /\
  tickLabel (of_decimal false 12345678 (-1)) = "$1234568" /\
  cartesianTooltipLabel
    {| c_dataset := lineDataset "Income" [] VintageColors.primary false;
       c_parsed_y := of_decimal false 12345678 (-1) |} = "Income: $1234567.80".
Proof.
  split; [reflexivity |].
  destruct (chart_amounts_fixed_point (of_decimal false 12345678 (-1))
              (lineDataset "Income" [] VintageColors.primary false) "Food"
              0 [] [] [] [] None None empty_world eq_refl)
    as (_ & _ & _ & _ & Htick & _ & _).
  split; [exact Htick |]. split; reflexivity.
Defined.

End ChartsSpec.


(* ===================================================================== *)
(** * Properties of main.js *)
(* ===================================================================== *)

Module MainSpec.
Import Js Main.
Local Open Scope nat_scope.

(** ** Induction over document trees *)

Lemma Node_forall_ind (P : Node -> Prop) :
  (forall e cs, Forall P cs -> P (node e cs)) -> forall n, P n.
Proof.
  intros Hnode. fix IH 1. intros [e cs]. apply Hnode.
  revert cs. fix IHcs 1. intros [| c cs].
  - constructor.
  - constructor; [apply IH | apply IHcs].
Qed.

(** ** Amount field *)

Lemma has_class_add (c : string) (e : Element.t) :
  Element.has_class c (Element.classList_add c e) = true.
Proof.
  unfold Element.classList_add.
  destruct (Element.has_class c e) eqn:Hc; [exact Hc |].
  unfold Element.has_class. simpl.
  rewrite existsb_app. simpl. rewrite String.eqb_refl.
  rewrite orb_true_r. reflexivity.
Qed.

Lemma has_class_remove (c : string) (e : Element.t) :
  Element.has_class c (Element.classList_remove c e) = false.
Proof.
  unfold Element.has_class, Element.classList_remove. simpl.
  induction (Element.classList e) as [| x l IH]; [reflexivity |].
  simpl. destruct (String.eqb c x) eqn:Hx; simpl; [exact IH |].
  rewrite Hx. exact IH.
Qed.

(** Not NaN and above zero, or: NaN or at most zero. *)
Lemma positive_or_rejected (v : number) :
  negb (isNaN v) && gt v (of_Z 0) = negb (isNaN v || le v (of_Z 0)).
Proof. destruct v as [s | s | | s m e]; try destruct s; reflexivity. Qed.

(** The text "1e21" parses as a positive number, and on blur the field
    does not get a value with two decimal places: it becomes "1e+21"; the
    text "Infinity" parses as a positive number too and stays "Infinity". *)
Lemma amount_1e21_is_not_formatted_to_two_decimals :
  let input := Element.set_value "1e21" (root (text_input 3 "amount" "")) in
  let huge := Element.set_value "Infinity" (root (text_input 3 "amount" "")) in
  parses_positive "1e21" = true /\
  Element.value (formatAmountInput input) = Some "1e+21" /\
  fixed_point 2 "1e+21" = false /\
  is_invalid (validateAmountInput input) = false /\
  parses_positive "Infinity" = true /\
  Element.value (formatAmountInput huge) = Some "Infinity" /\
  fixed_point 2 "Infinity" = false.
Proof. repeat split; vm_compute; reflexivity. Qed.

(** C7 (amended). On blur the value of the amount field becomes [toFixed(2)]
    of the parsed number when the text parses as a positive number, and stays
    as it is otherwise; the classes are not touched, and for a parsed number
    in the fixed range (finite and below 10^21) the new value has exactly two
    decimal places.  On input the
    field carries the class [is-invalid] afterwards exactly when the text
    does not parse as a positive number, and its value is not touched.  "12"
    becomes "12.00"; "-5" and "abc" are marked invalid. *)
Theorem amount_field_format_and_validate (input : Element.t) :
  let text := default "undefined" (Element.value input) in
  Element.value (formatAmountInput input)
    = (if parses_positive text then Some (toFixed 2 (parseFloat text))
       else Element.value input) /\
  Element.classList (formatAmountInput input) = Element.classList input /\
  implb (parses_positive text && fixed_range (parseFloat text))
        (match Element.value (formatAmountInput input) with
         | Some s => fixed_point 2 s
         | None => false
         end) = true /\
  is_invalid (validateAmountInput input) = negb (parses_positive text) /\
  Element.value (validateAmountInput input) = Element.value input /\
  Element.value (formatAmountInput (Element.set_value "12" input)) = Some "12.00" /\
  is_invalid (validateAmountInput (Element.set_value "-5" input)) = true /\
  is_invalid (validateAmountInput (Element.set_value "abc" input)) = true /\
  is_invalid (validateAmountInput (Element.set_value "12" input)) = false.
Proof.
  intros text.
  assert (Hfmt : formatAmountInput input
                 = if parses_positive text
                   then Element.set_value (toFixed 2 (parseFloat text)) input
                   else input) by reflexivity.
  assert (Hval : validateAmountInput input
                 = if parses_positive text
                   then Element.classList_remove "is-invalid" input
                   else Element.classList_add "is-invalid" input).
  { unfold validateAmountInput, parses_positive, parsed_amount. fold text.
    rewrite positive_or_rejected.
    destruct (isNaN (parseFloat text) || le (parseFloat text) (of_Z 0)); reflexivity. }
  repeat split.
  - rewrite Hfmt. destruct (parses_positive text); reflexivity.
  - rewrite Hfmt. destruct (parses_positive text); reflexivity.
  - rewrite Hfmt. destruct (parses_positive text); [| reflexivity].
    destruct (fixed_range (parseFloat text)) eqn:Hr; [| reflexivity].
    simpl. apply JsFacts.toFixed_fixed_point, Hr.
  - rewrite Hval. unfold is_invalid.
    destruct (parses_positive text); [apply has_class_remove | apply has_class_add].
  - rewrite Hval. destruct (parses_positive text); [reflexivity |].
    unfold Element.classList_add. destruct (Element.has_class _ _); reflexivity.
  - apply has_class_add.
  - apply has_class_add.
  - apply has_class_remove.
Qed.

(** ** Notifications *)

(** Pruning keeps only elements that were there and do not match. *)
Lemma in_prune (q : Element.t -> bool) (n : Node) (e : Element.t) :
  In e (all_elements (prune q n)) -> In e (elements n) /\ q e = false.
Proof.
  revert e. induction n as [x cs IH] using Node_forall_ind. intros e.
  cbn [prune]. destruct (q x) eqn:Hqx; [intros [] |].
  unfold all_elements. cbn [List.flat_map elements]. rewrite app_nil_r.
  fold (all_elements (List.flat_map (prune q) cs)).
  intros [<- | Hin]; [split; [left; reflexivity | exact Hqx] |].
  unfold all_elements in Hin.
  apply in_flat_map in Hin as (n' & Hn' & He).
  apply in_flat_map in Hn' as (c & Hc & Hn').
  rewrite Forall_forall in IH.
  destruct (IH c ltac:(apply list_elem_of_In; exact Hc) e) as [Hin Hq].
  { unfold all_elements. apply in_flat_map. exists n'. split; assumption. }
  split; [| exact Hq].
  right. apply in_flat_map. exists c. split; assumption.
Qed.

Lemma in_prune_forest (q : Element.t -> bool) (forest : list Node) (e : Element.t) :
  In e (all_elements (List.flat_map (prune q) forest)) ->
  In e (all_elements forest) /\ q e = false.
Proof.
  unfold all_elements. intros Hin.
  apply in_flat_map in Hin as (n' & Hn' & He).
  apply in_flat_map in Hn' as (c & Hc & Hn').
  destruct (in_prune q c e) as [Hin Hq].
  { unfold all_elements. apply in_flat_map. exists n'. split; assumption. }
  split; [| exact Hq]. apply in_flat_map. exists c. split; assumption.
Qed.

(** Removing each notification of a list leaves a page whose elements were
    all there before and are none of the list. *)
Lemma remove_each (l : list Element.t) :
  forall (i : nat) (p : Page),
  exists p',
    forEach_from i (fun (notification : Element.t) (_ : nat) =>
                      remove_element (Element.uid notification)) l p
      = Returned tt p' /\
    next_uid p' = next_uid p /\
    timers p' = timers p /\
    globals p' = globals p /\
    defaultPrevented p' = defaultPrevented p /\
    icon_passes p' = icon_passes p /\
    forall e, In e (all_elements (body p')) ->
              In e (all_elements (body p)) /\
              forall n, In n l -> Element.uid e <> Element.uid n.
Proof.
  induction l as [| x l IH]; intros i p.
  - exists p. repeat split; try assumption. intros n [].
  - set (p0 := set_body
                   (List.flat_map (prune (fun e => Nat.eqb (Element.uid e) (Element.uid x)))
                      (body p)) p).
    destruct (IH (S i) p0) as (p' & Hrun & Hn & Ht & Hg & Hd & Hi & Hel).
    exists p'. cbn [forEach_from]. unfold mbind, exec_bind.
    change (remove_element (Element.uid x) p) with (Returned tt p0).
    split; [exact Hrun |]. repeat split; try assumption.
    + apply Hel in H as [Hin _]. cbn [body set_body] in Hin.
      apply in_prune_forest in Hin as [Hin _]. exact Hin.
    + intros n [<- | Hn'].
      * apply Hel in H as [Hin _]. cbn [body set_body] in Hin.
        apply in_prune_forest in Hin as [_ Hq].
        apply Nat.eqb_neq in Hq. exact Hq.
      * apply Hel in H as [_ Hne]. apply Hne, Hn'.
Qed.

Lemma filter_nil_forall {A} (f : A -> bool) (l : list A) :
  (forall x, In x l -> f x = false) -> List.filter f l = [].
Proof.
  induction l as [| x l IH]; intros H; [reflexivity |].
  simpl. rewrite (H x) by (left; reflexivity).
  apply IH. intros y Hy. apply H. right. exact Hy.
Qed.

Lemma all_elements_app (f1 f2 : list Node) :
  all_elements (f1 ++ f2) = all_elements f1 ++ all_elements f2.
Proof. unfold all_elements. apply flat_map_app. Qed.

(** The markup of a toast holds the message. *)
Lemma toast_markup_holds_message (message : string) (is_error : bool) :
  exists before after, toast_markup message is_error = before +:+ message +:+ after.
Proof.
  unfold toast_markup.
  exists (lf +:+ "        <i data-feather=" +:+ dq
             +:+ (if is_error then "alert-circle" else "check-circle") +:+ dq
             +:+ "></i>" +:+ lf +:+ "        ").
  eexists. destruct is_error; reflexivity.
Qed.

(** What one call of [showNotification] leaves. *)
Lemma showNotification_spec (message : string) (type : option string) (p : Page) :
  exists p' toast,
    showNotification message type p = Returned tt p' /\
    querySelectorAll is_toast p' = [toast] /\
    Element.innerHTML toast
      = toast_markup message (String.eqb (default "info" type) "error") /\
    In (node toast []) (body p') /\
    timers p' = timers p ++ [(5000%Z, DismissToast (Element.uid toast))] /\
    globals p' = globals p /\
    defaultPrevented p' = defaultPrevented p.
Proof.
  unfold showNotification.
  exec_step. unfold get_state at 1. exec_step. unfold forEach.
  destruct (remove_each (querySelectorAll is_toast p) 0 p)
    as (p1 & Hrun & Hn & Ht & Hg & Hd & Hi & Hel).
  rewrite Hrun.
  assert (Hnone : List.filter is_toast (all_elements (body p1)) = []).
  { apply filter_nil_forall. intros e He.
    destruct (is_toast e) eqn:Htoast; [| reflexivity].
    destruct (Hel e He) as [Hin Hne].
    exfalso. apply (Hne e); [| reflexivity].
    unfold querySelectorAll. apply filter_In. split; assumption. }
  unfold createElement, appendChild_body, replace_icons, setTimeout, mbind,
    exec_bind, modify, set_body.
  cbn [body next_uid timers globals defaultPrevented icon_passes].
  set (toast := toast_element message (String.eqb (default "info" type) "error")
                  (blank_element (next_uid p1) "div")).
  assert (Htoast : List.filter is_toast (all_elements (body p1 ++ [node toast []]))
                   = [toast]).
  { rewrite all_elements_app, List.filter_app, Hnone. reflexivity. }
  destruct (globals p1 !! "feather");
    cbn [body next_uid timers globals defaultPrevented icon_passes];
    (eexists _, toast; split; [reflexivity |]);
    unfold querySelectorAll;
    cbn [body next_uid timers globals defaultPrevented icon_passes];
    rewrite Htoast, Ht, Hg, Hd;
    (split; [reflexivity |]); (split; [reflexivity |]);
    (split; [apply in_or_app; right; left; reflexivity |]);
    repeat split.
Qed.

(** ** The notification with its content *)

Lemma all_elements_singleton (e : Element.t) (cs : list Node) :
  all_elements [node e cs] = e :: all_elements cs.
Proof. unfold all_elements. cbn [List.flat_map elements]. apply app_nil_r. Qed.

(** What one call leaves when the content of the notification is taken
    along: the toasts of the document are the notification and the elements
    of class [notification-toast] that its own markup holds. *)
Lemma parsed_showNotification_spec (parseFragment : nat -> string -> list Node)
    (message : string) (type : option string) (p : Page) :
  exists p',
    MainDom.showNotification parseFragment message type p = Returned tt p' /\
    querySelectorAll is_toast p'
      = toast_element message (String.eqb (default "info" type) "error")
          (blank_element (next_uid p) "div")
        :: List.filter is_toast
             (all_elements
                (parseFragment (S (next_uid p))
                   (toast_markup message (String.eqb (default "info" type) "error")))) /\
    In (node (toast_element message (String.eqb (default "info" type) "error")
                (blank_element (next_uid p) "div"))
             (parseFragment (S (next_uid p))
                (toast_markup message (String.eqb (default "info" type) "error"))))
       (body p') /\
    next_uid p'
      = length (all_elements
                  (parseFragment (S (next_uid p))
                     (toast_markup message (String.eqb (default "info" type) "error"))))
        + S (next_uid p) /\
    timers p' = timers p ++ [(5000%Z, DismissToast (next_uid p))] /\
    globals p' = globals p /\
    defaultPrevented p' = defaultPrevented p.
Proof.
  unfold MainDom.showNotification.
  exec_step. unfold get_state at 1. exec_step. unfold forEach.
  destruct (remove_each (querySelectorAll is_toast p) 0 p)
    as (p1 & Hrun & Hn & Ht & Hg & Hd & Hi & Hel).
  rewrite Hrun.
  assert (Hnone : List.filter is_toast (all_elements (body p1)) = []).
  { apply filter_nil_forall. intros e He.
    destruct (is_toast e) eqn:Htoast; [| reflexivity].
    destruct (Hel e He) as [Hin Hne].
    exfalso. apply (Hne e); [| reflexivity].
    unfold querySelectorAll. apply filter_In. split; assumption. }
  unfold createElement, MainDom.parse_children, MainDom.appendChild_body,
    replace_icons, setTimeout, mbind, exec_bind, modify, set_body.
  cbn [body next_uid timers globals defaultPrevented icon_passes].
  rewrite Hn.
  set (toast := toast_element message (String.eqb (default "info" type) "error")
                  (blank_element (next_uid p) "div")).
  set (content := parseFragment (S (next_uid p))
                    (toast_markup message (String.eqb (default "info" type) "error"))).
  assert (Huid : Element.uid toast = next_uid p) by reflexivity.
  assert (Htoast : List.filter is_toast
                     (all_elements (body p1 ++ [node toast content]))
                   = toast :: List.filter is_toast (all_elements content)).
  { rewrite all_elements_app, List.filter_app, Hnone, all_elements_singleton.
    reflexivity. }
  destruct (globals p1 !! "feather");
    cbn [body next_uid timers globals defaultPrevented icon_passes];
    (eexists; split; [reflexivity |]);
    unfold querySelectorAll;
    cbn [body next_uid timers globals defaultPrevented icon_passes];
    rewrite Htoast, Ht, Hg, Hd, Huid;
    (split; [reflexivity |]);
    (split; [apply in_or_app; right; left; reflexivity |]);
    repeat split.
Qed.

(** With no children the notification of this section is the one of
    [Main]. *)
Lemma showNotification_without_content (message : string) (type : option string)
    (p : Page) :
  MainDom.showNotification (fun _ _ => []) message type p
  = showNotification message type p.
Proof.
  unfold MainDom.showNotification, showNotification.
  unfold mbind, exec_bind, get_state.
  destruct (forEach _ (querySelectorAll is_toast p) p) as [[] q | e q];
    reflexivity.
Qed.

(** The message [<div class="notification-toast"></div>] leaves two
    elements of class [notification-toast] in the document: the
    notification and the [div] that the message puts into it. *)
Lemma nested_toast_message_leaves_two_toasts :
  exists p' toast inner,
    MainDom.showNotification MainDom.parse_samples MainDom.nested_toast_message None
      (transaction_page "Groceries") = Returned tt p' /\
    querySelectorAll is_toast p' = [toast; inner] /\
    Element.tag toast = "div" /\ Element.uid toast = 5 /\
    Element.tag inner = "div" /\ Element.uid inner = 7 /\
    In (node toast [MainDom.icon_element 6; node inner []; MainDom.close_button 8])
       (body p').
Proof.
  exists (final_state
            (MainDom.showNotification MainDom.parse_samples
               MainDom.nested_toast_message None (transaction_page "Groceries"))).
  eexists _, _. split; [vm_compute; reflexivity |].
  split; [vm_compute; reflexivity |].
  repeat split. vm_compute. right. left. reflexivity.
Qed.

(** C6 (amended). After a call of [showNotification] whose message puts no
    element of class [notification-toast] into the notification, the
    document holds exactly one element of that class, the notification of
    that call, and its content is what the parser builds from the markup
    that holds the message; so after a second such call the only toast is
    the one of the second message, a new element. *)
Theorem showNotification_leaves_one_toast
    (parseFragment : nat -> string -> list Node)
    (message1 message2 : string) (type1 type2 : option string) (p : Page) :
  MainDom.no_toast_in_message parseFragment message1 type1 ->
  MainDom.no_toast_in_message parseFragment message2 type2 ->
  exists p1 p2 toast1 toast2 before after,
    MainDom.showNotification parseFragment message1 type1 p = Returned tt p1 /\
    querySelectorAll is_toast p1 = [toast1] /\
    In (node toast1
          (parseFragment (S (next_uid p))
             (toast_markup message1 (String.eqb (default "info" type1) "error"))))
       (body p1) /\
    MainDom.showNotification parseFragment message2 type2 p1 = Returned tt p2 /\
    querySelectorAll is_toast p2 = [toast2] /\
    In (node toast2
          (parseFragment (S (next_uid p1))
             (toast_markup message2 (String.eqb (default "info" type2) "error"))))
       (body p2) /\
    toast_markup message2 (String.eqb (default "info" type2) "error")
      = before +:+ message2 +:+ after /\
    Element.uid toast1 <> Element.uid toast2.
Proof.
  intros Hplain1 Hplain2.
  destruct (parsed_showNotification_spec parseFragment message1 type1 p)
    as (p1 & Hrun1 & Hq1 & Hin1 & Hn1 & _).
  destruct (parsed_showNotification_spec parseFragment message2 type2 p1)
    as (p2 & Hrun2 & Hq2 & Hin2 & _).
  destruct (toast_markup_holds_message message2
              (String.eqb (default "info" type2) "error")) as (before & after & Hba).
  rewrite filter_nil_forall in Hq1 by (intros e He; apply (Hplain1 _ _ He)).
  rewrite filter_nil_forall in Hq2 by (intros e He; apply (Hplain2 _ _ He)).
  eexists p1, p2, _, _, before, after.
  split; [exact Hrun1 |]. split; [exact Hq1 |]. split; [exact Hin1 |].
  split; [exact Hrun2 |]. split; [exact Hq2 |]. split; [exact Hin2 |].
  split; [exact Hba |].
  cbn [toast_element blank_element Element.uid]. rewrite Hn1. lia.
Qed.

Lemma showNotification_leaves_one_toast_witness :
  MainDom.no_toast_in_message MainDom.parse_samples "Saved" None /\
  MainDom.no_toast_in_message MainDom.parse_samples "Deleted" (Some "error") /\
  exists p1 p2 toast1 toast2,
    MainDom.showNotification MainDom.parse_samples "Saved" None
      (transaction_page "Groceries") = Returned tt p1 /\
    querySelectorAll is_toast p1 = [toast1] /\
    MainDom.showNotification MainDom.parse_samples "Deleted" (Some "error") p1
      = Returned tt p2 /\
    querySelectorAll is_toast p2 = [toast2] /\
    Element.uid toast1 <> Element.uid toast2.
Proof.
  assert (H1 : MainDom.no_toast_in_message MainDom.parse_samples "Saved" None).
  { intros u e He. vm_compute in He. destruct He as [<- | [<- | []]]; reflexivity. }
  assert (H2 : MainDom.no_toast_in_message MainDom.parse_samples "Deleted"
                 (Some "error")).
  { intros u e He. vm_compute in He. destruct He as [<- | [<- | []]]; reflexivity. }
  split; [exact H1 |]. split; [exact H2 |].
  destruct (showNotification_leaves_one_toast MainDom.parse_samples "Saved" "Deleted"
              None (Some "error") (transaction_page "Groceries") H1 H2)
    as (p1 & p2 & toast1 & toast2 & before & after
        & Hrun1 & Hq1 & _ & Hrun2 & Hq2 & _ & _ & Hne).
  exists p1, p2, toast1, toast2. repeat split; assumption.
Defined.

(** ** Form submission *)

(** The validation loop returns whether every field is filled; it touches
    the body only. *)
Lemma validate_required_spec (fields : list Element.t) :
  forall (isValid : bool) (p : Page),
    Forall (fun f => is_Some (Element.value f)) fields ->
    exists p',
      validate_required fields isValid p
        = Returned (isValid && forallb filled fields) p' /\
      globals p' = globals p /\
      defaultPrevented p' = defaultPrevented p /\
      timers p' = timers p /\
      next_uid p' = next_uid p.
Proof.
  induction fields as [| f fields IH]; intros isValid p Hval.
  - exists p. simpl. rewrite andb_true_r. repeat split.
  - apply Forall_cons in Hval as [[v Hv] Hval].
    assert (Hf : filled f = string_truthy (trim v))
      by (unfold filled; rewrite Hv; reflexivity).
    cbn [validate_required forallb]. unfold trimmed_value. rewrite Hv, Hf.
    exec_step. unfold mret, exec_ret.
    destruct (string_truthy (trim v)); cbn [negb andb].
    + unfold mbind, exec_bind, update_element, modify.
      edestruct (IH isValid) as (p' & Hrun & Hg & Hd & Ht & Hn); [exact Hval |].
      exists p'. rewrite Hrun. repeat split; assumption.
    + unfold mbind, exec_bind, update_element, modify.
      edestruct (IH false) as (p' & Hrun & Hg & Hd & Ht & Hn); [exact Hval |].
      exists p'. rewrite Hrun, andb_false_r. repeat split; assumption.
Qed.

(** Whenever the form has a submit button, every required field has a
    value, one of them is blank and no global is named [originalText], the
    handler throws at the read of [originalText]: the submission is
    cancelled by then, but [showNotification] is never reached. *)
Lemma handleFormSubmit_throws_with_button (target : nat) (p : Page) (form : Node)
    (button : Element.t) :
  find_in_forest target (body p) = Some form ->
  querySelector_in is_submit_button form = Some button ->
  Forall (fun f => is_Some (Element.value f))
         (querySelectorAll_in Element.required form) ->
  forallb filled (querySelectorAll_in Element.required form) = false ->
  globals p !! "originalText" = None ->
  exists p',
    handleFormSubmit target p = Thrown (ReferenceError "originalText") p' /\
    defaultPrevented p' = true /\
    timers p' = timers p ++
      [(3000%Z, RestoreButton (Element.uid button) (Element.innerHTML button))].
Proof.
  intros Hform Hbutton Hval Hblank Hglobal.
  unfold handleFormSubmit, event_target.
  exec_step. rewrite Hform, Hbutton.
  do 2 exec_step. unfold update_element at 1. unfold modify at 1.
  exec_step. unfold update_element at 1. unfold modify at 1.
  unfold setTimeout at 1. unfold modify at 1.
  exec_step.
  match goal with
  | |- context [validate_required ?fs true ?q] =>
      destruct (validate_required_spec fs true q Hval)
        as (p1 & Hrun & Hg & Hd & Ht & Hn)
  end.
  rewrite Hrun, Hblank. cbn [andb negb].
  exec_step. unfold preventDefault at 1. unfold modify at 1.
  do 2 exec_step. unfold update_element at 1. unfold modify at 1.
  exec_step. unfold resolve_global.
  cbn [globals set_body] in *. rewrite Hg, Hglobal.
  eexists. split; [reflexivity |].
  cbn [defaultPrevented timers set_body]. rewrite Ht. split; reflexivity.
Qed.

(** C3. On the transaction form whose required description is blank and
    which has a submit button, the handler cancels the submission, marks the
    description invalid and re-enables the button, then throws a
    ReferenceError at the read of [originalText]: the button keeps its
    "Processing..." label and no toast is shown.  The fallback timer that
    restores the label is still pending. *)
Theorem handleFormSubmit_blank_field_throws :
  exists p',
    handleFormSubmit 1 (transaction_page "   ")
      = Thrown (ReferenceError "originalText") p' /\
    defaultPrevented p' = true /\
    is_invalid <$> element_of 2 p' = Some true /\
    is_invalid <$> element_of 3 p' = Some false /\
    Element.disabled <$> element_of 4 p' = Some false /\
    Element.innerHTML <$> element_of 4 p' = Some processing_markup /\
    querySelectorAll is_toast p' = [] /\
    timers p' = [(3000%Z, RestoreButton 4 "Save")].
Proof.
  exists (final_state (handleFormSubmit 1 (transaction_page "   "))).
  repeat (split; [vm_compute; reflexivity |]). vm_compute. reflexivity.
Qed.

(** The same form without a submit button: the handler returns, the
    submission is cancelled and the toast is shown. *)
Example handleFormSubmit_blank_field_no_button :
  exists p' toast,
    handleFormSubmit 1 (page_of (transaction_form "   " false)) = Returned tt p' /\
    defaultPrevented p' = true /\
    is_invalid <$> element_of 2 p' = Some true /\
    querySelectorAll is_toast p' = [toast] /\
    Element.innerHTML toast
      = toast_markup "Please fill in all required fields." true.
Proof.
  exists (final_state (handleFormSubmit 1 (page_of (transaction_form "   " false)))).
  eexists. split; [vm_compute; reflexivity |]. split; [vm_compute; reflexivity |].
  split; [vm_compute; reflexivity |]. split; vm_compute; reflexivity.
Qed.

(** With every required field filled the handler returns and lets the
    submission proceed: the button is disabled and shows the busy label. *)
Example handleFormSubmit_filled :
  exists p',
    handleFormSubmit 1 (transaction_page "Groceries") = Returned tt p' /\
    defaultPrevented p' = false /\
    Element.disabled <$> element_of 4 p' = Some true /\
    Element.innerHTML <$> element_of 4 p' = Some processing_markup /\
    querySelectorAll is_toast p' = [] /\
    timers p' = [(3000%Z, RestoreButton 4 "Save")].
Proof.
  exists (final_state (handleFormSubmit 1 (transaction_page "Groceries"))).
  repeat (split; [vm_compute; reflexivity |]). vm_compute. reflexivity.
Qed.

(** The fallback timer restores the label of the button. *)
Example fallback_timer_restores_label :
  exists p',
    run_closure (RestoreButton 4 "Save")
      (final_state (handleFormSubmit 1 (transaction_page "   "))) = Returned tt p' /\
    Element.disabled <$> element_of 4 p' = Some false /\
    Element.innerHTML <$> element_of 4 p' = Some "Save".
Proof.
  eexists. split; [reflexivity |]. split; vm_compute; reflexivity.
Qed.

(** The dismissal timer of a toast that was replaced finds it detached and
    leaves the newer toast in place; the timer of the newer toast starts its
    exit animation and schedules its removal. *)
Example dismissal_timers :
  let p2 := final_state
    ((showNotification "Saved" None ;; showNotification "Deleted" None)
       (page_of (transaction_form "Groceries" true))) in
  timers p2 = [(5000%Z, DismissToast 5); (5000%Z, DismissToast 6)] /\
  run_closure (DismissToast 5) p2 = Returned tt p2 /\
  exists p3 p4,
    run_closure (DismissToast 6) p2 = Returned tt p3 /\
    Element.animation <$> element_of 6 p3 = Some "slideOutRight 0.3s ease" /\
    timers p3 = timers p2 ++ [(300%Z, RemoveToast 6)] /\
    run_closure (RemoveToast 6) p3 = Returned tt p4 /\
    querySelectorAll is_toast p4 = [].
Proof.
  split; [vm_compute; reflexivity |]. split; [vm_compute; reflexivity |].
  eexists _, _. split; [vm_compute; reflexivity |].
  split; [vm_compute; reflexivity |]. split; [vm_compute; reflexivity |].
  split; vm_compute; reflexivity.
Qed.

End MainSpec.

(* ===================================================================== *)
(** * Properties of the timer queue *)
(* ===================================================================== *)

Module TimersFacts.
Import Timers.

Section Elapse.

Context {C S : Type}.
Variable run : C -> Z -> S -> S.

Lemma elapse_idle (d : Z) (q : queue C) (s : S) :
  pending q = [] ->
  elapse run d (q, s) = (mk (now q + d) (next_id q) [], s).
Proof. intros Hp. unfold elapse. rewrite Hp. reflexivity. Qed.

(** A single pending timer that is not due yet stays. *)
Lemma elapse_waiting (d : Z) (q : queue C) (s : S) (x : nat * Z * C) :
  pending q = [x] -> now q + d < due x ->
  elapse run d (q, s) = (mk (now q + d) (next_id q) [x], s).
Proof.
  intros Hp Hd. unfold elapse. rewrite Hp. cbn [List.filter].
  replace (now q + d <? due x) with true by (symmetry; apply Z.ltb_lt; lia).
  replace (due x <=? now q + d) with false by (symmetry; apply Z.leb_gt; lia).
  reflexivity.
Qed.

(** A single pending timer that is due fires, at its due time. *)
Lemma elapse_fires (d : Z) (q : queue C) (s : S) (x : nat * Z * C) :
  pending q = [x] -> due x <= now q + d ->
  elapse run d (q, s) = (mk (now q + d) (next_id q) [], run (closure x) (due x) s).
Proof.
  intros Hp Hd. unfold elapse. rewrite Hp. cbn [List.filter].
  replace (now q + d <? due x) with false by (symmetry; apply Z.ltb_ge; lia).
  replace (due x <=? now q + d) with true by (symmetry; apply Z.leb_le; lia).
  reflexivity.
Qed.

End Elapse.

(** Setting a timer after clearing the only pending one leaves one timer. *)
Lemma reschedule {C} (q : queue C) (x : nat * Z * C) (c : C) (delay : Z) :
  pending q = [x] -> 0 <= delay ->
  setTimeout c delay (clearTimeout (Some (handle x)) q)
  = (next_id q, mk (now q) (Datatypes.S (next_id q)) [(next_id q, now q + delay, c)]).
Proof.
  intros Hp Hd. unfold setTimeout, clearTimeout. cbn [now next_id pending].
  rewrite Hp. cbn [List.filter]. rewrite Nat.eqb_refl. cbn [negb app].
  rewrite Z.max_l by lia. reflexivity.
Qed.

Lemma schedule_idle {C} (q : queue C) (id : option nat) (c : C) (delay : Z) :
  pending q = [] -> 0 <= delay ->
  setTimeout c delay (clearTimeout id q)
  = (next_id q, mk (now q) (Datatypes.S (next_id q)) [(next_id q, now q + delay, c)]).
Proof.
  intros Hp Hd. unfold setTimeout, clearTimeout.
  destruct id; cbn [now next_id pending]; rewrite Hp; cbn [List.filter app];
    rewrite Z.max_l by lia; reflexivity.
Qed.

End TimersFacts.

(* ===================================================================== *)
(** * More properties of main.js: debounce *)
(* ===================================================================== *)

Module DebounceSpec.
Import Timers TimersFacts MainMore.

Section Burst.

Context {A : Type}.
Variable wait : Z.
Hypothesis wait_nonneg : 0 <= wait.

(** During a burst (every gap below [wait]) the one pending timer is the
    one of the latest call; [func] is not called. *)
Lemma burst_keeps_one_timer (immediate : bool) (rest : list (Z * A)) :
  forall (q : queue A) (d : Debounced A) (id : nat) (t : Z) (a : A),
    pending q = [(id, t + wait, a)] ->
    timeout d = Some id -> id <> 0%nat ->
    now q = t -> next_id q <> 0%nat ->
    Forall (fun c => 0 <= c.1 < wait) rest ->
    exists q' d' id',
      debounced_calls wait immediate rest (q, d) = (q', d') /\
      pending q' = [(id', (last_call t a rest).1 + wait, (last_call t a rest).2)] /\
      timeout d' = Some id' /\ id' <> 0%nat /\
      now q' = (last_call t a rest).1 /\
      next_id q' <> 0%nat /\
      invoked d' = invoked d.
Proof.
  induction rest as [| [gap a'] rest IH]; intros q d id t a Hp Ht Hid Hnow Hnext Hgaps.
  - exists q, d, id. cbn. repeat split; assumption.
  - apply Forall_cons in Hgaps as [Hgap Hgaps]. cbn [fst] in Hgap.
    cbn [debounced_calls last_call].
    rewrite (elapse_waiting _ gap q d _ Hp) by (unfold due; cbn; lia).
    unfold debounce. cbn [timeout now]. rewrite Ht.
    replace (no_timeout (Some id)) with false
      by (symmetry; apply Nat.eqb_neq; assumption).
    rewrite andb_false_r.
    pose proof (reschedule (mk (now q + gap) (next_id q) [(id, t + wait, a)])
                  (id, t + wait, a) a' wait eq_refl wait_nonneg) as Hre.
    cbn [handle fst now next_id] in Hre. rewrite Hre.
    edestruct (IH (mk (now q + gap) (Datatypes.S (next_id q))
                      [(next_id q, now q + gap + wait, a')])
                  {| timeout := Some (next_id q); invoked := invoked d |}
                  (next_id q) (t + gap) a')
      as (q' & d' & id' & Hrun & Hp' & Ht' & Hid' & Hnow' & Hnext' & Hinv');
      cbn [pending timeout now next_id]; try reflexivity; try assumption;
      try lia; try discriminate.
    { rewrite Hnow. reflexivity. }
    exists q', d', id'. rewrite Hrun. repeat split; assumption.
Qed.

End Burst.

(** X21. Trailing mode ([immediate] false).  From a state with no pending
    timer, a burst of calls in which every call follows the one before by
    less than [wait] milliseconds, then [wait] milliseconds or more without
    a call, calls [func] exactly once: [wait] milliseconds after the last
    call of the burst, with the arguments of that last call. *)
Theorem debounce_trailing {A} (wait gap0 quiet : Z) (args0 : A) (rest : list (Z * A))
    (q : queue A) (d : Debounced A) :
  0 <= wait ->
  pending q = [] ->
  next_id q <> 0%nat ->
  Forall (fun c => 0 <= c.1 < wait) rest ->
  wait <= quiet ->
  let st := elapse (later false) quiet
              (debounced_calls wait false ((gap0, args0) :: rest) (q, d)) in
  let '(t, args) := last_call (now q + gap0) args0 rest in
  invoked st.2 = invoked d ++ [(t + wait, args)] /\
  timeout st.2 = None /\
  pending st.1 = [].
Proof.
  intros Hwait Hp Hnext Hgaps Hquiet st.
  assert (Hst : exists q',
            st = (q', later false (last_call (now q + gap0) args0 rest).2
                        ((last_call (now q + gap0) args0 rest).1 + wait)
                        {| timeout := None; invoked := invoked d |}) /\
            pending q' = []).
  { subst st. cbn [debounced_calls]. rewrite (elapse_idle _ gap0 q d Hp).
    unfold debounce at 1. cbn [andb].
    pose proof (schedule_idle (mk (now q + gap0) (next_id q) []) (timeout d)
                  args0 wait eq_refl Hwait) as Hsch.
    cbn [now next_id] in Hsch. rewrite Hsch.
    edestruct (burst_keeps_one_timer wait Hwait false rest
                 (mk (now q + gap0) (Datatypes.S (next_id q))
                     [(next_id q, now q + gap0 + wait, args0)])
                 {| timeout := Some (next_id q); invoked := invoked d |}
                 (next_id q) (now q + gap0) args0)
      as (q' & d' & id' & Hrun & Hp' & Ht' & Hid' & Hnow' & Hnext' & Hinv');
      cbn [pending timeout now next_id]; try reflexivity; try assumption;
      try discriminate.
    rewrite Hrun.
    rewrite (elapse_fires _ quiet q' d' _ Hp') by (unfold due; cbn; lia).
    eexists. split;
      [unfold later; cbn [closure due fst snd invoked] in *; rewrite Hinv'; reflexivity
      | reflexivity]. }
  destruct Hst as (q' & -> & Hq').
  destruct (last_call (now q + gap0) args0 rest) as [t args].
  cbn. repeat split. exact Hq'.
Qed.

Lemma debounce_trailing_witness :
  let st := elapse (later false) 300
              (debounced_calls 250 false [(0, "a"); (100, "ab"); (249, "abc")]
                 (empty, {| timeout := None; invoked := [] |})) in
  invoked st.2 = [(599, "abc")] /\ timeout st.2 = None /\ pending st.1 = [].
Proof.
  apply (debounce_trailing 250 0 300 "a" [(100, "ab"); (249, "abc")] empty
           {| timeout := None; invoked := [] |}).
  - lia.
  - reflexivity.
  - discriminate.
  - repeat constructor; cbn; lia.
  - lia.
Defined.

(** X22. Leading mode ([immediate] true).  From a state with no pending
    timer and [timeout] unset, the same burst calls [func] exactly once: at
    the first call, with the arguments of the first call.  After the quiet
    period [timeout] is [null] again, so that the next call is a first call. *)
Theorem debounce_immediate {A} (wait gap0 quiet : Z) (args0 : A) (rest : list (Z * A))
    (q : queue A) (d : Debounced A) :
  0 <= wait ->
  pending q = [] ->
  timeout d = None ->
  next_id q <> 0%nat ->
  Forall (fun c => 0 <= c.1 < wait) rest ->
  wait <= quiet ->
  let st := elapse (later true) quiet
              (debounced_calls wait true ((gap0, args0) :: rest) (q, d)) in
  invoked st.2 = invoked d ++ [(now q + gap0, args0)] /\
  timeout st.2 = None /\
  pending st.1 = [].
Proof.
  intros Hwait Hp Ht Hnext Hgaps Hquiet st.
  assert (Hst : exists q',
            st = (q', {| timeout := None;
                         invoked := invoked d ++ [(now q + gap0, args0)] |}) /\
            pending q' = []).
  { subst st. cbn [debounced_calls]. rewrite (elapse_idle _ gap0 q d Hp).
    unfold debounce at 1. rewrite Ht. cbn [andb no_timeout now].
    pose proof (schedule_idle (mk (now q + gap0) (next_id q) []) None
                  args0 wait eq_refl Hwait) as Hsch.
    cbn [now next_id] in Hsch. rewrite Hsch.
    edestruct (burst_keeps_one_timer wait Hwait true rest
                 (mk (now q + gap0) (Datatypes.S (next_id q))
                     [(next_id q, now q + gap0 + wait, args0)])
                 {| timeout := Some (next_id q);
                    invoked := invoked d ++ [(now q + gap0, args0)] |}
                 (next_id q) (now q + gap0) args0)
      as (q' & d' & id' & Hrun & Hp' & Ht' & Hid' & Hnow' & Hnext' & Hinv');
      cbn [pending timeout now next_id]; try reflexivity; try assumption;
      try discriminate.
    rewrite Hrun.
    rewrite (elapse_fires _ quiet q' d' _ Hp') by (unfold due; cbn; lia).
    eexists. split;
      [unfold later; cbn [invoked] in *; rewrite Hinv'; reflexivity | reflexivity]. }
  destruct Hst as (q' & -> & Hq').
  cbn. repeat split. exact Hq'.
Qed.

Lemma debounce_immediate_witness :
  let st := elapse (later true) 300
              (debounced_calls 250 true [(0, "a"); (100, "ab"); (249, "abc")]
                 (empty, {| timeout := None; invoked := [] |})) in
  invoked st.2 = [(0, "a")] /\ timeout st.2 = None /\ pending st.1 = [].
Proof.
  apply (debounce_immediate 250 0 300 "a" [(100, "ab"); (249, "abc")] empty
           {| timeout := None; invoked := [] |}).
  - lia.
  - reflexivity.
  - reflexivity.
  - discriminate.
  - repeat constructor; cbn; lia.
  - lia.
Defined.

End DebounceSpec.

(* ===================================================================== *)
(** * More properties of charts.js *)
(* ===================================================================== *)

Module ChartsExtra.
Import Js Charts ChartsMore Timers TimersFacts.
Local Open Scope nat_scope.

(** ** The resize listener *)

(** The registry lists each chart that holds a canvas, once. *)
Lemma instances_spec (w : World) :
  NoDup (instances w) /\
  forall h, h ∈ instances w <->
            exists c, heap w !! h = Some c /\ is_Some (Chart.canvas c).
Proof.
  unfold instances. split.
  - apply NoDup_fst_map_to_list.
  - intros h. rewrite list_elem_of_fmap. split.
    + intros ([h' c] & -> & Hin). apply elem_of_map_to_list in Hin.
      apply map_lookup_filter_Some in Hin as [Hc Hlive]. eauto.
    + intros (c & Hc & Hlive). exists (h, c). split; [reflexivity |].
      apply elem_of_map_to_list, map_lookup_filter_Some. split; assumption.
Qed.

(** Resizing charts that hold their canvas draws each of them and throws
    nothing. *)
Lemma resize_each (l : list nat) :
  forall (i : nat) (w : World),
    Forall (fun h => exists c, heap w !! h = Some c /\ is_Some (Chart.canvas c)) l ->
    forEach_from i (fun (instance : nat) (_ : nat) => Chart_resize instance) l w
    = Returned tt {| heap := heap w; renders := renders w ++ l |}.
Proof.
  induction l as [| h l IH]; intros i w Hlive.
  - cbn. rewrite app_nil_r. destruct w; reflexivity.
  - apply Forall_cons in Hlive as [(c & Hc & [cv Hcv]) Hlive].
    cbn [forEach_from]. unfold mbind, exec_bind, Chart_resize, draw.
    rewrite Hc, Hcv. fold draw. fold Chart_resize.
    rewrite IH by exact Hlive. unfold log_render. cbn [heap renders].
    rewrite <- app_assoc. reflexivity.
Qed.

Lemma resize_instances_spec (w : World) :
  resize_instances w
  = Returned tt {| heap := heap w; renders := renders w ++ instances w |}.
Proof.
  unfold resize_instances, forEach. exec_step. unfold get_state.
  apply resize_each. apply Forall_forall. intros h Hh.
  apply (proj2 (instances_spec w)). exact Hh.
Qed.

(** During a burst of resize events the one pending timer is the one of the
    latest event; no chart is resized. *)
Lemma resize_burst (gaps : list Z) :
  forall (q : queue unit) (s : Responsive) (id : nat) (due_time : Z),
    pending q = [(id, due_time, tt)] ->
    resizeTimeout s = Some id ->
    due_time = (now q + 300)%Z ->
    Forall (fun g => (0 <= g < 300)%Z) gaps ->
    exists q' s' id',
      resize_events gaps (q, s) = (q', s') /\
      pending q' = [(id', (now q' + 300)%Z, tt)] /\
      resizeTimeout s' = Some id' /\
      world s' = world s.
Proof.
  induction gaps as [| gap gaps IH]; intros q s id due_time Hp Ht Hdue Hgaps.
  - exists q, s, id. subst due_time. repeat split; assumption.
  - apply Forall_cons in Hgaps as [Hgap Hgaps]. cbn [resize_events].
    rewrite (elapse_waiting _ gap q s _ Hp) by (unfold due; cbn; lia).
    unfold on_resize. rewrite Ht.
    pose proof (reschedule (mk (now q + gap)%Z (next_id q) [(id, due_time, tt)])
                  (id, due_time, tt) tt 300%Z eq_refl ltac:(lia)) as Hre.
    cbn [handle fst now next_id] in Hre. rewrite Hre.
    edestruct (IH (mk (now q + gap)%Z (Datatypes.S (next_id q))
                      [(next_id q, (now q + gap + 300)%Z, tt)])
                  {| resizeTimeout := Some (next_id q); world := world s |}
                  (next_id q) (now q + gap + 300)%Z)
      as (q' & s' & id' & Hrun & Hp' & Ht' & Hw');
      cbn [pending resizeTimeout now]; try reflexivity; try assumption.
    exists q', s', id'. rewrite Hrun. repeat split; assumption.
Qed.

(** X7. From a state with no pending timer, resize events that follow one
    another by less than 300 ms, then 300 ms or more without one, cause one
    resize pass: every chart that holds a canvas is resized exactly once (in
    the order of the registry), no other chart is, and no chart object
    changes. *)
Theorem resize_burst_one_pass (gap0 quiet : Z) (gaps : list Z)
    (q : queue unit) (s : Responsive) :
  pending q = [] ->
  Forall (fun g => (0 <= g < 300)%Z) gaps ->
  (300 <= quiet)%Z ->
  let st := elapse resize_pass quiet (resize_events (gap0 :: gaps) (q, s)) in
  heap (world st.2) = heap (world s) /\
  renders (world st.2) = renders (world s) ++ instances (world s) /\
  NoDup (instances (world s)) /\
  (forall h, h ∈ instances (world s) <->
             exists c, heap (world s) !! h = Some c /\ is_Some (Chart.canvas c)) /\
  pending st.1 = [].
Proof.
  intros Hp Hgaps Hquiet st.
  assert (Hst : exists q' t,
            st = (q', {| resizeTimeout := t;
                         world := {| heap := heap (world s);
                                     renders := renders (world s)
                                                ++ instances (world s) |} |}) /\
            pending q' = []).
  { subst st. cbn [resize_events]. rewrite (elapse_idle _ gap0 q s Hp).
    unfold on_resize at 1.
    pose proof (schedule_idle (mk (now q + gap0)%Z (next_id q) []) (resizeTimeout s)
                  tt 300%Z eq_refl ltac:(lia)) as Hsch.
    cbn [now next_id] in Hsch. rewrite Hsch.
    edestruct (resize_burst gaps
                 (mk (now q + gap0)%Z (Datatypes.S (next_id q))
                     [(next_id q, (now q + gap0 + 300)%Z, tt)])
                 {| resizeTimeout := Some (next_id q); world := world s |}
                 (next_id q) (now q + gap0 + 300)%Z)
      as (q' & s' & id' & Hrun & Hp' & Ht' & Hw');
      cbn [pending resizeTimeout now]; try reflexivity; try assumption.
    rewrite Hrun.
    rewrite (elapse_fires _ quiet q' s' _ Hp') by (unfold due; cbn; lia).
    eexists _, _. split;
      [unfold resize_pass; rewrite resize_instances_spec, Hw'; reflexivity
      | reflexivity]. }
  destruct Hst as (q' & t & -> & Hq').
  destruct (instances_spec (world s)) as [Hnd Hin].
  cbn. repeat split; try assumption; apply Hin.
Qed.

Lemma resize_burst_one_pass_witness :
  let st := elapse resize_pass 300
              (resize_events [0%Z; 120%Z; 299%Z]
                 (empty, {| resizeTimeout := None; world := two_series_world |})) in
  renders (world st.2) = renders two_series_world ++ instances two_series_world /\
  instances two_series_world = [0].
Proof.
  split; [| vm_compute; reflexivity].
  apply (resize_burst_one_pass 0 300 [120%Z; 299%Z] empty
           {| resizeTimeout := None; world := two_series_world |}).
  - reflexivity.
  - repeat constructor; lia.
  - lia.
Defined.

(** ** hexToRgba *)




(** ** The pie chart *)

(** X2. The slices of a pie are drawn with the caller's colours gone
    through in a cycle when colours are passed, and otherwise, at every
    position below [labels.length], with [palette[i mod palette.length]]:
    cutting the palette to [labels.length] entries does not change the
    colour of a slice. *)
Theorem pie_chart_colors (ctx : nat) (labels : list string) (values : list number)
    (colors : option (list string)) (i : nat) (w : World) :
  i < length labels ->
  exists c d,
    created (createPieChart ctx labels values colors w) = Some c /\
    Chart.type c = "pie" /\
    ChartData.labels (Chart.data c) = labels /\
    ChartData.datasets (Chart.data c) = [d] /\
    Dataset.data d = values /\
    Dataset.color_at i d =
      match colors with
      | Some cs => cs !! (i mod length cs)
      | None => VintageColors.palette !! (i mod length VintageColors.palette)
      end /\
    (colors = None -> is_Some (Dataset.color_at i d)).
Proof.
  intros Hi. unfold createPieChart. rewrite ChartsSpec.created_new_Chart.
  eexists _, _. do 4 (split; [reflexivity |]). split; [reflexivity |].
  unfold Dataset.color_at. cbn [Dataset.backgroundColor].
  destruct colors as [cs |]; [split; [reflexivity | discriminate] |].
  rewrite ChartsSpec.slice_0, ChartsSpec.cut_palette_cycles by assumption.
  split; [reflexivity |]. intros _. apply lookup_lt_is_Some_2.
  apply Nat.mod_upper_bound. discriminate.
Qed.

Lemma pie_chart_colors_witness :
  exists c d,
    created (createPieChart 0
               ["a"; "b"; "c"; "d"; "e"; "f"; "g"; "h"; "i"; "j"; "k"; "l"]
               [] None empty_world) = Some c /\
    ChartData.datasets (Chart.data c) = [d] /\
    Dataset.color_at 11 d = Some "#8DAF98".
Proof.
  destruct (pie_chart_colors 0
              ["a"; "b"; "c"; "d"; "e"; "f"; "g"; "h"; "i"; "j"; "k"; "l"]
              [] None 11 empty_world)
    as (c & d & Hc & _ & _ & Hd & _ & Hat & _).
  - repeat constructor.
  - exists c, d. split; [exact Hc |]. split; [exact Hd |]. exact Hat.
Defined.

(** ** Handles that are absent or destroyed *)

(** X4. [updateChartData] does not test the handle it is given.  On a chart
    that was destroyed it makes its writes, the labels and the values of
    every dataset, and then throws a TypeError from the drawing pass, which
    is not recorded; [animateChart] and [resizeChart] throw there too, the
    test of [resizeChart] being one of the handle and not of the canvas, and
    only [destroyChart] returns. *)
Theorem destroyed_chart_throws (h : nat) (c : Chart.t) (newLabels : list string)
    (newData : list (list number)) (w : World) :
  heap w !! h = Some c ->
  Chart.canvas c = None ->
  (exists e w' c',
     updateChartData (ref h) newLabels newData w = Thrown (TypeError e) w' /\
     heap w' !! h = Some c' /\
     ChartData.labels (Chart.data c') = newLabels /\
     ChartData.datasets (Chart.data c') =
       imap (fun index dataset =>
               Dataset.set_data (default [] (newData !! index)) dataset)
            (ChartData.datasets (Chart.data c)) /\
     renders w' = renders w) /\
  (exists e, animateChart (ref h) w = Thrown (TypeError e) w) /\
  (exists e, resizeChart (ref h) w = Thrown (TypeError e) w) /\
  destroyChart (ref h) w = Returned tt w.
Proof.
  intros Hc Hcv. split; [| split; [| split]].
  - destruct (ChartsSpec.updateChartData_spec h c newLabels newData w Hc)
      as (c' & Hrun & _ & _ & _ & Hlb & Hds).
    rewrite Hcv in Hrun. eexists _, _, c'. split; [exact Hrun |].
    split; [apply ChartsSpec.set_chart_lookup |]. repeat split; assumption.
  - unfold animateChart, chart_of. exec_step. rewrite Hc.
    unfold Chart_update, draw. rewrite Hc, Hcv. eexists. reflexivity.
  - unfold resizeChart. exec_step. unfold get_state, is_chart. rewrite Hc.
    unfold Chart_resize, draw. rewrite Hc, Hcv. eexists. reflexivity.
  - unfold destroyChart. exec_step. unfold get_state, is_chart. rewrite Hc.
    unfold Chart_destroy, modify. rewrite Hc, Hcv. reflexivity.
Qed.

Lemma destroyed_chart_throws_witness :
  exists w1 e w',
    destroyChart (ref 0) two_series_world = Returned tt w1 /\
    updateChartData (ref 0) ["Mar"] [[of_Z 1]] w1 = Thrown (TypeError e) w' /\
    renders w' = renders two_series_world.
Proof.
  destruct (destroyed_chart_throws 0 (Chart.release two_series_chart) ["Mar"]
              [[of_Z 1]] (set_chart 0 (Chart.release two_series_chart) two_series_world)
              eq_refl eq_refl)
    as [(e & w' & c' & Hrun & _ & _ & _ & Hr) _].
  eexists _, e, w'. split; [reflexivity |]. split; [exact Hrun | exact Hr].
Defined.

(** ** Updates compose *)

Lemma chart_ext (c c' : Chart.t) :
  Chart.canvas c = Chart.canvas c' ->
  Chart.type c = Chart.type c' ->
  Chart.options c = Chart.options c' ->
  ChartData.labels (Chart.data c) = ChartData.labels (Chart.data c') ->
  ChartData.datasets (Chart.data c) = ChartData.datasets (Chart.data c') ->
  c = c'.
Proof.
  destruct c as [cv ty [lb ds] op], c' as [cv' ty' [lb' ds'] op']. simpl.
  intros -> -> -> -> ->. reflexivity.
Qed.

Lemma set_data_set_data (v v' : list number) (d : Dataset.t) :
  Dataset.set_data v' (Dataset.set_data v d) = Dataset.set_data v' d.
Proof. reflexivity. Qed.

(** X5. Of two updates in a row of a chart that holds its canvas only the
    second one shows: the chart is the one the second update alone would
    have left, and two drawing passes were made instead of one. *)
Theorem updateChartData_last_wins (h : nat) (c : Chart.t)
    (labels1 labels2 : list string) (data1 data2 : list (list number)) (w : World) :
  heap w !! h = Some c ->
  is_Some (Chart.canvas c) ->
  exists w1 w2 w2',
    updateChartData (ref h) labels1 data1 w = Returned tt w1 /\
    updateChartData (ref h) labels2 data2 w1 = Returned tt w2 /\
    updateChartData (ref h) labels2 data2 w = Returned tt w2' /\
    heap w2 = heap w2' /\
    renders w2 = renders w ++ [h; h] /\
    renders w2' = renders w ++ [h].
Proof.
  intros Hc Hlive.
  destruct (ChartsSpec.updateChartData_live h c labels1 data1 w Hc Hlive)
    as (c1 & Hrun1 & Hcv1 & Hty1 & Hop1 & Hlb1 & Hds1).
  destruct (ChartsSpec.updateChartData_live h c labels2 data2 w Hc Hlive)
    as (c2' & Hrun2' & Hcv2' & Hty2' & Hop2' & Hlb2' & Hds2').
  assert (Hlive1 : is_Some (Chart.canvas c1)) by (rewrite Hcv1; exact Hlive).
  destruct (ChartsSpec.updateChartData_live h c1 labels2 data2
              (log_render h (set_chart h c1 w)) (ChartsSpec.set_chart_lookup h c1 w)
              Hlive1)
    as (c2 & Hrun2 & Hcv2 & Hty2 & Hop2 & Hlb2 & Hds2).
  assert (Heq : c2 = c2').
  { apply chart_ext; try congruence.
    rewrite Hds2, Hds2', Hds1. apply list_eq. intros j.
    rewrite !list_lookup_imap. destruct (ChartData.datasets (Chart.data c) !! j);
      reflexivity. }
  subst c2'. eexists _, _, _.
  split; [exact Hrun1 |]. split; [exact Hrun2 |]. split; [exact Hrun2' |].
  cbn [heap renders log_render set_chart]. rewrite insert_insert_eq, <- app_assoc.
  repeat split.
Qed.

Lemma updateChartData_last_wins_witness :
  heap two_series_world !! 0 = Some two_series_chart /\
  is_Some (Chart.canvas two_series_chart) /\
  exists w1 w2 w2',
    updateChartData (ref 0) ["Mar"] [[of_Z 1]] two_series_world = Returned tt w1 /\
    updateChartData (ref 0) ["Apr"] [[of_Z 2]; [of_Z 3]] w1 = Returned tt w2 /\
    updateChartData (ref 0) ["Apr"] [[of_Z 2]; [of_Z 3]] two_series_world
      = Returned tt w2' /\
    heap w2 = heap w2'.
Proof.
  split; [reflexivity |]. split; [eexists; reflexivity |].
  destruct (updateChartData_last_wins 0 two_series_chart ["Mar"] ["Apr"]
              [[of_Z 1]] [[of_Z 2]; [of_Z 3]] two_series_world eq_refl
              (ex_intro _ 0 eq_refl))
    as (w1 & w2 & w2' & H1 & H2 & H3 & H4 & _).
  exists w1, w2, w2'. repeat split; assumption.
Defined.

(** X6. Value arrays beyond the number of datasets are ignored: on a chart
    that holds its canvas the update is the one made with [newData] cut to
    that number, and the chart keeps its number of datasets. *)
Theorem updateChartData_ignores_surplus (h : nat) (c : Chart.t)
    (newLabels : list string) (newData : list (list number)) (w : World) :
  heap w !! h = Some c ->
  is_Some (Chart.canvas c) ->
  updateChartData (ref h) newLabels newData w
  = updateChartData (ref h) newLabels
      (take (length (ChartData.datasets (Chart.data c))) newData) w /\
  exists w' c',
    updateChartData (ref h) newLabels newData w = Returned tt w' /\
    heap w' !! h = Some c' /\
    length (ChartData.datasets (Chart.data c'))
    = length (ChartData.datasets (Chart.data c)).
Proof.
  intros Hc Hlive.
  destruct (ChartsSpec.updateChartData_live h c newLabels newData w Hc Hlive)
    as (c1 & Hrun1 & Hcv1 & Hty1 & Hop1 & Hlb1 & Hds1).
  destruct (ChartsSpec.updateChartData_live h c newLabels
              (take (length (ChartData.datasets (Chart.data c))) newData) w Hc Hlive)
    as (c2 & Hrun2 & Hcv2 & Hty2 & Hop2 & Hlb2 & Hds2).
  assert (Heq : c1 = c2).
  { apply chart_ext; try congruence.
    rewrite Hds1, Hds2. apply imap_ext. intros i d Hd.
    apply lookup_lt_Some in Hd. cbn beta.
    rewrite lookup_take_lt by assumption. reflexivity. }
  subst c2. split; [rewrite Hrun1, Hrun2; reflexivity |].
  eexists _, c1. split; [exact Hrun1 |]. split; [apply lookup_insert_eq |].
  rewrite Hds1. apply length_imap.
Qed.

Lemma updateChartData_ignores_surplus_witness :
  heap two_series_world !! 0 = Some two_series_chart /\
  is_Some (Chart.canvas two_series_chart) /\
  updateChartData (ref 0) ["Mar"] [[of_Z 1]; [of_Z 2]; [of_Z 3]; [of_Z 4]]
    two_series_world
  = updateChartData (ref 0) ["Mar"] [[of_Z 1]; [of_Z 2]] two_series_world.
Proof.
  split; [reflexivity |]. split; [eexists; reflexivity |].
  exact (proj1 (updateChartData_ignores_surplus 0 two_series_chart ["Mar"]
                  [[of_Z 1]; [of_Z 2]; [of_Z 3]; [of_Z 4]] two_series_world eq_refl
                  (ex_intro _ 0 eq_refl))).
Defined.

(** ** The tooltip on a zero sum *)

(** X3. The pie and the doughnut print no percentage when the values of the
    chart sum to zero, whatever the slice: the text between the parentheses
    of the tooltip is NaN or an infinity, for the charts as
    [createPieChart] and [createCategoryDoughnutChart] build them. *)
Theorem arc_tooltip_zero_sum (ctx : nat) (labels : list string)
    (values : list number) (colors : option (list string)) (type : option string)
    (w : World) (s : bool) (name : string) (parsed : number) :
  foldl add (of_Z 0) values = S754_zero s ->
  (exists c d f amount pct,
     created (createPieChart ctx labels values colors w) = Some c /\
     ChartData.datasets (Chart.data c) = [d] /\
     tooltip_label_callback c = Some (ArcLabel f) /\
     f {| a_label := name; a_parsed := parsed; a_dataset := d |}
       = (if string_truthy name then name else "") +:+ ": $" +:+ amount
           +:+ " (" +:+ pct +:+ "%)" /\
     (pct = "NaN" \/ pct = "Infinity" \/ pct = "-Infinity")) /\
  (exists c d f amount pct,
     created (createCategoryDoughnutChart ctx labels values type w) = Some c /\
     ChartData.datasets (Chart.data c) = [d] /\
     tooltip_label_callback c = Some (ArcLabel f) /\
     f {| a_label := name; a_parsed := parsed; a_dataset := d |}
       = (if string_truthy name then name else "") +:+ ": $" +:+ amount
           +:+ " (" +:+ pct +:+ "%)" /\
     (pct = "NaN" \/ pct = "Infinity" \/ pct = "-Infinity")).
Proof.
  intros Hsum. split.
  - unfold createPieChart. rewrite ChartsSpec.created_new_Chart.
    match goal with
    | |- context [Dataset.mk ?a values ?b ?c ?d ?e ?f ?g ?h ?i ?j ?k ?l ?m ?n ?o] =>
        destruct (ChartsSpec.arcTooltipLabel_zero_total name parsed
                    (Dataset.mk a values b c d e f g h i j k l m n o) s Hsum)
          as (amount & pct & Hlabel & Hpct)
    end.
    eexists _, _, _, amount, pct.
    split; [reflexivity |]. split; [reflexivity |]. split; [reflexivity |].
    split; [exact Hlabel | exact Hpct].
  - unfold createCategoryDoughnutChart. rewrite ChartsSpec.created_new_Chart.
    match goal with
    | |- context [Dataset.mk ?a values ?b ?c ?d ?e ?f ?g ?h ?i ?j ?k ?l ?m ?n ?o] =>
        destruct (ChartsSpec.arcTooltipLabel_zero_total name parsed
                    (Dataset.mk a values b c d e f g h i j k l m n o) s Hsum)
          as (amount & pct & Hlabel & Hpct)
    end.
    eexists _, _, _, amount, pct.
    split; [reflexivity |]. split; [reflexivity |]. split; [reflexivity |].
    split; [exact Hlabel | exact Hpct].
Qed.

Lemma arc_tooltip_zero_sum_witness :
  foldl add (of_Z 0) [of_Z 5; of_Z (-5)] = S754_zero false /\
  exists c d f amount pct,
    created (createPieChart 0 ["Refund"; "Fee"] [of_Z 5; of_Z (-5)] None empty_world)
      = Some c /\
    ChartData.datasets (Chart.data c) = [d] /\
    tooltip_label_callback c = Some (ArcLabel f) /\
    f {| a_label := "Refund"; a_parsed := of_Z 5; a_dataset := d |}
      = "Refund: $" +:+ amount +:+ " (" +:+ pct +:+ "%)".
Proof.
  split; [reflexivity |].
  destruct (arc_tooltip_zero_sum 0 ["Refund"; "Fee"] [of_Z 5; of_Z (-5)] None None
              empty_world false "Refund" (of_Z 5) eq_refl)
    as [(c & d & f & amount & pct & Hc & Hd & Hf & Hlabel & _) _].
  exists c, d, f, amount, pct. repeat split; assumption.
Defined.

End ChartsExtra.

(* ===================================================================== *)
(** * More properties of main.js *)
(* ===================================================================== *)

Module MainExtra.
Import Js Main MainMore.
Local Open Scope nat_scope.

(** ** Writes to elements *)

Lemma elements_update (u : nat) (f : Element.t -> Element.t) (n : Node) :
  elements (update_node u f n) = List.map (written u f) (elements n).
Proof.
  induction n as [e cs IH] using MainSpec.Node_forall_ind.
  cbn [update_node elements List.map]. f_equal.
  induction IH as [| c cs Hc _ IHcs]; [reflexivity |].
  cbn [List.map List.flat_map]. rewrite List.map_app, Hc, IHcs. reflexivity.
Qed.

Lemma all_elements_update (u : nat) (f : Element.t -> Element.t) (forest : list Node) :
  all_elements (List.map (update_node u f) forest)
  = List.map (written u f) (all_elements forest).
Proof.
  unfold all_elements. induction forest as [| n forest IH]; [reflexivity |].
  cbn [List.map List.flat_map]. rewrite List.map_app, elements_update, IH.
  reflexivity.
Qed.

Lemma written_uid (u : nat) (f : Element.t -> Element.t) (e : Element.t) :
  (forall x, Element.uid (f x) = Element.uid x) ->
  Element.uid (written u f e) = Element.uid e.
Proof. intros Hf. unfold written. destruct (Nat.eqb _ _); [apply Hf | reflexivity]. Qed.

Lemma filter_map_commute {A} (p : A -> bool) (g : A -> A) (l : list A) :
  (forall x, p (g x) = p x) ->
  List.filter p (List.map g l) = List.map g (List.filter p l).
Proof.
  intros Hg. induction l as [| x l IH]; [reflexivity |].
  cbn [List.map List.filter]. rewrite Hg. destruct (p x); cbn [List.map];
    rewrite IH; reflexivity.
Qed.

Lemma has_class_add_other (c c' : string) (e : Element.t) :
  c' <> c ->
  Element.has_class c' (Element.classList_add c e) = Element.has_class c' e.
Proof.
  intros Hne. unfold Element.classList_add.
  destruct (Element.has_class c e); [reflexivity |].
  unfold Element.has_class. cbn [Element.classList Element.set_classList].
  rewrite existsb_app. cbn [existsb].
  replace (String.eqb c' c) with false by (symmetry; apply String.eqb_neq; assumption).
  rewrite !orb_false_r. reflexivity.
Qed.

Lemma has_class_remove_other (c c' : string) (e : Element.t) :
  c' <> c ->
  Element.has_class c' (Element.classList_remove c e) = Element.has_class c' e.
Proof.
  intros Hne. unfold Element.has_class, Element.classList_remove.
  cbn [Element.classList Element.set_classList].
  induction (Element.classList e) as [| x l IH]; [reflexivity |].
  cbn [List.filter existsb].
  destruct (String.eqb c x) eqn:Hx; cbn [negb existsb].
  - apply String.eqb_eq in Hx. subst x.
    replace (String.eqb c' c) with false
      by (symmetry; apply String.eqb_neq; assumption).
    exact IH.
  - rewrite IH. reflexivity.
Qed.

Lemma same_but_invalid_refl (e : Element.t) : same_but_invalid e e.
Proof. repeat split. Qed.

Lemma same_but_invalid_trans (e1 e2 e3 : Element.t) :
  same_but_invalid e1 e2 -> same_but_invalid e2 e3 -> same_but_invalid e1 e3.
Proof.
  intros (Hu & Hd & Hi & Hv & Ha & Hc) (Hu' & Hd' & Hi' & Hv' & Ha' & Hc').
  repeat split; try congruence. intros c Hne. rewrite Hc', Hc by assumption.
  reflexivity.
Qed.

Lemma same_but_invalid_add (e : Element.t) :
  same_but_invalid e (Element.classList_add "is-invalid" e).
Proof.
  repeat split; try (unfold Element.classList_add;
                     destruct (Element.has_class _ e); reflexivity).
  intros c Hne. apply has_class_add_other. assumption.
Qed.

Lemma same_but_invalid_remove (e : Element.t) :
  same_but_invalid e (Element.classList_remove "is-invalid" e).
Proof.
  repeat split. intros c Hne. apply has_class_remove_other. assumption.
Qed.

Lemma same_but_invalid_written (u : nat) (f : Element.t -> Element.t) (e : Element.t) :
  (forall x, same_but_invalid x (f x)) -> same_but_invalid e (written u f e).
Proof.
  intros Hf. unfold written. destruct (Nat.eqb _ _); [apply Hf |].
  apply same_but_invalid_refl.
Qed.

(** ** Form submission *)

Lemma is_invalid_written_remove (u : nat) (e : Element.t) :
  is_invalid e = false \/ Element.uid e = u ->
  is_invalid (written u (Element.classList_remove "is-invalid") e) = false.
Proof.
  unfold written, is_invalid. intros [He | <-].
  - destruct (Nat.eqb _ _); [apply MainSpec.has_class_remove | exact He].
  - rewrite Nat.eqb_refl. apply MainSpec.has_class_remove.
Qed.

(** The validation loop, with what it does to the elements. *)
Lemma validate_required_page (fields : list Element.t) :
  forall (isValid : bool) (p : Page),
    Forall (fun f => is_Some (Element.value f)) fields ->
    exists p' g,
      validate_required fields isValid p
        = Returned (isValid && forallb filled fields) p' /\
      all_elements (body p') = List.map g (all_elements (body p)) /\
      (forall e, same_but_invalid e (g e)) /\
      (forallb filled fields = true ->
       forall e, is_invalid e = false \/ In (Element.uid e) (List.map Element.uid fields) ->
                 is_invalid (g e) = false) /\
      globals p' = globals p /\
      defaultPrevented p' = defaultPrevented p /\
      timers p' = timers p /\
      next_uid p' = next_uid p.
Proof.
  induction fields as [| f fields IH]; intros isValid p Hval.
  - exists p, (fun e => e). cbn [validate_required forallb]. rewrite andb_true_r, List.map_id.
    repeat split. intros _ e [He | []]. exact He.
  - apply Forall_cons in Hval as [[v Hv] Hval].
    assert (Hf : filled f = string_truthy (trim v))
      by (unfold filled; rewrite Hv; reflexivity).
    cbn [validate_required forallb List.map]. unfold trimmed_value. rewrite Hv, Hf.
    exec_step. unfold mret, exec_ret.
    destruct (string_truthy (trim v)); cbn [negb andb].
    + unfold mbind, exec_bind, update_element, modify.
      edestruct (IH isValid) as (p' & g & Hrun & Hel & Hsame & Hinv & Hg & Hd & Ht & Hn);
        [exact Hval |].
      exists p', (fun e => g (written (Element.uid f)
                              (Element.classList_remove "is-invalid") e)).
      rewrite Hrun. split; [reflexivity |].
      split.
      { rewrite Hel. cbn [body set_body]. rewrite all_elements_update, List.map_map.
        reflexivity. }
      split.
      { intros e. eapply same_but_invalid_trans; [| apply Hsame].
        apply same_but_invalid_written, same_but_invalid_remove. }
      split; [| repeat split; assumption].
      intros Hall e He. apply Hinv; [exact Hall |].
      destruct (Nat.eq_dec (Element.uid e) (Element.uid f)) as [Heq | Hne].
      * left. apply is_invalid_written_remove. right. exact Heq.
      * destruct He as [He | [Heq | Hin]].
        -- left. apply is_invalid_written_remove. left. exact He.
        -- congruence.
        -- right. unfold written.
           destruct (Nat.eqb _ _); [| exact Hin]. exact Hin.
    + unfold mbind, exec_bind, update_element, modify.
      edestruct (IH false) as (p' & g & Hrun & Hel & Hsame & Hinv & Hg & Hd & Ht & Hn);
        [exact Hval |].
      exists p', (fun e => g (written (Element.uid f)
                              (Element.classList_add "is-invalid") e)).
      rewrite Hrun, andb_false_r. split; [reflexivity |].
      split.
      { rewrite Hel. cbn [body set_body]. rewrite all_elements_update, List.map_map.
        reflexivity. }
      split.
      { intros e. eapply same_but_invalid_trans; [| apply Hsame].
        apply same_but_invalid_written, same_but_invalid_add. }
      split; [intros Hall; discriminate | repeat split; assumption].
Qed.

(** What the handler does up to the end of the validation loop, on a form
    whose required fields all have a value. *)
Lemma handleFormSubmit_until_validated (target : nat) (p : Page) (form : Node) :
  find_in_forest target (body p) = Some form ->
  Forall (fun f => is_Some (Element.value f))
         (querySelectorAll_in Element.required form) ->
  exists p1 G,
    (form ← event_target target;
     match querySelector_in is_submit_button form with
     | Some button =>
         update_element (Element.uid button) (Element.set_disabled true);;
         update_element (Element.uid button) (Element.set_innerHTML processing_markup);;
         setTimeout (RestoreButton (Element.uid button) (Element.innerHTML button)) 3000
     | None => mret tt
     end;;
     validate_required (querySelectorAll_in Element.required form) true) p
    = Returned (forallb filled (querySelectorAll_in Element.required form)) p1 /\
    all_elements (body p1) = List.map G (all_elements (body p)) /\
    (forall e, Element.uid (G e) = Element.uid e /\ is_toast (G e) = is_toast e) /\
    (forall e button,
       querySelector_in is_submit_button form = Some button ->
       Element.uid e = Element.uid button ->
       Element.disabled (G e) = true /\
       Element.innerHTML (G e) = processing_markup) /\
    (forallb filled (querySelectorAll_in Element.required form) = true ->
     forall e, In (Element.uid e)
                  (List.map Element.uid (querySelectorAll_in Element.required form)) ->
               is_invalid (G e) = false) /\
    timers p1 = timers p ++
      match querySelector_in is_submit_button form with
      | Some button =>
          [(3000%Z, RestoreButton (Element.uid button) (Element.innerHTML button))]
      | None => []
      end /\
    globals p1 = globals p /\
    defaultPrevented p1 = defaultPrevented p /\
    next_uid p1 = next_uid p.
Proof.
  intros Hform Hval. unfold event_target. exec_step. rewrite Hform.
  destruct (querySelector_in is_submit_button form) as [button |].
  - do 2 exec_step. unfold update_element at 1. unfold modify at 1.
    exec_step. unfold update_element at 1. unfold modify at 1.
    unfold setTimeout at 1. unfold modify at 1.
    match goal with
    | |- context [validate_required ?fs true ?q] =>
        destruct (validate_required_page fs true q Hval)
          as (p1 & g & Hrun & Hel & Hsame & Hinv & Hg & Hd & Ht & Hn)
    end.
    exists p1, (fun e => g (written (Element.uid button)
                              (Element.set_innerHTML processing_markup)
                              (written (Element.uid button)
                                 (Element.set_disabled true) e))).
    rewrite Hrun. split; [reflexivity |].
    cbn [body set_body timers globals defaultPrevented next_uid] in *.
    split.
    { rewrite Hel, !all_elements_update, !List.map_map. reflexivity. }
    split.
    { intros e. destruct (Hsame (written (Element.uid button)
                              (Element.set_innerHTML processing_markup)
                              (written (Element.uid button)
                                 (Element.set_disabled true) e)))
        as (Hu & _ & _ & _ & _ & Hc).
      unfold is_toast. rewrite Hu, Hc by discriminate.
      unfold written. destruct (Nat.eqb (Element.uid e) (Element.uid button)) eqn:He;
        cbn [Element.uid Element.set_disabled]; rewrite ?He; split; reflexivity. }
    split.
    { intros e b [= <-] He.
      destruct (Hsame (written (Element.uid button)
                         (Element.set_innerHTML processing_markup)
                         (written (Element.uid button)
                            (Element.set_disabled true) e)))
        as (_ & Hdis & Hin & _).
      cbv beta. rewrite Hdis, Hin. unfold written.
      apply Nat.eqb_eq in He. rewrite He.
      cbn [Element.uid Element.set_disabled]. rewrite He.
      split; reflexivity. }
    split.
    { intros Hall e He. cbv beta. apply Hinv; [exact Hall |]. right.
      unfold written. destruct (Nat.eqb (Element.uid e) (Element.uid button)) eqn:Hb;
        cbn [Element.uid Element.set_disabled]; rewrite ?Hb; exact He. }
    rewrite Ht, Hg, Hd, Hn. repeat split.
  - exec_step. unfold mret at 1. unfold exec_ret at 1.
    destruct (validate_required_page _ true p Hval)
      as (p1 & g & Hrun & Hel & Hsame & Hinv & Hg & Hd & Ht & Hn).
    exists p1, g. rewrite Hrun. split; [reflexivity |].
    split; [exact Hel |].
    split.
    { intros e. destruct (Hsame e) as (Hu & _ & _ & _ & _ & Hc).
      split; [exact Hu |]. unfold is_toast. apply Hc. discriminate. }
    split; [intros e b [=] |].
    split; [intros Hall e He; apply Hinv; [exact Hall | right; exact He] |].
    rewrite Ht, app_nil_r. repeat split; assumption.
Qed.

(** The handler is the part above followed by the branch on [isValid]. *)
Lemma handleFormSubmit_split (target : nat) (p : Page) (form : Node) :
  find_in_forest target (body p) = Some form ->
  handleFormSubmit target p =
  match (form ← event_target target;
         match querySelector_in is_submit_button form with
         | Some button =>
             update_element (Element.uid button) (Element.set_disabled true);;
             update_element (Element.uid button)
               (Element.set_innerHTML processing_markup);;
             setTimeout (RestoreButton (Element.uid button) (Element.innerHTML button))
               3000
         | None => mret tt
         end;;
         validate_required (querySelectorAll_in Element.required form) true) p with
  | Returned isValid p1 =>
      if negb isValid then
        (preventDefault;;
         match querySelector_in is_submit_button form with
         | Some button =>
             update_element (Element.uid button) (Element.set_disabled false);;
             originalText ← resolve_global "originalText";
             update_element (Element.uid button) (Element.set_innerHTML originalText)
         | None => mret tt
         end;;
         showNotification "Please fill in all required fields." (Some "error")) p1
      else Returned tt p1
  | Thrown e p1 => Thrown e p1
  end.
Proof.
  intros Hform. unfold handleFormSubmit, event_target.
  exec_step. rewrite Hform. symmetry. exec_step. rewrite Hform. symmetry.
  unfold mbind, exec_bind.
  destruct (querySelector_in is_submit_button form) as [button |].
  - destruct (update_element (Element.uid button) (Element.set_disabled true) p)
      as [[] p1 | e p1]; [| reflexivity].
    destruct (update_element (Element.uid button)
                (Element.set_innerHTML processing_markup) p1)
      as [[] p2 | e p2]; [| reflexivity].
    destruct (setTimeout _ 3000 p2) as [[] p3 | e p3]; [| reflexivity].
    destruct (validate_required _ true p3) as [[] p4 | e p4]; reflexivity.
  - unfold mret, exec_ret.
    destruct (validate_required _ true p) as [[] p4 | e p4]; reflexivity.
Qed.

(** X8. When every required field of the form has a non-blank value the
    handler returns and does not cancel the submission: no required field
    carries [is-invalid] afterwards, no toast is added, and a submit button,
    when there is one, is disabled and shows the busy label, with the
    fallback timer pending. *)
Theorem handleFormSubmit_valid_proceeds (target : nat) (p : Page) (form : Node) :
  find_in_forest target (body p) = Some form ->
  Forall (fun f => is_Some (Element.value f))
         (querySelectorAll_in Element.required form) ->
  forallb filled (querySelectorAll_in Element.required form) = true ->
  exists p',
    handleFormSubmit target p = Returned tt p' /\
    defaultPrevented p' = defaultPrevented p /\
    length (querySelectorAll is_toast p') = length (querySelectorAll is_toast p) /\
    (forall field e,
       In field (querySelectorAll_in Element.required form) ->
       In e (elements_with_uid (Element.uid field) p') ->
       is_invalid e = false) /\
    (forall button e,
       querySelector_in is_submit_button form = Some button ->
       In e (elements_with_uid (Element.uid button) p') ->
       Element.disabled e = true /\ Element.innerHTML e = processing_markup) /\
    timers p' = timers p ++
      match querySelector_in is_submit_button form with
      | Some button =>
          [(3000%Z, RestoreButton (Element.uid button) (Element.innerHTML button))]
      | None => []
      end.
Proof.
  intros Hform Hval Hall.
  destruct (handleFormSubmit_until_validated target p form Hform Hval)
    as (p1 & G & Hrun & Hel & HG & Hbtn & Hinv & Ht & Hg & Hd & Hn).
  exists p1. rewrite (handleFormSubmit_split target p form Hform), Hrun, Hall.
  cbn [negb]. split; [reflexivity |]. split; [exact Hd |].
  split.
  { unfold querySelectorAll. rewrite Hel, filter_map_commute by (intros x; apply HG).
    apply List.length_map. }
  split.
  { intros field e Hfield He. unfold elements_with_uid in He.
    apply filter_In in He as [He Hu]. rewrite Hel in He.
    apply in_map_iff in He as (e0 & <- & He0).
    apply Nat.eqb_eq in Hu. destruct (HG e0) as [Hu0 _].
    apply Hinv; [exact Hall |]. apply in_map_iff. exists field.
    split; [congruence | exact Hfield]. }
  split; [| exact Ht].
  intros button e Hb He. unfold elements_with_uid in He.
  apply filter_In in He as [He Hu]. rewrite Hel in He.
  apply in_map_iff in He as (e0 & <- & He0).
  apply Nat.eqb_eq in Hu. destruct (HG e0) as [Hu0 _].
  apply (Hbtn e0 button Hb). congruence.
Qed.

Lemma handleFormSubmit_valid_proceeds_witness :
  find_in_forest 1 (body (transaction_page "Groceries"))
    = Some (transaction_form "Groceries" true) /\
  exists p',
    handleFormSubmit 1 (transaction_page "Groceries") = Returned tt p' /\
    defaultPrevented p' = false /\
    length (querySelectorAll is_toast p') = 0.
Proof.
  split; [reflexivity |].
  destruct (handleFormSubmit_valid_proceeds 1 (transaction_page "Groceries")
              (transaction_form "Groceries" true) eq_refl)
    as (p' & Hrun & Hd & Htoast & _).
  - repeat constructor; eexists; reflexivity.
  - reflexivity.
  - exists p'. repeat split; assumption.
Defined.

(** X9. When a required field is blank and the form has no submit button the
    handler returns with the submission cancelled and exactly one toast in
    the document, the one that asks to fill in the required fields. *)
Theorem handleFormSubmit_blank_without_button (target : nat) (p : Page) (form : Node) :
  find_in_forest target (body p) = Some form ->
  querySelector_in is_submit_button form = None ->
  Forall (fun f => is_Some (Element.value f))
         (querySelectorAll_in Element.required form) ->
  forallb filled (querySelectorAll_in Element.required form) = false ->
  exists p' toast,
    handleFormSubmit target p = Returned tt p' /\
    defaultPrevented p' = true /\
    querySelectorAll is_toast p' = [toast] /\
    Element.innerHTML toast
      = toast_markup "Please fill in all required fields." true /\
    timers p' = timers p ++ [(5000%Z, DismissToast (Element.uid toast))].
Proof.
  intros Hform Hnone Hval Hblank.
  destruct (handleFormSubmit_until_validated target p form Hform Hval)
    as (p1 & G & Hrun & Hel & HG & Hbtn & Hinv & Ht & Hg & Hd & Hn).
  rewrite (handleFormSubmit_split target p form Hform), Hrun, Hblank, Hnone.
  cbn [negb]. rewrite Hnone in Ht. rewrite app_nil_r in Ht.
  unfold mbind, exec_bind, preventDefault, modify, mret, exec_ret.
  match goal with
  | |- context [showNotification ?m ?t ?q] =>
      destruct (MainSpec.showNotification_spec m t q)
        as (p' & toast & Hshow & Htoast & Hmarkup & _ & Htimers & _ & Hprev)
  end.
  exists p', toast. rewrite Hshow. split; [reflexivity |].
  cbn [defaultPrevented timers] in Hprev, Htimers.
  split; [exact Hprev |]. split; [exact Htoast |]. split; [exact Hmarkup |].
  rewrite Htimers, Ht. reflexivity.
Qed.

Lemma handleFormSubmit_blank_without_button_witness :
  forallb filled (querySelectorAll_in Element.required (transaction_form "   " false))
    = false /\
  exists p' toast,
    handleFormSubmit 1 (page_of (transaction_form "   " false)) = Returned tt p' /\
    defaultPrevented p' = true /\
    querySelectorAll is_toast p' = [toast].
Proof.
  split; [reflexivity |].
  destruct (handleFormSubmit_blank_without_button 1
              (page_of (transaction_form "   " false))
              (transaction_form "   " false) eq_refl eq_refl)
    as (p' & toast & Hrun & Hd & Htoast & _).
  - repeat constructor; eexists; reflexivity.
  - reflexivity.
  - exists p', toast. repeat split; assumption.
Defined.

(** X10. When a required field is blank and the form has a submit button, on a
    page without a global named [originalText], the handler throws a
    ReferenceError after it has cancelled the submission and enabled the
    button again: the button keeps the busy label, no toast is added, and the
    fallback timer is pending. *)
Theorem handleFormSubmit_blank_with_button_throws (target : nat) (p : Page)
    (form : Node) (button : Element.t) :
  find_in_forest target (body p) = Some form ->
  querySelector_in is_submit_button form = Some button ->
  Forall (fun f => is_Some (Element.value f))
         (querySelectorAll_in Element.required form) ->
  forallb filled (querySelectorAll_in Element.required form) = false ->
  globals p !! "originalText" = None ->
  exists p',
    handleFormSubmit target p = Thrown (ReferenceError "originalText") p' /\
    defaultPrevented p' = true /\
    length (querySelectorAll is_toast p') = length (querySelectorAll is_toast p) /\
    (forall e, In e (elements_with_uid (Element.uid button) p') ->
               Element.disabled e = false /\
               Element.innerHTML e = processing_markup) /\
    timers p' = timers p ++
      [(3000%Z, RestoreButton (Element.uid button) (Element.innerHTML button))].
Proof.
  intros Hform Hbutton Hval Hblank Hglobal.
  destruct (handleFormSubmit_until_validated target p form Hform Hval)
    as (p1 & G & Hrun & Hel & HG & Hbtn & Hinv & Ht & Hg & Hd & Hn).
  rewrite (handleFormSubmit_split target p form Hform), Hrun, Hblank, Hbutton.
  cbn [negb]. rewrite Hbutton in Ht.
  unfold mbind, exec_bind, preventDefault, update_element, modify, resolve_global.
  cbn [globals body set_body]. rewrite Hg, Hglobal.
  eexists. split; [reflexivity |].
  cbn [defaultPrevented timers body set_body].
  split; [reflexivity |]. split.
  { unfold querySelectorAll. cbn [body set_body].
    rewrite all_elements_update, Hel, List.map_map, filter_map_commute.
    - apply List.length_map.
    - intros x. unfold written.
      destruct (Nat.eqb _ _); [| apply HG]. apply (HG x). }
  split; [| exact Ht].
  intros e He. unfold elements_with_uid in He. cbn [body set_body] in He.
  rewrite all_elements_update, Hel, List.map_map in He.
  apply filter_In in He as [He Hu].
  apply in_map_iff in He as (e0 & <- & He0).
  rewrite written_uid in Hu by reflexivity. apply Nat.eqb_eq in Hu.
  unfold written. rewrite (proj2 (Nat.eqb_eq _ _) Hu).
  cbn [Element.disabled Element.innerHTML Element.set_disabled].
  split; [reflexivity |].
  apply (Hbtn e0 button Hbutton). destruct (HG e0) as [Hu0 _]. congruence.
Qed.

Lemma handleFormSubmit_blank_with_button_throws_witness :
  querySelector_in is_submit_button (transaction_form "   " true)
    = Some (root (save_button 4)) /\
  globals (transaction_page "   ") !! "originalText" = None /\
  exists p',
    handleFormSubmit 1 (transaction_page "   ")
      = Thrown (ReferenceError "originalText") p' /\
    defaultPrevented p' = true.
Proof.
  split; [reflexivity |]. split; [reflexivity |].
  destruct (handleFormSubmit_blank_with_button_throws 1 (transaction_page "   ")
              (transaction_form "   " true) (root (save_button 4)) eq_refl eq_refl)
    as (p' & Hrun & Hd & _).
  - repeat constructor; eexists; reflexivity.
  - reflexivity.
  - reflexivity.
  - exists p'. split; assumption.
Defined.

(** ** The fallback timer of the submit button *)

Lemma find_node_elements (u : nat) (n m : Node) (e : Element.t) :
  find_node u n = Some m -> In e (elements m) -> In e (elements n).
Proof.
  revert m e. induction n as [x cs IH] using MainSpec.Node_forall_ind.
  intros m e. cbn [find_node].
  destruct (Nat.eqb (Element.uid x) u); [intros [= <-]; trivial |].
  intros Hfind He. cbn [elements]. right.
  induction IH as [| c cs Hc _ IHcs]; [discriminate |].
  cbn [List.flat_map]. apply in_or_app.
  destruct (find_node u c) as [y |] eqn:Hy.
  - left. injection Hfind as ->. apply (Hc m e eq_refl He).
  - right. apply IHcs. exact Hfind.
Qed.

Lemma find_in_forest_elements (u : nat) (forest : list Node) (m : Node)
    (e : Element.t) :
  find_in_forest u forest = Some m -> In e (elements m) ->
  In e (all_elements forest).
Proof.
  unfold all_elements.
  induction forest as [| n forest IH]; [discriminate |].
  cbn [find_in_forest List.flat_map]. intros Hfind He. apply in_or_app.
  destruct (find_node u n) as [y |] eqn:Hy.
  - left. injection Hfind as ->. apply (find_node_elements u n m e Hy He).
  - right. apply IH; assumption.
Qed.

Lemma querySelector_in_elements (sel : Element.t -> bool) (n : Node) (e : Element.t) :
  querySelector_in sel n = Some e -> In e (elements n) /\ sel e = true.
Proof.
  unfold querySelector_in, querySelectorAll_in. intros Hhead.
  assert (Hin : In e (List.filter sel (all_elements (children n)))).
  { destruct (List.filter sel (all_elements (children n))) as [| x l];
      [discriminate |]. injection Hhead as ->. left. reflexivity. }
  apply filter_In in Hin as [Hin Hsel]. split; [| exact Hsel].
  destruct n as [x cs]. cbn [elements children] in *. right. exact Hin.
Qed.

Lemma run_RestoreButton (u : nat) (originalText : string) (p : Page) :
  exists p',
    run_closure (RestoreButton u originalText) p = Returned tt p' /\
    all_elements (body p')
      = List.map (fun e => written u (Element.set_innerHTML originalText)
                             (written u (Element.set_disabled false) e))
                 (all_elements (body p)) /\
    timers p' = timers p.
Proof.
  cbn [run_closure].
  unfold update_element, replace_icons, mbind, exec_bind, modify.
  destruct (globals _ !! "feather"); eexists; (split; [reflexivity |]);
    cbn [body timers set_body]; rewrite !all_elements_update, List.map_map;
    split; reflexivity.
Qed.

(** X11. A valid submission leaves the fallback timer of the submit button
    pending, and when it fires it enables the button and assigns to its
    [innerHTML] the very string the handler read from it when it started:
    the busy label of a valid submission lasts three seconds at most.  The
    button is an element of the page before and after. *)
Theorem fallback_timer_restores_button (target : nat) (p : Page) (form : Node)
    (button : Element.t) :
  find_in_forest target (body p) = Some form ->
  querySelector_in is_submit_button form = Some button ->
  Forall (fun f => is_Some (Element.value f))
         (querySelectorAll_in Element.required form) ->
  forallb filled (querySelectorAll_in Element.required form) = true ->
  In button (all_elements (body p)) /\
  exists p' callback p'',
    handleFormSubmit target p = Returned tt p' /\
    timers p' = timers p ++ [(3000%Z, callback)] /\
    (forall e, In e (elements_with_uid (Element.uid button) p') ->
               Element.disabled e = true /\
               Element.innerHTML e = processing_markup) /\
    run_closure callback p' = Returned tt p'' /\
    elements_with_uid (Element.uid button) p'' <> [] /\
    (forall e, In e (elements_with_uid (Element.uid button) p'') ->
               Element.disabled e = false /\
               Element.innerHTML e = Element.innerHTML button) /\
    timers p'' = timers p'.
Proof.
  intros Hform Hbutton Hval Hall.
  assert (Hin : In button (all_elements (body p))).
  { apply (find_in_forest_elements target (body p) form button Hform).
    apply (querySelector_in_elements is_submit_button form button Hbutton). }
  split; [exact Hin |].
  destruct (handleFormSubmit_until_validated target p form Hform Hval)
    as (p1 & G & Hrun & Hel & HG & Hbtn & Hinv & Ht & Hg & Hd & Hn).
  rewrite Hbutton in Ht.
  destruct (run_RestoreButton (Element.uid button) (Element.innerHTML button) p1)
    as (p2 & Hrun2 & Hel2 & Ht2).
  exists p1, (RestoreButton (Element.uid button) (Element.innerHTML button)), p2.
  rewrite (handleFormSubmit_split target p form Hform), Hrun, Hall.
  cbn [negb]. split; [reflexivity |]. split; [exact Ht |].
  assert (Hrestored : forall e0,
            Element.uid e0 = Element.uid button ->
            let e := written (Element.uid button)
                       (Element.set_innerHTML (Element.innerHTML button))
                       (written (Element.uid button) (Element.set_disabled false)
                          (G e0)) in
            Element.uid e = Element.uid button /\
            Element.disabled e = false /\
            Element.innerHTML e = Element.innerHTML button).
  { intros e0 He0. cbv zeta. unfold written.
    assert (E1 : Nat.eqb (Element.uid (G e0)) (Element.uid button) = true).
    { apply Nat.eqb_eq. destruct (HG e0) as [-> _]. exact He0. }
    rewrite E1. cbn [Element.uid Element.set_disabled]. rewrite E1.
    apply Nat.eqb_eq in E1. repeat split. exact E1. }
  split.
  { intros e He. unfold elements_with_uid in He.
    apply filter_In in He as [He Hu]. rewrite Hel in He.
    apply in_map_iff in He as (e0 & <- & He0).
    apply Nat.eqb_eq in Hu. destruct (HG e0) as [Hu0 _].
    apply (Hbtn e0 button Hbutton). congruence. }
  split; [exact Hrun2 |]. split.
  { intros Hempty.
    assert (Hmem : In (written (Element.uid button)
                         (Element.set_innerHTML (Element.innerHTML button))
                         (written (Element.uid button) (Element.set_disabled false)
                            (G button)))
                      (elements_with_uid (Element.uid button) p2)).
    { unfold elements_with_uid. apply filter_In. split.
      - rewrite Hel2, Hel, List.map_map. apply in_map_iff.
        exists button. split; [reflexivity | exact Hin].
      - apply Nat.eqb_eq. apply (Hrestored button eq_refl). }
    rewrite Hempty in Hmem. destruct Hmem. }
  split; [| exact Ht2].
  intros e He. unfold elements_with_uid in He.
  apply filter_In in He as [He Hu]. rewrite Hel2, Hel, List.map_map in He.
  apply in_map_iff in He as (e0 & <- & He0).
  apply Nat.eqb_eq in Hu.
  assert (Hu0 : Element.uid e0 = Element.uid button).
  { rewrite !written_uid in Hu by reflexivity. destruct (HG e0) as [Hg0 _].
    congruence. }
  apply (Hrestored e0 Hu0).
Qed.

Lemma fallback_timer_restores_button_witness :
  In (root (save_button 4)) (all_elements (body (transaction_page "Groceries"))) /\
  exists p' callback p'',
    handleFormSubmit 1 (transaction_page "Groceries") = Returned tt p' /\
    timers p' = [(3000%Z, callback)] /\
    run_closure callback p' = Returned tt p''.
Proof.
  destruct (fallback_timer_restores_button 1 (transaction_page "Groceries")
              (transaction_form "Groceries" true) (root (save_button 4))
              eq_refl eq_refl)
    as (Hin & p' & callback & p'' & Hrun & Ht & _ & Hrun2 & _).
  - repeat constructor; eexists; reflexivity.
  - reflexivity.
  - split; [exact Hin |]. exists p', callback, p''. repeat split; assumption.
Defined.

(** ** The life of a toast *)

Lemma showNotification_page (message : string) (type : option string) (p : Page) :
  exists p',
    showNotification message type p = Returned tt p' /\
    querySelectorAll is_toast p'
      = [toast_element message (String.eqb (default "info" type) "error")
           (blank_element (next_uid p) "div")] /\
    In (node (toast_element message (String.eqb (default "info" type) "error")
                (blank_element (next_uid p) "div")) []) (body p') /\
    next_uid p' = S (next_uid p) /\
    timers p' = timers p ++ [(5000%Z, DismissToast (next_uid p))] /\
    (forall e, In e (all_elements (body p')) ->
               e = toast_element message (String.eqb (default "info" type) "error")
                     (blank_element (next_uid p) "div") \/
               (In e (all_elements (body p)) /\ is_toast e = false)).
Proof.
  unfold showNotification.
  exec_step. unfold get_state at 1. exec_step. unfold forEach.
  destruct (MainSpec.remove_each (querySelectorAll is_toast p) 0 p)
    as (p1 & Hrun & Hn & Ht & Hg & Hd & Hi & Hel).
  rewrite Hrun.
  assert (Hold : forall e, In e (all_elements (body p1)) ->
                           In e (all_elements (body p)) /\ is_toast e = false).
  { intros e He. destruct (Hel e He) as [Hin Hne]. split; [exact Hin |].
    destruct (is_toast e) eqn:Htoast; [| reflexivity].
    exfalso. apply (Hne e); [| reflexivity].
    unfold querySelectorAll. apply filter_In. split; assumption. }
  assert (Hnone : List.filter is_toast (all_elements (body p1)) = []).
  { apply MainSpec.filter_nil_forall. intros e He. apply Hold, He. }
  unfold createElement, appendChild_body, replace_icons, setTimeout, mbind,
    exec_bind, modify, set_body.
  cbn [body next_uid timers globals defaultPrevented icon_passes].
  rewrite Hn.
  set (toast := toast_element message (String.eqb (default "info" type) "error")
                  (blank_element (next_uid p) "div")).
  assert (Huid : Element.uid toast = next_uid p) by reflexivity.
  assert (Htoast : List.filter is_toast (all_elements (body p1 ++ [node toast []]))
                   = [toast]).
  { rewrite MainSpec.all_elements_app, List.filter_app, Hnone. reflexivity. }
  assert (Hall : forall e, In e (all_elements (body p1 ++ [node toast []])) ->
                           e = toast \/
                           (In e (all_elements (body p)) /\ is_toast e = false)).
  { intros e He. rewrite MainSpec.all_elements_app in He.
    apply in_app_or in He as [He | [<- | []]]; [right; apply Hold, He | left; reflexivity]. }
  destruct (globals p1 !! "feather");
    cbn [body next_uid timers globals defaultPrevented icon_passes];
    (eexists; split; [reflexivity |]);
    unfold querySelectorAll;
    cbn [body next_uid timers globals defaultPrevented icon_passes];
    rewrite Htoast, Ht, Huid;
    (split; [reflexivity |]);
    (split; [apply in_or_app; right; left; reflexivity |]);
    (split; [reflexivity |]); (split; [reflexivity |]); exact Hall.
Qed.

Lemma is_attached_iff (u : nat) (p : Page) :
  is_attached u p = true <->
  exists e, In e (all_elements (body p)) /\ Element.uid e = u.
Proof.
  unfold is_attached. rewrite existsb_exists.
  split; intros (e & He & Hu); exists e; (split; [exact He |]);
    apply Nat.eqb_eq; exact Hu.
Qed.

Lemma in_node_all_elements (e : Element.t) (cs : list Node) (forest : list Node) :
  In (node e cs) forest -> In e (all_elements forest).
Proof.
  intros Hin. unfold all_elements. apply in_flat_map.
  exists (node e cs). split; [exact Hin | left; reflexivity].
Qed.

(** X12. Five seconds after [showNotification] its timer finds the
    notification attached, starts the slide-out animation on it and
    schedules its removal 300 ms later; once that second timer has run the
    notification is detached and the document holds no element of class
    [notification-toast]. *)
Theorem toast_dismisses_itself (message : string) (type : option string) (p : Page) :
  exists p1 u p2 p3,
    showNotification message type p = Returned tt p1 /\
    timers p1 = timers p ++ [(5000%Z, DismissToast u)] /\
    is_attached u p1 = true /\
    run_closure (DismissToast u) p1 = Returned tt p2 /\
    is_attached u p2 = true /\
    (forall e, In e (elements_with_uid u p2) ->
               Element.animation e = "slideOutRight 0.3s ease") /\
    timers p2 = timers p1 ++ [(300%Z, RemoveToast u)] /\
    run_closure (RemoveToast u) p2 = Returned tt p3 /\
    is_attached u p3 = false /\
    querySelectorAll is_toast p3 = [] /\
    timers p3 = timers p2.
Proof.
  destruct (showNotification_page message type p)
    as (p1 & Hrun & Hq & Hin & Hn & Ht & Hall).
  set (toast := toast_element message (String.eqb (default "info" type) "error")
                  (blank_element (next_uid p) "div")) in *.
  assert (Hatt : is_attached (next_uid p) p1 = true).
  { apply is_attached_iff. exists toast. split; [| reflexivity].
    apply (in_node_all_elements toast [] _ Hin). }
  set (f := Element.set_animation "slideOutRight 0.3s ease").
  set (p2 := set_body (List.map (update_node (next_uid p) f) (body p1)) p1).
  assert (Hq2 : querySelectorAll is_toast p2 = [f toast]).
  { unfold querySelectorAll, p2. cbn [body set_body].
    rewrite all_elements_update, filter_map_commute.
    - unfold querySelectorAll in Hq. rewrite Hq. cbn [List.map]. unfold written.
      change (Element.uid toast) with (next_uid p). rewrite Nat.eqb_refl. reflexivity.
    - intros x. unfold written. destruct (Nat.eqb _ _); reflexivity. }
  assert (Hatt2 : is_attached (next_uid p) p2 = true).
  { apply is_attached_iff. exists (f toast). split; [| reflexivity].
    assert (Hf : In (f toast) (querySelectorAll is_toast p2))
      by (rewrite Hq2; left; reflexivity).
    unfold querySelectorAll in Hf. apply filter_In in Hf as [Hf _]. exact Hf. }
  eexists p1, (next_uid p), _, _.
  split; [exact Hrun |]. split; [exact Ht |]. split; [exact Hatt |].
  cbn [run_closure]. exec_step. unfold get_state at 1. exec_step. rewrite Hatt.
  unfold update_element, setTimeout, remove_element, mbind, exec_bind, modify.
  fold f. fold p2.
  split; [reflexivity |].
  split; [exact Hatt2 |].
  split.
  { intros e He. unfold elements_with_uid, p2 in He. cbn [body set_body timers] in He.
    apply filter_In in He as [He Hu]. rewrite all_elements_update in He.
    apply in_map_iff in He as (e0 & <- & _).
    rewrite written_uid in Hu by reflexivity.
    unfold written. rewrite Hu. reflexivity. }
  cbn [body timers set_body].
  split; [reflexivity |]. split; [reflexivity |].
  split.
  { match goal with |- ?a = false => destruct a eqn:Hleft end; [| reflexivity].
    exfalso.
    apply is_attached_iff in Hleft as (e & He & Hu). cbn [body set_body] in He.
    apply MainSpec.in_prune_forest in He as [_ Hne].
    rewrite Hu, Nat.eqb_refl in Hne. discriminate. }
  split; [| reflexivity].
  unfold querySelectorAll. cbn [body set_body].
  apply MainSpec.filter_nil_forall. intros e He.
  apply MainSpec.in_prune_forest in He as [He Hu].
  destruct (is_toast e) eqn:Htoast; [| reflexivity]. exfalso.
  assert (Hf : In e (querySelectorAll is_toast p2)).
  { unfold querySelectorAll. apply filter_In. split; assumption. }
  rewrite Hq2 in Hf. destruct Hf as [<- | []].
  change (Element.uid (f toast)) with (next_uid p) in Hu.
  rewrite Nat.eqb_refl in Hu. discriminate.
Qed.

(** X13. On a page whose elements all have identifiers below the next fresh one,
    a second [showNotification] detaches the toast of the first, and the five
    second timer of the first, left pending, changes nothing when it fires:
    it does not touch the toast that replaced its own. *)
Theorem replaced_toast_timer_does_nothing (message1 message2 : string)
    (type1 type2 : option string) (p : Page) :
  Forall (fun e => Element.uid e < next_uid p) (all_elements (body p)) ->
  exists p1 p2 u1 u2,
    showNotification message1 type1 p = Returned tt p1 /\
    showNotification message2 type2 p1 = Returned tt p2 /\
    timers p2 = timers p ++ [(5000%Z, DismissToast u1); (5000%Z, DismissToast u2)] /\
    u1 <> u2 /\
    is_attached u2 p2 = true /\
    run_closure (DismissToast u1) p2 = Returned tt p2.
Proof.
  intros Hfresh. rewrite Forall_forall in Hfresh.
  destruct (showNotification_page message1 type1 p)
    as (p1 & Hrun1 & Hq1 & Hin1 & Hn1 & Ht1 & Hall1).
  destruct (showNotification_page message2 type2 p1)
    as (p2 & Hrun2 & Hq2 & Hin2 & Hn2 & Ht2 & Hall2).
  exists p1, p2, (next_uid p), (next_uid p1).
  split; [exact Hrun1 |]. split; [exact Hrun2 |].
  split; [rewrite Ht2, Ht1, <- app_assoc; reflexivity |].
  split; [rewrite Hn1; lia |].
  split.
  { apply is_attached_iff. eexists.
    split; [apply (in_node_all_elements _ [] _ Hin2) | reflexivity]. }
  assert (Hdet : is_attached (next_uid p) p2 = false).
  { destruct (is_attached (next_uid p) p2) eqn:Hatt; [| reflexivity]. exfalso.
    apply is_attached_iff in Hatt as (e & He & Hu).
    apply Hall2 in He as [-> | [He Hnot]].
    - cbn in Hu. rewrite Hn1 in Hu. lia.
    - apply Hall1 in He as [-> | [He _]].
      + discriminate Hnot.
      + apply list_elem_of_In in He. apply Hfresh in He. lia. }
  cbn [run_closure]. exec_step. unfold get_state at 1. exec_step.
  rewrite Hdet. reflexivity.
Qed.

Lemma replaced_toast_timer_does_nothing_witness :
  exists p1 p2 u1 u2,
    showNotification "Saved" None (transaction_page "Groceries") = Returned tt p1 /\
    showNotification "Deleted" None p1 = Returned tt p2 /\
    u1 <> u2 /\
    run_closure (DismissToast u1) p2 = Returned tt p2.
Proof.
  destruct (replaced_toast_timer_does_nothing "Saved" "Deleted" None None
              (transaction_page "Groceries"))
    as (p1 & p2 & u1 & u2 & Hrun1 & Hrun2 & _ & Hne & _ & Hnoop).
  - repeat constructor.
  - exists p1, p2, u1, u2. repeat split; assumption.
Defined.

(** X14. Only the type 'error' gives the error look: for every other type,
    'warning' and 'danger' included, and for a call without a type, the
    notification that [showNotification] puts into the document, the one
    whose dismissal it schedules, has the success class and not the error
    class, whatever the message. *)
Theorem toast_of_other_type_looks_like_success (message : string)
    (type : option string) (p : Page) :
  type <> Some "error" ->
  exists p' toast,
    showNotification message type p = Returned tt p' /\
    In toast (all_elements (body p')) /\
    timers p' = timers p ++ [(5000%Z, DismissToast (Element.uid toast))] /\
    Element.classList toast
      = ["notification-toast"; "vintage-alert"; "vintage-alert-success"] /\
    Element.has_class "vintage-alert-success" toast = true /\
    Element.has_class "vintage-alert-error" toast = false.
Proof.
  intros Htype.
  destruct (showNotification_page message type p)
    as (p' & Hrun & _ & Hin & _ & Ht & _).
  assert (Hne : String.eqb (default "info" type) "error" = false).
  { apply String.eqb_neq. destruct type as [t |].
    - intros H. apply Htype. f_equal. exact H.
    - discriminate. }
  rewrite Hne in Hin.
  eexists p', _. split; [exact Hrun |].
  split; [exact (in_node_all_elements _ [] _ Hin) |].
  split; [exact Ht |]. repeat split.
Qed.

Lemma toast_of_other_type_looks_like_success_witness :
  exists p' toast,
    showNotification "Low balance" (Some "warning") (transaction_page "Groceries")
      = Returned tt p' /\
    In toast (all_elements (body p')) /\
    Element.has_class "vintage-alert-success" toast = true.
Proof.
  destruct (toast_of_other_type_looks_like_success "Low balance" (Some "warning")
              (transaction_page "Groceries"))
    as (p' & toast & Hrun & Hin & _ & _ & Hs & _).
  - discriminate.
  - exists p', toast. repeat split; assumption.
Defined.

(** ** Loading states *)

Lemma has_loading_written_remove (u : nat) (e : Element.t) :
  Element.uid e = u ->
  Element.has_class "loading" (written u (Element.classList_remove "loading") e)
    = false.
Proof.
  intros <-. unfold written. rewrite Nat.eqb_refl. apply MainSpec.has_class_remove.
Qed.

Lemma no_loading_after_remove (u : nat) (p : Page) (e : Element.t) :
  In e (elements_with_uid u
          (set_body (List.map (update_node u (Element.classList_remove "loading"))
                       (body p)) p)) ->
  Element.has_class "loading" e = false.
Proof.
  unfold elements_with_uid. cbn [body set_body]. rewrite all_elements_update.
  intros He. apply filter_In in He as [He Hu].
  apply in_map_iff in He as (e0 & <- & _).
  apply has_loading_written_remove.
  apply Nat.eqb_eq in Hu. rewrite written_uid in Hu by reflexivity. exact Hu.
Qed.

(** X15. When the awaited operation returns, [withLoading] returns its result;
    the loading element no longer has the class [loading], and no
    notification is shown: the pending timers are those the operation left. *)
Theorem withLoading_returns {A} (asyncFunction : Exec Page A) (u : nat)
    (p p0 p1 : Page) (result : A) :
  update_element u (Element.classList_add "loading") p = Returned tt p0 ->
  asyncFunction p0 = Returned result p1 ->
  exists p',
    withLoading asyncFunction (Some u) p = Returned result p' /\
    (forall e, In e (elements_with_uid u p') ->
               Element.has_class "loading" e = false) /\
    length (querySelectorAll is_toast p') = length (querySelectorAll is_toast p1) /\
    timers p' = timers p1.
Proof.
  intros Hadd Hrun. unfold withLoading. exec_step. rewrite Hadd.
  unfold try_finally, try_catch. exec_step. rewrite Hrun.
  unfold mret, exec_ret, update_element, modify.
  eexists. split; [reflexivity |]. split; [apply no_loading_after_remove |].
  split; [| reflexivity].
  unfold querySelectorAll. cbn [body set_body].
  rewrite all_elements_update, filter_map_commute.
  - apply List.length_map.
  - intros x. unfold written, is_toast.
    destruct (Nat.eqb _ _); [| reflexivity].
    apply has_class_remove_other. discriminate.
Qed.

Lemma withLoading_returns_witness :
  exists p',
    withLoading (showNotification "Saved" None) (Some 4) (transaction_page "Groceries")
      = Returned tt p' /\
    forall e, In e (elements_with_uid 4 p') -> Element.has_class "loading" e = false.
Proof.
  destruct (withLoading_returns (showNotification "Saved" None) 4
              (transaction_page "Groceries") _ _ tt eq_refl eq_refl)
    as (p' & Hrun & Hno & _).
  exists p'. split; assumption.
Defined.

(** X16. When the awaited operation throws, [withLoading] throws the same error,
    after it has shown the error toast, the only toast of the document then,
    and after it has taken the class [loading] off the loading element. *)
Theorem withLoading_rethrows {A} (asyncFunction : Exec Page A) (u : nat)
    (p p0 p1 : Page) (e : error) :
  update_element u (Element.classList_add "loading") p = Returned tt p0 ->
  asyncFunction p0 = Thrown e p1 ->
  exists p' toast,
    withLoading asyncFunction (Some u) p = Thrown e p' /\
    querySelectorAll is_toast p' = [toast] /\
    Element.innerHTML toast
      = toast_markup "An error occurred. Please try again." true /\
    Element.has_class "vintage-alert-error" toast = true /\
    (forall x, In x (elements_with_uid u p') ->
               Element.has_class "loading" x = false) /\
    timers p' = timers p1 ++ [(5000%Z, DismissToast (Element.uid toast))].
Proof.
  intros Hadd Hrun. unfold withLoading. exec_step. rewrite Hadd.
  unfold try_finally, try_catch. exec_step. rewrite Hrun.
  exec_step.
  destruct (showNotification_page "An error occurred. Please try again."
              (Some "error") p1) as (p2 & Hshow & Hq & _ & _ & Ht & _).
  rewrite Hshow. unfold throw, update_element, modify.
  set (toast := toast_element "An error occurred. Please try again."
                  (String.eqb (default "info" (Some "error")) "error")
                  (blank_element (next_uid p1) "div")) in *.
  set (f := written u (Element.classList_remove "loading")).
  exists (set_body (List.map (update_node u (Element.classList_remove "loading"))
                      (body p2)) p2), (f toast).
  split; [reflexivity |]. split.
  { unfold querySelectorAll in *. cbn [body set_body].
    rewrite all_elements_update, filter_map_commute.
    - rewrite Hq. reflexivity.
    - intros x. unfold written, is_toast.
      destruct (Nat.eqb _ _); [| reflexivity].
      apply has_class_remove_other. discriminate. }
  split.
  { unfold f, written. destruct (Nat.eqb _ _); reflexivity. }
  split.
  { unfold f, written. destruct (Nat.eqb _ _); [| reflexivity].
    rewrite has_class_remove_other by discriminate. reflexivity. }
  split; [apply no_loading_after_remove |].
  cbn [timers set_body]. rewrite Ht. unfold f. rewrite written_uid by reflexivity.
  reflexivity.
Qed.

Lemma withLoading_rethrows_witness :
  exists p' toast,
    withLoading (handleFormSubmit 9) (Some 4) (transaction_page "Groceries")
      = Thrown (TypeError "Cannot read properties of null") p' /\
    querySelectorAll is_toast p' = [toast].
Proof.
  destruct (withLoading_rethrows (handleFormSubmit 9) 4
              (transaction_page "Groceries") _ _ _ eq_refl eq_refl)
    as (p' & toast & Hrun & Hq & _).
  exists p', toast. split; assumption.
Defined.

(** ** Amount fields *)

Lemma classList_add_twice (c : string) (e : Element.t) :
  Element.classList_add c (Element.classList_add c e) = Element.classList_add c e.
Proof.
  unfold Element.classList_add at 1. rewrite MainSpec.has_class_add. reflexivity.
Qed.

Lemma filter_twice {A} (f : A -> bool) (l : list A) :
  List.filter f (List.filter f l) = List.filter f l.
Proof.
  induction l as [| x l IH]; [reflexivity |].
  cbn [List.filter]. destruct (f x) eqn:Hx; [| exact IH].
  cbn [List.filter]. rewrite Hx, IH. reflexivity.
Qed.

Lemma classList_remove_twice (c : string) (e : Element.t) :
  Element.classList_remove c (Element.classList_remove c e)
  = Element.classList_remove c e.
Proof.
  unfold Element.classList_remove, Element.set_classList.
  cbn [Element.uid Element.tag Element.classList Element.type Element.name
       Element.required Element.disabled Element.value Element.innerHTML
       Element.cssText Element.animation].
  rewrite filter_twice. reflexivity.
Qed.

(** X17. Validating an amount field a second time, its text unchanged, changes
    nothing: the class list after two input events is the one after the
    first, whatever the classes and the text were. *)
Theorem validateAmountInput_idempotent (input : Element.t) :
  validateAmountInput (validateAmountInput input) = validateAmountInput input.
Proof.
  assert (Hv : parsed_amount (validateAmountInput input) = parsed_amount input).
  { unfold parsed_amount, validateAmountInput.
    destruct (_ || _); [| reflexivity].
    unfold Element.classList_add. destruct (Element.has_class _ _); reflexivity. }
  unfold validateAmountInput at 1. rewrite Hv. unfold validateAmountInput.
  destruct (_ || _); [apply classList_add_twice | apply classList_remove_twice].
Qed.

(** X18. A positive amount below half a cent passes the validation, but the blur
    handler rewrites the field to "0.00", which the validation then rejects:
    formatting turns an accepted amount into a rejected one. *)
Theorem sub_cent_amount_is_formatted_to_zero (input : Element.t) (m : positive)
    (e : Z) :
  parsed_amount input = S754_finite false m e ->
  (200 * (fraction m e).1 < (fraction m e).2)%Z ->
  is_invalid (validateAmountInput input) = false /\
  Element.value (formatAmountInput input) = Some "0.00" /\
  is_invalid (validateAmountInput (formatAmountInput input)) = true.
Proof.
  intros Hv Hsmall.
  assert (He : (e < 0)%Z).
  { unfold fraction in Hsmall. destruct (0 <=? e)%Z eqn:E; [| lia].
    cbn [fst snd] in Hsmall. apply Z.leb_le in E.
    assert (0 < 2 ^ e)%Z by (apply Z.pow_pos_nonneg; lia). nia. }
  assert (Hfrac : fraction m e = (Zpos m, 2 ^ (- e))%Z).
  { unfold fraction. destruct (0 <=? e)%Z eqn:E; [apply Z.leb_le in E; lia |].
    reflexivity. }
  rewrite Hfrac in Hsmall. cbn [fst snd] in Hsmall.
  assert (Hpow : (0 < 2 ^ (- e))%Z) by (apply Z.pow_pos_nonneg; lia).
  assert (Hfixed : toFixed 2 (S754_finite false m e) = "0.00").
  { unfold toFixed, at_least_1e21.
    replace (Z.shiftl (Zpos m) e) with 0%Z.
    2:{ rewrite <- (Z.opp_involutive e) at 1. rewrite Z.shiftl_opp_r.
        rewrite Z.shiftr_div_pow2 by lia. symmetry. apply Z.div_small. lia. }
    cbn [Z.leb Z.compare Z.pow Z.pow_pos Pos.iter Z.mul Pos.mul].
    rewrite Hfrac.
    replace (round_half_up (Zpos m * 10 ^ Z.of_nat 2) (2 ^ (- e))) with 0%Z.
    2:{ unfold round_half_up. symmetry. apply Z.div_small.
        change (10 ^ Z.of_nat 2)%Z with 100%Z. lia. }
    reflexivity. }
  assert (Hfmt : formatAmountInput input = Element.set_value "0.00" input).
  { unfold formatAmountInput. rewrite Hv, Hfixed. reflexivity. }
  split.
  { unfold is_invalid, validateAmountInput. rewrite Hv.
    apply MainSpec.has_class_remove. }
  split; [rewrite Hfmt; reflexivity |].
  rewrite Hfmt. unfold is_invalid, validateAmountInput.
  replace (parsed_amount (Element.set_value "0.00" input)) with (S754_zero false)
    by (vm_compute; reflexivity).
  apply MainSpec.has_class_add.
Qed.

Lemma sub_cent_amount_is_formatted_to_zero_witness :
  let input := Element.set_value "0.001" (root (text_input 3 "amount" "")) in
  is_invalid (validateAmountInput input) = false /\
  Element.value (formatAmountInput input) = Some "0.00" /\
  is_invalid (validateAmountInput (formatAmountInput input)) = true.
Proof.
  apply (sub_cent_amount_is_formatted_to_zero
           (Element.set_value "0.001" (root (text_input 3 "amount" "")))
           4611686018427388 (-62)).
  - vm_compute. reflexivity.
  - vm_compute. reflexivity.
Defined.

(** ** Date inputs *)

Lemma initializeDateInput_once (today later : string) (input : DateInput) :
  string_truthy today = true ->
  initializeDateInput later (initializeDateInput today input)
  = initializeDateInput today input.
Proof.
  intros Htoday. unfold initializeDateInput.
  destruct input as [name value [max |]];
    cbn [date_name date_value date_max];
    destruct (negb (string_truthy value) && String.eqb name "transaction_date")
      eqn:Hc;
    cbn [date_name date_value date_max]; rewrite ?Htoday, ?Hc; reflexivity.
Qed.

(** X19. Once the date inputs have been initialised on a day, a later run, on
    that day or on another, changes nothing: the [max] attribute and the
    default value stay those of the first run. *)
Theorem initializeDateInputs_first_run_stays (today later : string)
    (dateInputs : list DateInput) :
  string_truthy today = true ->
  initializeDateInputs later (initializeDateInputs today dateInputs)
  = initializeDateInputs today dateInputs.
Proof.
  intros Htoday. unfold initializeDateInputs. rewrite List.map_map.
  apply List.map_ext. intros input. apply initializeDateInput_once, Htoday.
Qed.

Lemma initializeDateInputs_first_run_stays_witness :
  initializeDateInputs "2024-03-02"
    (initializeDateInputs "2024-03-01"
       [ {| date_name := "transaction_date"; date_value := ""; date_max := None |} ])
  = [ {| date_name := "transaction_date"; date_value := "2024-03-01";
         date_max := Some "2024-03-01" |} ].
Proof.
  rewrite (initializeDateInputs_first_run_stays "2024-03-01" "2024-03-02"
             [ {| date_name := "transaction_date"; date_value := "";
                  date_max := None |} ]); reflexivity.
Defined.

(** X20. What the user or the markup has set is kept: an input with a [max]
    attribute keeps it, and an input keeps its value unless the value is
    empty and the input is named [transaction_date]; the names stay. *)
Theorem initializeDateInputs_keeps_what_is_set (today : string)
    (dateInputs : list DateInput) (i : nat) (input : DateInput) :
  dateInputs !! i = Some input ->
  exists input',
    initializeDateInputs today dateInputs !! i = Some input' /\
    date_name input' = date_name input /\
    (is_Some (date_max input) -> date_max input' = date_max input) /\
    (date_max input = None -> date_max input' = Some today) /\
    (date_value input <> "" \/ date_name input <> "transaction_date" ->
     date_value input' = date_value input).
Proof.
  intros Hi. exists (initializeDateInput today input).
  unfold initializeDateInputs. split.
  { change (List.map (initializeDateInput today) dateInputs)
      with (initializeDateInput today <$> dateInputs).
    rewrite list_lookup_fmap, Hi. reflexivity. }
  unfold initializeDateInput.
  destruct input as [name value max]. cbn [date_name date_value date_max].
  assert (Hcond : value <> "" \/ name <> "transaction_date" ->
                  negb (string_truthy value) && String.eqb name "transaction_date"
                  = false).
  { intros [Hv | Hn].
    - destruct value; [contradiction | reflexivity].
    - apply String.eqb_neq in Hn. rewrite Hn. apply andb_false_r. }
  destruct max as [mx |]; cbn [date_name date_value date_max];
    destruct (negb (string_truthy value) && String.eqb name "transaction_date")
      eqn:Hc; cbn [date_name date_value date_max];
    repeat split; try reflexivity; try discriminate;
    try (intros [? [=]]); try (intros H; apply Hcond in H; discriminate).
Qed.

Lemma initializeDateInputs_keeps_what_is_set_witness :
  exists input',
    initializeDateInputs "2024-03-02"
      [ {| date_name := "due_date"; date_value := ""; date_max := Some "2030-01-01" |} ]
      !! 0 = Some input' /\
    date_max input' = Some "2030-01-01" /\
    date_value input' = "".
Proof.
  destruct (initializeDateInputs_keeps_what_is_set "2024-03-02"
              [ {| date_name := "due_date"; date_value := "";
                   date_max := Some "2030-01-01" |} ] 0 _ eq_refl)
    as (input' & Hi & _ & Hmax & _ & Hval).
  exists input'. split; [exact Hi |]. split.
  - apply Hmax. eexists. reflexivity.
  - apply Hval. right. discriminate.
Defined.

End MainExtra.
